(** * any_client: an interactive client for MCP servers

    A shallow embedding of [src/any_client.py] and the properties of its
    header parser, transport configuration, multi-line JSON reader, result
    renderer and command loop.

    Conventions of the embedding.
    - A Python [str] is a [string]; the model covers code points below 128
      (the whitespace and digit classes of [str.strip], [str.split] and
      [str.isdigit] are the ASCII ones).  Beyond that range Python has more
      spaces (U+00A0) and more digits (the superscript two, which
      [str.isdigit] accepts and [int] refuses); the properties that classify
      every line of the input assume [ascii_only] lines.
    - [int(s)] is [py_int]: the value [Str.int s] up to
      [int_max_str_digits] digits, [ValueError] beyond.
    - [print], [input] and the other effects are recorded, in order, in a
      trace of [event]s kept in the [World]; the lines that [input] will
      return are the [stdin] of the [World], and reading past the last one
      raises [EOFError] as Python does.  The terminal and the file system
      are taken not to fail.
    - [json], the [fastmcp] client and the server behind it are not part of
      the repository; they are the parameters of Section [Client].
      [json.loads] has three outcomes: a value, [JSONDecodeError], or
      another exception ([ValueError], [RecursionError]), which the
      [except json.JSONDecodeError] clauses of the program do not catch.
    - [while True:] loops run on fuel; the fuel each entry point supplies is
      shown to be enough, so no result below depends on it. *)

From Stdlib Require Import ZArith Ascii String List DecimalString DecimalNat Lia.
From stdpp Require Import base gmap strings list.

Set Warnings "-register-all".

Local Open Scope Z_scope.
Local Open Scope nat_scope.

(** ** Python string methods *)

Module Str.

(** [str.isspace] on one character, ASCII range: TAB, LF, VT, FF, CR, the
    four separators FS, GS, RS, US, and SPACE. *)
Definition isspace (c : ascii) : bool :=
  let n := nat_of_ascii c in
  ((9 <=? n) && (n <=? 13)) || ((28 <=? n) && (n <=? 31)) || (n =? 32).

Fixpoint lstrip (s : string) : string :=
  match s with
  | EmptyString => EmptyString
  | String c r => if isspace c then lstrip r else s
  end.

Fixpoint rstrip (s : string) : string :=
  match s with
  | EmptyString => EmptyString
  | String c r =>
      match rstrip r with
      | EmptyString => if isspace c then EmptyString else String c EmptyString
      | r' => String c r'
      end
  end.

(** [s.strip()] *)
Definition strip (s : string) : string := rstrip (lstrip s).

(** [s.startswith(p)] *)
Fixpoint startswith (s p : string) : bool :=
  match p, s with
  | EmptyString, _ => true
  | String a p', String b s' => Ascii.eqb a b && startswith s' p'
  | String _ _, EmptyString => false
  end.

(** [p in s] for strings *)
Fixpoint contains (s p : string) : bool :=
  startswith s p ||
  match s with
  | EmptyString => false
  | String _ r => contains r p
  end.

(** [s.split(sep, 1)] for a one-character separator: a list of one or two
    strings, cut at the first occurrence of [sep]. *)
Fixpoint split1 (sep : ascii) (s : string) : list string :=
  match s with
  | EmptyString => [EmptyString]
  | String c r =>
      if Ascii.eqb c sep then [EmptyString; r]
      else match split1 sep r with
           | [a] => [String c a]
           | a :: rest => String c a :: rest
           | [] => [String c EmptyString]
           end
  end.

(** [s.split()]: cut at runs of whitespace, no empty strings in the
    result.  [cur] is the word being read. *)
Fixpoint split_go (cur : string) (s : string) : list string :=
  match s with
  | EmptyString => if decide (cur = EmptyString) then [] else [cur]
  | String c r =>
      if isspace c
      then (if decide (cur = EmptyString) then split_go EmptyString r
            else cur :: split_go EmptyString r)
      else split_go (cur +:+ String c EmptyString) r
  end.

Definition split (s : string) : list string := split_go EmptyString s.

Definition is_digit_char (c : ascii) : bool :=
  let n := nat_of_ascii c in (48 <=? n) && (n <=? 57).

Fixpoint all_digits (s : string) : bool :=
  match s with
  | EmptyString => true
  | String c r => is_digit_char c && all_digits r
  end.

(** [s.isdigit()]: false on the empty string. *)
Definition isdigit (s : string) : bool :=
  match s with
  | EmptyString => false
  | _ => all_digits s
  end.

Fixpoint int_go (acc : Z) (s : string) : Z :=
  match s with
  | EmptyString => acc
  | String c r => int_go (10 * acc + (Z.of_nat (nat_of_ascii c) - 48))%Z r
  end.

(** The number a string of decimal digits denotes, leading zeros allowed:
    what [int(s)] returns when it returns.  The conversion itself, with the
    limit on the number of digits, is [py_int]. *)
Definition int (s : string) : Z := int_go 0%Z s.

(** [str(n)] for a natural number. *)
Definition of_nat (n : nat) : string := NilEmpty.string_of_uint (Nat.to_uint n).

Fixpoint spaces (n : nat) : string :=
  match n with
  | O => EmptyString
  | S k => String " "%char (spaces k)
  end.

(** [f"{s:<w}"]: pad on the right with spaces up to width [w]. *)
Definition ljust (w : nat) (s : string) : string :=
  s +:+ spaces (w - String.length s).

(** Truth value of a string: non-empty. *)
Definition truthy (s : string) : bool :=
  match s with
  | EmptyString => false
  | _ => true
  end.

End Str.

(** ** Values exchanged with the libraries *)

(** What [json.loads] returns.  A float is kept as its [repr]. *)
Inductive JSON : Type :=
| JNull
| JBool (b : bool)
| JInt (n : Z)
| JFloat (repr : string)
| JStr (s : string)
| JList (items : list JSON)
| JDict (entries : list (string * JSON)).

(** Truth value of a Python object, as [arguments or {}] tests it. *)
Definition py_truthy (v : JSON) : bool :=
  match v with
  | JNull => false
  | JBool b => b
  | JInt n => negb (n =? 0)%Z
  | JFloat r => negb (bool_decide (r = "0.0")) && negb (bool_decide (r = "-0.0"))
  | JStr s => Str.truthy s
  | JList l => negb (bool_decide (l = []))
  | JDict d => match d with [] => false | _ => true end
  end.

(** A tool of the catalog: its [name] and the dictionary [model_dump()]
    gives for it. *)
Record Tool := { name : string; model_dump : JSON }.

(** A content segment of a tool result: [content.type], [content.text] and
    the text [print(content)] shows. *)
Record Content := { ctype : string; text : string; crepr : string }.

(** The value of [client.call_tool]: [content] is [None] when the object has
    no attribute of that name; [rrepr] is what [print(result)] shows. *)
Record ToolResult := { content : option (list Content); rrepr : string }.

(** A progress notification, each field as the f-string renders it. *)
Record Progress := { progress : string; total : string; message : string }.

(** The configuration handed to [fastmcp.Client]. *)
Inductive Config : Type :=
| StdioConfig (command : string) (args : list string) (env : gmap string string)
| RemoteConfig (url : string) (headers : gmap string string)
    (transport : string) (sse_read_timeout : nat).

(** The command line, as [argparse] returns it. *)
Record Args := {
  arg_url : string;            (* -url, default "" *)
  arg_type : string;           (* -type, default "" *)
  arg_debug : bool;            (* -debug *)
  arg_header : list string     (* -header, repeatable *)
}.

(** Exceptions.  [Exception msg] stands for any other subclass of Python's
    [Exception]; [KeyboardInterrupt] and [CancelledError] derive from
    [BaseException] only. *)
Inductive exn : Type :=
| EOFError
| TypeError (msg : string)
| ValueError (msg : string)
| RecursionError (msg : string)
| Exception (msg : string)
| KeyboardInterrupt
| CancelledError.

Definition is_Exception (e : exn) : bool :=
  match e with
  | KeyboardInterrupt | CancelledError => false
  | _ => true
  end.

(** [str(e)] *)
Definition exn_str (e : exn) : string :=
  match e with
  | EOFError => "EOF when reading a line"
  | TypeError msg | ValueError msg | RecursionError msg | Exception msg => msg
  | KeyboardInterrupt | CancelledError => ""
  end.

(** What [json.loads] raises besides [JSONDecodeError]: [ValueError], for
    an integer literal longer than the interpreter's limit on the digits of
    an integer, and [RecursionError], for a text nested too deep.  Neither
    is a [JSONDecodeError]. *)
Inductive json_error : Type :=
| JSONValueError (msg : string)
| JSONRecursionError (msg : string).

Definition exn_of (j : json_error) : exn :=
  match j with
  | JSONValueError msg => ValueError msg
  | JSONRecursionError msg => RecursionError msg
  end.

(** The outcome of [json.loads(s)]: a value, [JSONDecodeError], or one of
    the other exceptions. *)
Inductive loaded : Type :=
| Parsed (v : JSON)
| JSONDecodeError
| Raises (j : json_error).

(** The interpreter's limit on the digits of an integer converted from a
    string ([sys.get_int_max_str_digits()], 4300 unless changed), and the
    message of the [ValueError] raised beyond it, for [digits] digits. *)
Definition int_max_str_digits : nat := 4300.

Definition int_limit_message (digits : nat) : string :=
  "Exceeds the limit (4300 digits) for integer string conversion: value has "
  +:+ Str.of_nat digits
  +:+ " digits; use sys.set_int_max_str_digits() to increase the limit".

(** The observable effects, in the order the program performs them. *)
Inductive event : Type :=
| EvPrint (s : string)              (* print(s) *)
| EvInput (prompt : string)         (* input(prompt) *)
| EvPrintHelp                       (* parser.print_help() *)
| EvSleep (seconds : nat)           (* asyncio.sleep *)
| EvLogging                         (* logging.basicConfig(level=DEBUG) *)
| EvFile (path data : string)       (* open(path, "w") and f.write(data) *)
| EvLoads (s : string)              (* json.loads(s) is called *)
| EvConnect (c : Config)            (* async with client: entered *)
| EvClose.                          (* async with client: left *)

Definition nl : string := String (ascii_of_nat 10) EmptyString.

(** ** A reference instance of the libraries

    [json.loads] and [json.dumps] for the fragment of JSON without
    fractions, exponents and [\u] escapes, nested less deep than the
    interpreter's recursion limit, and a small server.  The
    properties below hold for every instance of the parameters; this one
    runs the program on examples. *)

Module RefJson.

Definition is_ws (c : ascii) : bool :=
  let n := nat_of_ascii c in (n =? 32) || (n =? 9) || (n =? 10) || (n =? 13).

Fixpoint skip_ws (s : string) : string :=
  match s with
  | String c r => if is_ws c then skip_ws r else s
  | EmptyString => EmptyString
  end.

Definition chr (n : nat) : ascii := ascii_of_nat n.

(** The characters of a string literal after its opening quote, and what
    follows the closing quote. *)
Fixpoint scan_string (s : string) : option (string * string) :=
  match s with
  | EmptyString => None
  | String c r =>
      if Ascii.eqb c (chr 34) then Some (EmptyString, r)
      else if nat_of_ascii c <? 32 then None
      else if Ascii.eqb c (chr 92) then
        match r with
        | String e r' =>
            let unescaped :=
              if Ascii.eqb e (chr 34) then Some (chr 34)
              else if Ascii.eqb e (chr 92) then Some (chr 92)
              else if Ascii.eqb e "/" then Some "/"%char
              else if Ascii.eqb e "b" then Some (chr 8)
              else if Ascii.eqb e "f" then Some (chr 12)
              else if Ascii.eqb e "n" then Some (chr 10)
              else if Ascii.eqb e "r" then Some (chr 13)
              else if Ascii.eqb e "t" then Some (chr 9)
              else None in
            match unescaped, scan_string r' with
            | Some u, Some (a, rest) => Some (String u a, rest)
            | _, _ => None
            end
        | EmptyString => None
        end
      else
        match scan_string r with
        | Some (a, rest) => Some (String c a, rest)
        | None => None
        end
  end.

Fixpoint drop (n : nat) (s : string) : string :=
  match n, s with
  | S k, String _ r => drop k r
  | _, _ => s
  end.

(** Examples write a JSON text with apostrophes where the double quotes
    go. *)
Fixpoint text_of (s : string) : string :=
  match s with
  | EmptyString => EmptyString
  | String c r => String (if Ascii.eqb c "'" then chr 34 else c) (text_of r)
  end.

Fixpoint scan_digits (s : string) : string * string :=
  match s with
  | String c r =>
      if Str.is_digit_char c
      then let '(d, rest) := scan_digits r in (String c d, rest)
      else (EmptyString, s)
  | EmptyString => (EmptyString, EmptyString)
  end.

(** The outcome of a step of the parser: a result, a syntax error
    ([JSONDecodeError]), or another exception. *)
Inductive step (A : Type) : Type :=
| Done (a : A)
| Bad
| Fails (j : json_error).
Arguments Done {A} a.
Arguments Bad {A}.
Arguments Fails {A} j.

(** An integer literal: an optional minus, then [0] or a digit string with
    no leading zero, not followed by a fraction or an exponent; [int] raises
    [ValueError] on more digits than the limit. *)
Definition scan_int (s : string) : step (Z * string) :=
  let '(neg, body) :=
    match s with
    | String "-" r => (true, r)
    | _ => (false, s)
    end in
  let '(d, rest) := scan_digits body in
  let follows_ok :=
    match rest with
    | String c _ => negb (Ascii.eqb c "." || Ascii.eqb c "e" || Ascii.eqb c "E")
    | EmptyString => true
    end in
  match d with
  | EmptyString => Bad
  | String "0" (String _ _) => Bad
  | _ => if follows_ok
         then (if int_max_str_digits <? String.length d
               then Fails (JSONValueError (int_limit_message (String.length d)))
               else Done (if neg then (- Str.int d)%Z else Str.int d, rest))
         else Bad
  end.

(** [d[k] = v] on a dictionary kept in insertion order. *)
Fixpoint dict_set (k : string) (v : JSON) (d : list (string * JSON))
  : list (string * JSON) :=
  match d with
  | [] => [(k, v)]
  | (k', v') :: rest =>
      if decide (k' = k) then (k, v) :: rest else (k', v') :: dict_set k v rest
  end.

Fixpoint parse_value (fuel : nat) (s : string) : step (JSON * string) :=
  match fuel with
  | O => Bad
  | S n =>
      match skip_ws s with
      | String c r =>
          if Ascii.eqb c "{" then
            match skip_ws r with
            | String "}" r' => Done (JDict [], r')
            | r' => parse_members n r' []
            end
          else if Ascii.eqb c "[" then
            match skip_ws r with
            | String "]" r' => Done (JList [], r')
            | r' => parse_items n r' []
            end
          else if Ascii.eqb c (chr 34) then
            match scan_string r with
            | Some (a, rest) => Done (JStr a, rest)
            | None => Bad
            end
          else if Str.startswith (String c r) "true" then
            Done (JBool true, drop 4 (String c r))
          else if Str.startswith (String c r) "false" then
            Done (JBool false, drop 5 (String c r))
          else if Str.startswith (String c r) "null" then
            Done (JNull, drop 4 (String c r))
          else
            match scan_int (String c r) with
            | Done (z, rest) => Done (JInt z, rest)
            | Bad => Bad
            | Fails j => Fails j
            end
      | EmptyString => Bad
      end
  end
with parse_members (fuel : nat) (s : string) (acc : list (string * JSON))
  : step (JSON * string) :=
  match fuel with
  | O => Bad
  | S n =>
      match s with
      | String c r =>
          if Ascii.eqb c (chr 34) then
            match scan_string r with
            | Some (k, r1) =>
                match skip_ws r1 with
                | String ":" r2 =>
                    match parse_value n r2 with
                    | Done (v, r3) =>
                        match skip_ws r3 with
                        | String "," r4 =>
                            parse_members n (skip_ws r4) (dict_set k v acc)
                        | String "}" r4 => Done (JDict (dict_set k v acc), r4)
                        | _ => Bad
                        end
                    | Bad => Bad
                    | Fails j => Fails j
                    end
                | _ => Bad
                end
            | None => Bad
            end
          else Bad
      | EmptyString => Bad
      end
  end
with parse_items (fuel : nat) (s : string) (acc : list JSON)
  : step (JSON * string) :=
  match fuel with
  | O => Bad
  | S n =>
      match parse_value n s with
      | Done (v, r1) =>
          match skip_ws r1 with
          | String "," r2 => parse_items n r2 (acc ++ [v])
          | String "]" r2 => Done (JList (acc ++ [v]), r2)
          | _ => Bad
          end
      | Bad => Bad
      | Fails j => Fails j
      end
  end.

Definition loads (s : string) : loaded :=
  match parse_value (2 * String.length s + 2) s with
  | Done (v, rest) =>
      match skip_ws rest with
      | EmptyString => Parsed v
      | _ => JSONDecodeError
      end
  | Bad => JSONDecodeError
  | Fails j => Raises j
  end.

Definition hex_digit (n : nat) : ascii :=
  if n <? 10 then chr (48 + n) else chr (87 + n).

Fixpoint escape (s : string) : string :=
  match s with
  | EmptyString => EmptyString
  | String c r =>
      let n := nat_of_ascii c in
      (if n =? 34 then String (chr 92) (String (chr 34) EmptyString)
       else if n =? 92 then String (chr 92) (String (chr 92) EmptyString)
       else if n =? 10 then String (chr 92) "n"
       else if n =? 13 then String (chr 92) "r"
       else if n =? 9 then String (chr 92) "t"
       else if n =? 8 then String (chr 92) "b"
       else if n =? 12 then String (chr 92) "f"
       else if n <? 32 then
         String (chr 92) ("u00" +:+ String (hex_digit (n / 16))
                                     (String (hex_digit (n mod 16)) EmptyString))
       else String c EmptyString) +:+ escape r
  end.

Definition quote (s : string) : string :=
  String (chr 34) (escape s) +:+ String (chr 34) EmptyString.

Definition of_Z (n : Z) : string :=
  if (n <? 0)%Z then "-" +:+ Str.of_nat (Z.to_nat (- n)) else Str.of_nat (Z.to_nat n).

Definition of_float (r : string) : string :=
  if decide (r = "nan") then "NaN"
  else if decide (r = "inf") then "Infinity"
  else if decide (r = "-inf") then "-Infinity"
  else r.

Definition newline (indent : option nat) (level : nat) : string :=
  match indent with
  | Some k => nl +:+ Str.spaces (k * level)
  | None => EmptyString
  end.

Definition comma (indent : option nat) (level : nat) : string :=
  match indent with
  | Some _ => "," +:+ newline indent level
  | None => ", "
  end.

Fixpoint dumps_at (indent : option nat) (level : nat) (v : JSON) {struct v}
  : string :=
  match v with
  | JNull => "null"
  | JBool true => "true"
  | JBool false => "false"
  | JInt n => of_Z n
  | JFloat r => of_float r
  | JStr s => quote s
  | JList [] => "[]"
  | JList (x :: xs) =>
      "[" +:+ newline indent (S level) +:+ dumps_at indent (S level) x
      +:+ (fix more (l : list JSON) : string :=
             match l with
             | [] => EmptyString
             | y :: ys => comma indent (S level) +:+ dumps_at indent (S level) y
                            +:+ more ys
             end) xs
      +:+ newline indent level +:+ "]"
  | JDict [] => "{}"
  | JDict ((k, x) :: es) =>
      "{" +:+ newline indent (S level) +:+ quote k +:+ ": "
      +:+ dumps_at indent (S level) x
      +:+ (fix more (l : list (string * JSON)) : string :=
             match l with
             | [] => EmptyString
             | (k', y) :: ys => comma indent (S level) +:+ quote k' +:+ ": "
                                  +:+ dumps_at indent (S level) y +:+ more ys
             end) es
      +:+ newline indent level +:+ "}"
  end.

(** [json.dumps(v, indent=indent, ensure_ascii=ensure_ascii)]; below code
    point 128 the flag changes nothing. *)
Definition dumps (v : JSON) (indent : option nat) (ensure_ascii : bool)
  : string := dumps_at indent 0 v.

End RefJson.

(** A server with two tools: [echo] reports progress once and returns its
    arguments as one text segment; [fail] raises. *)
Module RefServer.

Definition catalog : list Tool :=
  [ {| name := "echo"; model_dump := JDict [("name", JStr "echo")] |};
    {| name := "fail"; model_dump := JDict [("name", JStr "fail")] |} ].

(** [Client(config)] accepts every configuration. *)
Definition new (_ : Config) : option exn := None.

Definition enter (_ : Config) (s : unit) : option exn * unit := (None, s).

Definition exit (s : unit) : unit := s.

Definition list_tools (s : unit) : (exn + list Tool) * unit :=
  (inr catalog, s).

Definition call_tool (tool_name : string) (arguments : JSON) (s : unit)
  : (list Progress * (exn + ToolResult)) * unit :=
  if decide (tool_name = "echo") then
    (([ {| progress := "1.0"; total := "1.0"; message := "done" |} ],
      inr {| content := Some [ {| ctype := "text";
                                   text := RefJson.dumps arguments None false;
                                   crepr := "" |} ];
             rrepr := "CallToolResult" |}), s)
  else (([], inl (Exception "boom")), s).

Definition repr_config (_ : Config) : string := "{...}".

End RefServer.

(** Inputs for the examples. *)
Module Sample.

Definition tab : string := String (ascii_of_nat 9) EmptyString.

(** An object written over four lines, and its value. *)
Definition object_lines : list string :=
  map RefJson.text_of ["{"; "  'a': 1,"; "  'b': [true, null]"; "}"].

Definition object_value : JSON :=
  JDict [("a", JInt 1); ("b", JList [JBool true; JNull])].

Definition json_segment : Content :=
  {| ctype := "text"; text := RefJson.text_of "{'a':1}"; crepr := "TextContent" |}.

Definition plain_segment : Content :=
  {| ctype := "text"; text := "plain"; crepr := "TextContent" |}.

Definition empty_result : ToolResult :=
  {| content := Some []; rrepr := "CallToolResult(content=[])" |}.

(** [-type stdio] and no [-url]. *)
Definition stdio_args : Args :=
  {| arg_url := ""; arg_type := "stdio"; arg_debug := false; arg_header := [] |}.

Definition sse_args : Args :=
  {| arg_url := "http://host/sse"; arg_type := ""; arg_debug := false;
     arg_header := ["A: 1"; "novalue"; "A :2"] |}.

End Sample.

(** Servers that fail: one whose calls are interrupted after a progress
    notification, one that refuses the connection, one that connects but
    cannot list its tools. *)
Module RefFaulty.

Definition interrupted_call (tool_name : string) (arguments : JSON) (s : unit)
  : (list Progress * (exn + ToolResult)) * unit :=
  (([ {| progress := "0.5"; total := "None"; message := "None" |} ],
    inl KeyboardInterrupt), s).

Definition refuse (_ : Config) (s : unit) : option exn * unit :=
  (Some (Exception "connection refused"), s).

Definition no_tools (s : unit) : (exn + list Tool) * unit :=
  (inl (Exception "tools/list failed"), s).

End RefFaulty.

(** More inputs for the examples. *)
Module Cases.

Definition image_segment : Content :=
  {| ctype := "image"; text := ""; crepr := "ImageContent(type='image')" |}.

Definition mixed_result : ToolResult :=
  {| content := Some [Sample.json_segment; image_segment; Sample.plain_segment];
     rrepr := "CallToolResult" |}.

(** A catalog whose only tool has the empty name. *)
Definition unnamed_catalog : list Tool :=
  [ {| name := ""; model_dump := JDict [("name", JStr "")] |} ].

(** A stdio target with a quoted argument. *)
Definition quoted_target : string := RefJson.text_of "npx -y 'a b'".

Definition web_config : Config :=
  RemoteConfig "http://host/mcp" ∅ "http" 3600.

Fixpoint nines (n : nat) : string :=
  match n with
  | O => EmptyString
  | S k => String "9" (nines k)
  end.

(** A number of 4301 digits, one more than [int] converts. *)
Definition long_number : string := nines 4301.

(** A text segment that holds this number: valid JSON. *)
Definition long_number_segment : Content :=
  {| ctype := "text"; text := long_number; crepr := "TextContent" |}.

(** An object of call arguments that holds this number. *)
Definition long_number_object : string :=
  RefJson.text_of "{'n': " +:+ long_number +:+ "}".

(** A result whose second segment holds this number, and a server whose
    calls answer with it. *)
Definition long_number_result : ToolResult :=
  {| content := Some [Sample.json_segment; long_number_segment;
                      Sample.plain_segment];
     rrepr := "CallToolResult" |}.

Definition long_answer (tool_name : string) (arguments : JSON) (s : unit)
  : (list Progress * (exn + ToolResult)) * unit :=
  (([], inr long_number_result), s).

(** A client that refuses a remote configuration whose endpoint does not
    begin with [http]. *)
Definition strict_new (config : Config) : option exn :=
  match config with
  | RemoteConfig url _ _ _ =>
      if Str.startswith url "http" then None
      else Some (ValueError "invalid server url")
  | StdioConfig _ _ _ => None
  end.

(** [-type sse] with an endpoint that is no URL. *)
Definition bad_url_args : Args :=
  {| arg_url := "host/sse"; arg_type := "sse"; arg_debug := false;
     arg_header := [] |}.

End Cases.

(** ** The monad of effects *)

(** How a computation ends: with a value, with an exception, or, for a loop
    of the model, with its fuel used up. *)
Inductive res (A : Type) : Type :=
| Ret (a : A)
| Raise (e : exn)
| OutOfFuel.
Arguments Ret {A} a.
Arguments Raise {A} e.
Arguments OutOfFuel {A}.

(** One turn of a [while True:] loop: [continue] with a new loop state, or
    leave the loop ([break], [return]) with a value. *)
Inductive flow (S A : Type) : Type :=
| Continue (s : S)
| Break (a : A).
Arguments Continue {S A} s.
Arguments Break {S A} a.

Section Client.

(** The transport and the server behind it, as a state [W] and the
    operations of the client the program uses: [client_new config] is
    [Client(config)], which validates the configuration and may refuse it
    with an exception. *)
Variable W : Type.
Variable client_new : Config -> option exn.
Variable client_enter : Config -> W -> option exn * W.
Variable client_exit : W -> W.
Variable client_list_tools : W -> (exn + list Tool) * W.
Variable client_call_tool :
  string -> JSON -> W -> (list Progress * (exn + ToolResult)) * W.

(** [json.loads], with its three outcomes.  [json.dumps v indent
    ensure_ascii].  [repr_config] is [str] of the configuration
    dictionary. *)
Variable loads : string -> loaded.
Variable dumps : JSON -> option nat -> bool -> string.
Variable repr_config : Config -> string.

Record World := {
  stdin : list string;     (* the lines input() will return *)
  out : list event;        (* the effects so far *)
  srv : W;                 (* transport and server *)
  tools : list Tool        (* self.tools *)
}.

Definition M (A : Type) : Type := World -> res A * World.

Definition ret {A} (a : A) : M A := fun w => (Ret a, w).

Definition raise {A} (e : exn) : M A := fun w => (Raise e, w).

Definition bind {A B} (m : M A) (k : A -> M B) : M B :=
  fun w =>
    match m w with
    | (Ret a, w') => k a w'
    | (Raise e, w') => (Raise e, w')
    | (OutOfFuel, w') => (OutOfFuel, w')
    end.

Declare Scope py_scope.
Delimit Scope py_scope with py.
Notation "x <- m ;; k" := (bind m (fun x => k))
  (at level 100, m at next level, right associativity) : py_scope.
Notation "m ;; k" := (bind m (fun _ => k))
  (at level 100, k at level 200, right associativity) : py_scope.
Local Open Scope py_scope.

Definition emit (e : event) : M unit :=
  fun w => (Ret tt, {| stdin := stdin w; out := out w ++ [e];
                       srv := srv w; tools := tools w |}).

Definition print (s : string) : M unit := emit (EvPrint s).

(** [input(prompt)]: the next line, without its newline; [EOFError] when
    the input is exhausted. *)
Definition input (prompt : string) : M string :=
  fun w =>
    match stdin w with
    | [] => (Raise EOFError,
             {| stdin := []; out := out w ++ [EvInput prompt];
                srv := srv w; tools := tools w |})
    | line :: rest =>
        (Ret line,
         {| stdin := rest; out := out w ++ [EvInput prompt];
            srv := srv w; tools := tools w |})
    end.

(** [try: json.loads(s) except json.JSONDecodeError: ...]: [Some] is the
    value, [None] the handled [JSONDecodeError]; any other exception of
    [json.loads] is not caught there. *)
Definition json_loads (s : string) : M (option JSON) :=
  emit (EvLoads s) ;;
  match loads s with
  | Parsed v => ret (Some v)
  | JSONDecodeError => ret None
  | Raises j => raise (exn_of j)
  end.

(** [int(s)] on a string of digits: [ValueError] beyond the limit on the
    number of digits, leading zeros included. *)
Definition py_int (s : string) : M Z :=
  if int_max_str_digits <? String.length s
  then raise (ValueError (int_limit_message (String.length s)))
  else ret (Str.int s).

Definition get_tools : M (list Tool) := fun w => (Ret (tools w), w).

Definition set_tools (ts : list Tool) : M unit :=
  fun w => (Ret tt, {| stdin := stdin w; out := out w;
                       srv := srv w; tools := ts |}).

(** [while True:] with loop state [s]. *)
Fixpoint while_true {S A} (fuel : nat) (body : S -> M (flow S A)) (s : S)
  : M A :=
  match fuel with
  | O => fun w => (OutOfFuel, w)
  | Datatypes.S n =>
      r <- body s ;;
      match r with
      | Continue s' => while_true n body s'
      | Break a => ret a
      end
  end.

(** ** The multi-line JSON reader, [input_json] *)

(** One turn of the loop of [input_json]; the loop state is the buffer
    [lines]. *)
Definition input_json_body (prompt : string) (lines : string)
  : M (flow string JSON) :=
  line <- input (if Str.truthy lines then "" else prompt) ;;
  let lines := lines +:+ line in
  let lines := Str.strip lines in
  if negb (Str.startswith lines "{") then
    print "invalid json format" ;;
    ret (Continue "")
  else
    r <- json_loads lines ;;
    match r with
    | Some v => ret (Break v)
    | None => ret (Continue lines)
    end.

(** [input_json], a plain [def]. *)
Definition input_json (prompt : string) : M JSON :=
  fun w =>
    while_true (Datatypes.S (length (stdin w))) (input_json_body prompt) "" w.

(** ** The client object: [FastMcpClient] *)

(** [FastMcpClient.__init__] up to line 52: the configuration that is
    handed to [Client]. *)
Definition FastMcpClient_init (server_url transport_type : string)
    (headers : gmap string string) : M Config :=
  if bool_decide (transport_type = "stdio") then
    let parts := Str.split1 " " (Str.strip server_url) in
    let command := nth 0 parts "" in
    let args := if 1 <? length parts then Str.split (nth 1 parts "") else [] in
    let config := StdioConfig command args headers in
    print (nl +:+ "starting stdio mcp with config:" +:+ nl
              +:+ repr_config config +:+ nl) ;;
    ret config
  else
    ret (RemoteConfig server_url headers transport_type 3600).

(** [FastMcpClient(server_url, transport_type, headers)], the whole of
    [__init__]: the configuration is built, then [self.client =
    Client(config)] is constructed, which raises when the client refuses
    the configuration. *)
Definition FastMcpClient_new (server_url transport_type : string)
    (headers : gmap string string) : M Config :=
  config <- FastMcpClient_init server_url transport_type headers ;;
  match client_new config with
  | Some e => raise e
  | None => ret config
  end.

(** The rows of the table, [enumerate(self.tools, 1)]. *)
Fixpoint print_rows (i : nat) (ts : list Tool) : M unit :=
  match ts with
  | [] => ret tt
  | tool :: rest =>
      print (" " +:+ Str.ljust 4 (Str.of_nat i) +:+ " | " +:+ name tool) ;;
      print_rows (Datatypes.S i) rest
  end.

(** [cmd_list_tools], a plain [def]. *)
Definition cmd_list_tools : M unit :=
  print "==================================" ;;
  print "index | tool name" ;;
  ts <- get_tools ;;
  print_rows 1 ts ;;
  print "==================================".

(** [cmd_dump_tools_schema], an [async def]. *)
Definition cmd_dump_tools_schema : M unit :=
  ts <- get_tools ;;
  let tools_schema := JList (map model_dump ts) in
  let s := dumps tools_schema (Some 2) false in
  emit (EvFile "schema.json" s) ;;
  print "schema.json saved".

(** [cmd_show_tool_schema], an [async def]; [None] is Python's [None]. *)
Definition cmd_show_tool_schema (index : Z) : M (option string) :=
  ts <- get_tools ;;
  if ((index <? 0) || (Z.of_nat (length ts) <=? index))%Z then ret None
  else
    match ts !! Z.to_nat index with
    | Some tool =>
        let tool_schema := model_dump tool in
        let s := dumps tool_schema (Some 2) false in
        print s ;;
        ret (Some (name tool))
    | None => raise (Exception "list index out of range")
    end.

(** [log_callback], the progress handler. *)
Definition log_callback (p : Progress) : event :=
  EvPrint ("[PROGRESS] " +:+ progress p +:+ "/" +:+ total p +:+ " "
             +:+ message p +:+ nl).

(** [await self.client.call_tool(name, arguments, progress_handler=...)]:
    the handler runs for each notification, then the call returns or
    raises. *)
Definition call_tool (tool_name : string) (arguments : JSON) : M ToolResult :=
  fun w =>
    let '((notifications, r), s') := client_call_tool tool_name arguments (srv w) in
    let w' := {| stdin := stdin w; out := out w ++ map log_callback notifications;
                 srv := s'; tools := tools w |} in
    match r with
    | inl e => (Raise e, w')
    | inr result => (Ret result, w')
    end.

(** One segment of [result.content]. *)
Definition print_content (c : Content) : M unit :=
  if bool_decide (ctype c = "text") then
    r <- json_loads (text c) ;;
    match r with
    | Some json_data => print (dumps json_data (Some 2) false)
    | None => print (text c)
    end
  else print (crepr c).

Fixpoint for_each {A} (f : A -> M unit) (l : list A) : M unit :=
  match l with
  | [] => ret tt
  | x :: rest => f x ;; for_each f rest
  end.

(** [pretty_print_tool_result] *)
Definition pretty_print_tool_result (result : ToolResult) : M unit :=
  print (nl +:+ "================ tool result ===============" +:+ nl) ;;
  match content result with
  | Some segments => for_each print_content segments
  | None => print (rrepr result)
  end.

(** [try: m except Exception as e: h e] *)
Definition try_except_Exception {A} (m : M A) (h : exn -> M A) : M A :=
  fun w =>
    match m w with
    | (Raise e, w') => if is_Exception e then h e w' else (Raise e, w')
    | r => r
    end.

(** [cmd_call_tool], an [async def]. *)
Definition cmd_call_tool (tool_name : string) (arguments : JSON) : M unit :=
  print ("call tool " +:+ tool_name +:+ " ...") ;;
  try_except_Exception
    (result <- call_tool tool_name
                 (if py_truthy arguments then arguments else JDict []) ;;
     pretty_print_tool_result result)
    (fun e => print ("Failed to call tool '" +:+ tool_name +:+ "': "
                       +:+ exn_str e)).

(** ** The command loop *)

(** The value of a call expression, as [await] sees it: calling an
    [async def] gives a coroutine whose body has not run yet; calling a
    plain [def] runs the body and gives its return value, here [None]. *)
Inductive pyobj (A : Type) : Type :=
| Coroutine (body : M A)
| PyNone.
Arguments Coroutine {A} body.
Arguments PyNone {A}.

Definition call_async {A} (f : M A) : M (pyobj A) := ret (Coroutine f).

Definition call_def {A} (f : M unit) : M (pyobj A) := f ;; ret PyNone.

Definition await {A} (x : pyobj A) : M A :=
  match x with
  | Coroutine body => body
  | PyNone => raise (TypeError "object NoneType can't be used in 'await' expression")
  end.

(** The prompt of [cmd_loop], in UTF-8. *)
Definition cmd_prompt : string := "输入工具编号，或者list/dump/quit >".

(** One turn of the loop of [cmd_loop].  Every branch awaits the call it
    makes; [cmd_list_tools] is the one callee that is a plain [def]. *)
Definition cmd_loop_body (_ : unit) : M (flow unit unit) :=
  line <- input cmd_prompt ;;
  let command := Str.strip line in
  if negb (Str.truthy command) then ret (Continue tt)
  else if bool_decide (command = "list") then
    x <- call_def cmd_list_tools ;; await (A:=unit) x ;; ret (Continue tt)
  else if bool_decide (command = "dump") then
    x <- call_async cmd_dump_tools_schema ;; await (A:=unit) x ;; ret (Continue tt)
  else if bool_decide (command = "quit") then ret (Break tt)
  else if Str.isdigit command then
    index <- py_int command ;;
    x <- call_async (cmd_show_tool_schema (index - 1)%Z) ;;
    tool_name <- await x ;;
    match tool_name with
    | Some tool_name =>
        if Str.truthy tool_name then
          arguments <- input_json
            (nl +:+ nl +:+ "input call tool " +:+ tool_name
                +:+ " json args (support multiple lines json) :" +:+ nl) ;;
          y <- call_async (cmd_call_tool tool_name arguments) ;; await (A:=unit) y ;;
          ret (Continue tt)
        else ret (Continue tt)
    | None => ret (Continue tt)
    end
  else
    print "Unknown command" ;; ret (Continue tt).

(** [cmd_loop], an [async def]. *)
Definition cmd_loop : M unit :=
  fun w => while_true (Datatypes.S (length (stdin w))) cmd_loop_body tt w.

(** [connect_and_loop]: [async with self.client:] connects on entry and
    closes on exit, whether the block returns or raises. *)
Definition connect_and_loop (config : Config) : M unit :=
  fun w =>
    let w0 := {| stdin := stdin w; out := out w ++ [EvConnect config];
                 srv := (client_enter config (srv w)).2; tools := tools w |} in
    match (client_enter config (srv w)).1 with
    | Some e => (Raise e, w0)
    | None =>
        let block :=
          (ts <- (fun w1 =>
                    let '(r, s') := client_list_tools (srv w1) in
                    let w2 := {| stdin := stdin w1; out := out w1;
                                 srv := s'; tools := tools w1 |} in
                    match r with
                    | inl e => (Raise e, w2)
                    | inr ts => (Ret ts, w2)
                    end) ;;
           set_tools ts ;;
           cmd_list_tools ;;
           x <- call_async cmd_loop ;; await x) in
        let '(r, w3) := block w0 in
        (r, {| stdin := stdin w3; out := out w3 ++ [EvClose];
               srv := client_exit (srv w3); tools := tools w3 |})
    end.

(** ** The entry point, [main] *)

Definition SAMPLE : string :=
  nl +:+ "sample:" +:+ nl
  +:+ "any_client.py -type sse -url http://your.com/sse" +:+ nl
  +:+ "any_client.py -type http -url http://your.com/mcp" +:+ nl
  +:+ "any_client.py -type stdio -url "
  +:+ String (ascii_of_nat 34) "npx -y @modelcontextprotocol/server-sequential-thinking"
  +:+ String (ascii_of_nat 34) nl.

(** The loop over [args.header]. *)
Fixpoint parse_headers (hs : list string) (headers : gmap string string)
  : M (gmap string string) :=
  match hs with
  | [] => ret headers
  | header :: rest =>
      let parts := Str.split1 ":" header in
      if length parts =? 2 then
        let key := Str.strip (nth 0 parts "") in
        let val := Str.strip (nth 1 parts "") in
        print ("Use Header " +:+ key +:+ ":" +:+ val) ;;
        parse_headers rest (<[key := val]> headers)
      else
        print ("Invalid header format: " +:+ header) ;;
        parse_headers rest headers
  end.

(** The first block of [main]: the endpoint, from the command line or from
    the prompt.  [None] is the early [return]. *)
Definition read_url (args : Args) : M (option string) :=
  let url := arg_url args in
  if negb (Str.truthy url) then
    emit EvPrintHelp ;;
    print SAMPLE ;;
    print (nl +:+ nl +:+ "input url (sse or streamable):") ;;
    line <- input "" ;;
    let url := Str.strip line in
    if negb (Str.startswith url "http") then
      print "URL string must start with http" ;;
      emit (EvSleep 1) ;;
      ret None
    else ret (Some url)
  else ret (Some url).

Definition main (args : Args) : M unit :=
  r <- read_url args ;;
  match r with
  | None => ret tt
  | Some url =>
      let mcp_type := arg_type args in
      let mcp_type :=
        if negb (Str.truthy mcp_type)
        then (if Str.contains url "sse" then "sse" else "http")
        else mcp_type in
      (if arg_debug args then emit EvLogging else ret tt) ;;
      headers <- parse_headers (arg_header args) ∅ ;;
      config <- FastMcpClient_new url mcp_type headers ;;
      connect_and_loop config
  end.

(** The [__main__] block: [KeyboardInterrupt] and [EOFError] end the run
    with an empty line; anything else is left to the interpreter. *)
Definition script (args : Args) : M unit :=
  fun w =>
    match main args w with
    | (Raise KeyboardInterrupt, w') | (Raise EOFError, w') => print "" w'
    | r => r
    end.

(** ** Definitions used to state the properties *)

(** The world after more effects, and after reading up to [rest]. *)
Definition log (w : World) (evs : list event) : World :=
  {| stdin := stdin w; out := out w ++ evs; srv := srv w; tools := tools w |}.

Definition advance (w : World) (rest : list string) (evs : list event) : World :=
  {| stdin := rest; out := out w ++ evs; srv := srv w; tools := tools w |}.

(** The buffer of [input_json] after the lines [lines], from the buffer
    [b]: each line is appended and the whole is stripped. *)
Definition accumulate_from (b : string) (lines : list string) : string :=
  fold_left (fun b line => Str.strip (b +:+ line)) lines b.

Definition accumulate (lines : list string) : string :=
  accumulate_from "" lines.

(** [c in s] for one character. *)
Fixpoint has_char (c : ascii) (s : string) : bool :=
  match s with
  | EmptyString => false
  | String a r => Ascii.eqb a c || has_char c r
  end.

(** Some character of [s] is whitespace. *)
Fixpoint has_whitespace (s : string) : bool :=
  match s with
  | EmptyString => false
  | String a r => Str.isspace a || has_whitespace r
  end.

(** What [cmd_list_tools] prints for the catalog [ts]. *)
Fixpoint rows (i : nat) (ts : list Tool) : list event :=
  match ts with
  | [] => []
  | tool :: rest =>
      EvPrint (" " +:+ Str.ljust 4 (Str.of_nat i) +:+ " | " +:+ name tool)
        :: rows (Datatypes.S i) rest
  end.

Definition table (ts : list Tool) : list event :=
  [EvPrint "=================================="; EvPrint "index | tool name"]
    ++ rows 1 ts ++ [EvPrint "=================================="].

(** The stdio construction in the words of the specification: the target
    is cut at its first run of whitespace into a command and a remainder,
    and the remainder is split on whitespace.  As with Python's
    [rawTarget.split(None, 1)], whitespace before the command is skipped. *)
Fixpoint spec_cut_whitespace (s : string) : string * string :=
  match s with
  | EmptyString => (EmptyString, EmptyString)
  | String c r =>
      if Str.isspace c then (EmptyString, Str.lstrip r)
      else let '(a, b) := spec_cut_whitespace r in (String c a, b)
  end.

Definition spec_stdio_config (rawTarget : string) (headers : gmap string string)
  : Config :=
  let '(command, remainder) := spec_cut_whitespace (Str.lstrip rawTarget) in
  StdioConfig command (Str.split remainder) headers.

(** The specification's sentence on the stdio construction, at one target. *)
Definition splits_on_first_whitespace_run (rawTarget : string)
    (headers : gmap string string) (w : World) : Prop :=
  (FastMcpClient_init rawTarget "stdio" headers w).1
  = Ret (spec_stdio_config rawTarget headers).

(** The specification's sentence on the interactive endpoint, at one run:
    with the stdio kind chosen on the command line, the endpoint typed at
    the prompt is not turned down for not beginning with [http]. *)
Definition stdio_endpoint_not_rejected (args : Args) (w : World) : Prop :=
  arg_url args = "" -> arg_type args = "stdio" ->
  EvPrint "URL string must start with http" ∉ out (main args w).2.

(** [m] never runs out of fuel and never gives input back. *)
Definition sound {A} (m : M A) : Prop :=
  forall w, (m w).1 <> OutOfFuel /\ length (stdin (m w).2) <= length (stdin w).

(** A loop body that reads at least one line on every turn that continues. *)
Definition consuming {S A} (body : S -> M (flow S A)) : Prop :=
  forall s w,
    match body s w with
    | (Ret (Continue _), w') => length (stdin w') < length (stdin w)
    | (Ret (Break _), w') => length (stdin w') <= length (stdin w)
    | (Raise _, w') => length (stdin w') <= length (stdin w)
    | (OutOfFuel, _) => False
    end.

(** The events of a connected session: printing, prompting, the file of
    [dump] and the calls of [json.loads]. *)
Definition session_event (e : event) : bool :=
  match e with
  | EvPrint _ | EvInput _ | EvFile _ _ | EvLoads _ => true
  | _ => false
  end.

(** [w'] is a later world of the session of [w]: the catalog is the same,
    input has only been consumed, and the trace has only been extended, with
    session events. *)
Definition continues (w w' : World) : Prop :=
  tools w' = tools w /\
  stdin w' `suffix_of` stdin w /\
  exists evs, out w' = out w ++ evs /\ forallb session_event evs = true.

Definition keeps {A} (m : M A) : Prop := forall w, continues w (m w).2.

(** What one content segment adds to the trace: for a text segment the
    call of [json.loads] and then the value re-serialized, or the text as it
    is after [JSONDecodeError], or nothing more when [json.loads] raises
    something else; for another segment the segment itself. *)
Definition segment_events (c : Content) : list event :=
  if bool_decide (ctype c = "text") then
    EvLoads (text c)
      :: match loads (text c) with
         | Parsed json_data => [EvPrint (dumps json_data (Some 2) false)]
         | JSONDecodeError => [EvPrint (text c)]
         | Raises _ => []
         end
  else [EvPrint (crepr c)].

(** The exception that leaves the rendering of a segment, if any: what
    [json.loads] raises on a text segment other than [JSONDecodeError]. *)
Definition segment_error (c : Content) : option json_error :=
  if bool_decide (ctype c = "text") then
    match loads (text c) with
    | Raises j => Some j
    | _ => None
    end
  else None.

(** The loop over the segments: the exception of the first segment that
    raises, if any, and the events up to there. *)
Fixpoint rendering (segments : list Content) : option json_error * list event :=
  match segments with
  | [] => (None, [])
  | c :: rest =>
      match segment_error c with
      | Some j => (Some j, segment_events c)
      | None => let '(err, evs) := rendering rest in (err, segment_events c ++ evs)
      end
  end.

(** What a call answered with [result] adds to the trace after the
    progress lines: the rendering, and the failure message when the
    rendering raises. *)
Definition call_rendering (tool_name : string) (result : ToolResult)
  : list event :=
  match content result with
  | Some segments =>
      EvPrint (nl +:+ "================ tool result ===============" +:+ nl)
        :: (rendering segments).2
        ++ match (rendering segments).1 with
           | Some j => [EvPrint ("Failed to call tool '" +:+ tool_name +:+ "': "
                                   +:+ exn_str (exn_of j))]
           | None => []
           end
  | None =>
      [EvPrint (nl +:+ "================ tool result ===============" +:+ nl);
       EvPrint (rrepr result)]
  end.

(** The characters of [s] are below code point 128. *)
Fixpoint ascii_only (s : string) : bool :=
  match s with
  | EmptyString => true
  | String c r => (nat_of_ascii c <? 128) && ascii_only r
  end.

(** A server whose failing calls raise exceptions derived from
    [Exception]. *)
Definition calls_fail_with_Exception : Prop :=
  forall tool_name arguments s notifications e s',
    client_call_tool tool_name arguments s = ((notifications, inl e), s') ->
    is_Exception e = true.

(** A word of a command line: not empty, no whitespace in it. *)
Definition is_word (a : string) : Prop :=
  a <> "" /\ has_whitespace a = false.

(** What [pretty_print_tool_result] adds to the trace when no segment
    raises: the banner, then the segments in order, or the result itself
    when it has no [content]. *)
Definition result_events (result : ToolResult) : list event :=
  EvPrint (nl +:+ "================ tool result ===============" +:+ nl)
    :: match content result with
       | Some segments => concat (map segment_events segments)
       | None => [EvPrint (rrepr result)]
       end.

(** The transport kind [main] hands to the client: the one of the command
    line, or, when none is given, [sse] or [http] after the endpoint. *)
Definition transport_kind (args : Args) (url : string) : string :=
  if negb (Str.truthy (arg_type args))
  then (if Str.contains url "sse" then "sse" else "http")
  else arg_type args.

(** No connection is opened among the events [evs]. *)
Definition no_connect (evs : list event) : Prop :=
  forall c, EvConnect c ∉ evs.

(** ** Facts about the string methods *)

Local Arguments Ascii.eqb : simpl never.
Local Arguments Str.isspace : simpl never.

Lemma rstrip_cons c r :
  Str.isspace c = false -> Str.rstrip (String c r) = String c (Str.rstrip r).
Proof.
  intros Hc. simpl. destruct (Str.rstrip r); [rewrite Hc|]; reflexivity.
Qed.

Lemma strip_cons c r :
  Str.isspace c = false -> Str.strip (String c r) = String c (Str.rstrip r).
Proof.
  intros Hc. unfold Str.strip. simpl. rewrite Hc. apply rstrip_cons, Hc.
Qed.

Lemma lstrip_head s :
  Str.lstrip s = "" \/ exists c r, Str.lstrip s = String c r /\ Str.isspace c = false.
Proof.
  induction s as [|c r IH]; simpl; [left; reflexivity|].
  destruct (Str.isspace c) eqn:Hc; [exact IH|].
  right. exists c, r. split; [reflexivity | exact Hc].
Qed.

(** A stripped string is empty or begins with a character that is not
    whitespace. *)
Lemma strip_head s :
  Str.strip s = "" \/ exists c r, Str.strip s = String c r /\ Str.isspace c = false.
Proof.
  unfold Str.strip. destruct (lstrip_head s) as [-> | (c & r & -> & Hc)].
  - left. reflexivity.
  - right. exists c, (Str.rstrip r). split; [apply rstrip_cons, Hc | exact Hc].
Qed.

Lemma startswith_brace c r : Str.startswith (String c r) "{" = Ascii.eqb "{" c.
Proof.
  change (Ascii.eqb "{" c && Str.startswith r "" = Ascii.eqb "{" c).
  destruct r; apply andb_true_r.
Qed.

Lemma brace_not_space c : Ascii.eqb "{" c = true -> Str.isspace c = false.
Proof. intros H. apply Ascii.eqb_eq in H. subst c. reflexivity. Qed.

Lemma accumulate_from_cons b l ls :
  accumulate_from b (l :: ls) = accumulate_from (Str.strip (b +:+ l)) ls.
Proof. reflexivity. Qed.

(** Once the buffer begins with a character that is not whitespace, it
    keeps that first character whatever lines are appended. *)
Lemma accumulate_from_head c r lines :
  Str.isspace c = false ->
  exists r', accumulate_from (String c r) lines = String c r'.
Proof.
  intros Hc. revert r. induction lines as [|l ls IH]; intros r.
  - exists r. reflexivity.
  - rewrite accumulate_from_cons.
    change (String c r +:+ l) with (String c (r +:+ l)).
    rewrite strip_cons by exact Hc. apply IH.
Qed.


(** ** Facts about the monad and the loops *)

Lemma while_true_fuel {S A} (body : S -> M (flow S A)) :
  consuming body ->
  forall n m s w,
    length (stdin w) < n -> length (stdin w) < m ->
    while_true n body s w = while_true m body s w.
Proof.
  intros Hb. induction n as [|n IH]; intros m s w Hn Hm; [lia|].
  destruct m as [|m]; [lia|]. simpl. unfold bind.
  specialize (Hb s w). destruct (body s w) as [[[s'|a]|e|] w']; try reflexivity.
  apply IH; lia.
Qed.

Lemma while_true_sound {S A} (body : S -> M (flow S A)) :
  consuming body ->
  forall n s w,
    length (stdin w) < n ->
    (while_true n body s w).1 <> OutOfFuel /\
    length (stdin (while_true n body s w).2) <= length (stdin w).
Proof.
  intros Hb. induction n as [|n IH]; intros s w Hn; [lia|].
  simpl. unfold bind. specialize (Hb s w).
  destruct (body s w) as [[[s'|a]|e|] w']; simpl; try (split; [discriminate | lia]).
  - destruct (IH s' w') as [H1 H2]; [lia|]. split; [exact H1 | lia].
  - contradiction.
Qed.

Lemma sound_ret {A} (a : A) : sound (ret a).
Proof. intros w. simpl. split; [discriminate | lia]. Qed.

Lemma sound_raise {A} e : sound (raise (A:=A) e).
Proof. intros w. simpl. split; [discriminate | lia]. Qed.

Lemma sound_bind {A B} (m : M A) (k : A -> M B) :
  sound m -> (forall a, sound (k a)) -> sound (bind m k).
Proof.
  intros Hm Hk w. unfold bind. specialize (Hm w).
  destruct (m w) as [[a|e|] w']; simpl in *.
  - destruct (Hk a w') as [H1 H2]. split; [exact H1 | lia].
  - split; [discriminate | tauto].
  - tauto.
Qed.

Lemma sound_emit e : sound (emit e).
Proof. intros w. simpl. split; [discriminate | lia]. Qed.

Lemma sound_print s : sound (print s).
Proof. apply sound_emit. Qed.

Lemma sound_input p : sound (input p).
Proof.
  intros w. unfold input. destruct (stdin w); simpl; (split; [discriminate | lia]).
Qed.

Lemma sound_json_loads s : sound (json_loads s).
Proof.
  apply sound_bind; [apply sound_emit | intros _].
  destruct (loads s); [apply sound_ret | apply sound_ret | apply sound_raise].
Qed.

Lemma sound_get_tools : sound get_tools.
Proof. intros w. simpl. split; [discriminate | lia]. Qed.

Lemma input_json_body_consuming prompt : consuming (input_json_body prompt).
Proof.
  intros lines w. unfold input_json_body, bind, input.
  destruct (stdin w) as [|l rest] eqn:E; simpl; [lia|].
  destruct (Str.startswith _ _); simpl; [|lia].
  unfold json_loads, bind, emit. simpl. destruct (loads _); simpl; lia.
Qed.

Lemma sound_input_json prompt : sound (input_json prompt).
Proof.
  intros w. unfold input_json.
  apply while_true_sound; [apply input_json_body_consuming | lia].
Qed.

Local Arguments Str.strip : simpl never.
Local Arguments Str.startswith : simpl never.

Lemma advance_advance w rest1 evs1 rest2 evs2 :
  advance (advance w rest1 evs1) rest2 evs2 = advance w rest2 (evs1 ++ evs2).
Proof. unfold advance. simpl. rewrite <- app_assoc. reflexivity. Qed.

(** One turn of the reader on a buffer that, with the new line, does not
    begin with a brace. *)
Lemma input_json_body_reject prompt lines line rest w :
  stdin w = line :: rest ->
  Str.startswith (Str.strip (lines +:+ line)) "{" = false ->
  input_json_body prompt lines w =
    (Ret (Continue ""),
     advance w rest [EvInput (if Str.truthy lines then "" else prompt);
                     EvPrint "invalid json format"]).
Proof.
  intros Hin Hs. unfold input_json_body, bind, input. rewrite Hin. simpl.
  rewrite Hs. simpl. unfold advance. simpl. rewrite <- app_assoc. reflexivity.
Qed.

(** One turn on a buffer that begins with a brace: the parse is tried. *)
Lemma input_json_body_parse prompt lines line rest w :
  stdin w = line :: rest ->
  Str.startswith (Str.strip (lines +:+ line)) "{" = true ->
  input_json_body prompt lines w =
    (match loads (Str.strip (lines +:+ line)) with
     | Parsed v => Ret (Break v)
     | JSONDecodeError => Ret (Continue (Str.strip (lines +:+ line)))
     | Raises j => Raise (exn_of j)
     end,
     advance w rest [EvInput (if Str.truthy lines then "" else prompt);
                     EvLoads (Str.strip (lines +:+ line))]).
Proof.
  intros Hin Hs. unfold input_json_body, bind, input, json_loads, bind. rewrite Hin.
  simpl. rewrite Hs. simpl. unfold advance. simpl. rewrite <- app_assoc.
  destruct (loads _); reflexivity.
Qed.

Lemma input_json_run prompt : forall lines b fuel w rest v,
  stdin w = lines ++ rest -> lines <> [] ->
  length (stdin w) < fuel ->
  Str.startswith (accumulate_from b lines) "{" = true ->
  loads (accumulate_from b lines) = Parsed v ->
  (forall k, 0 < k < length lines ->
             loads (accumulate_from b (take k lines)) = JSONDecodeError) ->
  exists evs,
    while_true fuel (input_json_body prompt) b w = (Ret v, advance w rest evs).
Proof.
  induction lines as [|l ls IH]; intros b fuel w rest v Hin Hne Hfuel Hs Hv Hk;
    [congruence|].
  destruct fuel as [|n]; [lia|].
  assert (Hlen : length (stdin w) = S (length (ls ++ rest)))
    by (rewrite Hin; reflexivity).
  rewrite accumulate_from_cons in Hs, Hv.
  set (b' := Str.strip (b +:+ l)) in *.
  destruct ls as [|l2 ls'].
  - (* the last line: the buffer parses *)
    simpl in Hs, Hv. cbn [while_true]. unfold bind.
    rewrite (input_json_body_parse prompt b l rest w Hin Hs).
    fold b'. rewrite Hv. simpl. eexists. reflexivity.
  - (* an earlier line *)
    assert (Hnone : loads b' = JSONDecodeError).
    { specialize (Hk 1). simpl in Hk. apply Hk. lia. }
    assert (Hk' : forall k, 0 < k < length (l2 :: ls') ->
                    loads (accumulate_from b' (take k (l2 :: ls'))) = JSONDecodeError).
    { intros k Hr. specialize (Hk (S k)). simpl in Hk. apply Hk. simpl in Hr. lia. }
    cbn [while_true]. unfold bind.
    destruct (Str.startswith b' "{") eqn:Hb'.
    + rewrite (input_json_body_parse prompt b l ((l2 :: ls') ++ rest) w Hin Hb').
      fold b'. rewrite Hnone.
      destruct b' as [|c r] eqn:Eb'; [discriminate|].
      rewrite startswith_brace in Hb'. apply Ascii.eqb_eq in Hb'. subst c.
      destruct (IH (String "{" r) n (advance w ((l2 :: ls') ++ rest)
                  [EvInput (if Str.truthy b then "" else prompt);
                   EvLoads (String "{" r)]) rest v) as [evs Hevs]; try assumption.
      * reflexivity.
      * discriminate.
      * simpl in *. lia.
      * rewrite Hevs, advance_advance. eexists. reflexivity.
    + rewrite (input_json_body_reject prompt b l ((l2 :: ls') ++ rest) w Hin Hb').
      assert (Eb' : b' = "").
      { destruct (strip_head (b +:+ l)) as [E | (c & r & E & Hc)]; [exact E|].
        exfalso. fold b' in E. rewrite E in Hs, Hb'.
        destruct (accumulate_from_head c r (l2 :: ls') Hc) as [r' Hr'].
        rewrite Hr', startswith_brace in Hs. rewrite startswith_brace in Hb'.
        congruence. }
      rewrite Eb' in Hs, Hv, Hk'.
      destruct (IH "" n (advance w ((l2 :: ls') ++ rest)
                  [EvInput (if Str.truthy b then "" else prompt);
                   EvPrint "invalid json format"]) rest v) as [evs Hevs];
        try assumption.
      * reflexivity.
      * discriminate.
      * simpl in *. lia.
      * rewrite Hevs, advance_advance. eexists. reflexivity.
Qed.

Lemma input_json_body_eof prompt lines w :
  stdin w = [] ->
  input_json_body prompt lines w =
    (Raise EOFError, advance w [] [EvInput (if Str.truthy lines then "" else prompt)]).
Proof.
  intros Hin. unfold input_json_body, bind, input. rewrite Hin. reflexivity.
Qed.

(** With fewer lines than the object needs, the reader is still reading when
    the input ends. *)
Lemma input_json_starves prompt : forall lines b fuel w k,
  stdin w = take k lines -> k < length lines ->
  length (stdin w) < fuel ->
  Str.startswith (accumulate_from b lines) "{" = true ->
  (forall j, 0 < j < length lines ->
             loads (accumulate_from b (take j lines)) = JSONDecodeError) ->
  exists evs,
    while_true fuel (input_json_body prompt) b w = (Raise EOFError, advance w [] evs).
Proof.
  induction lines as [|l ls IH]; intros b fuel w k Hin Hlt Hfuel Hs Hk;
    [simpl in Hlt; lia|].
  destruct fuel as [|n]; [lia|].
  cbn [while_true]. unfold bind.
  destruct k as [|k].
  { rewrite (input_json_body_eof prompt b w Hin). eexists. reflexivity. }
  simpl in Hin, Hlt.
  rewrite accumulate_from_cons in Hs.
  set (b' := Str.strip (b +:+ l)) in *.
  assert (Hnone : loads b' = JSONDecodeError).
  { specialize (Hk 1). simpl in Hk. apply Hk. lia. }
  assert (Hk' : forall j, 0 < j < length ls ->
                  loads (accumulate_from b' (take j ls)) = JSONDecodeError).
  { intros j Hr. specialize (Hk (S j)). simpl in Hk. apply Hk. lia. }
  assert (Hlen : length (stdin w) = S (length (take k ls)))
    by (rewrite Hin; reflexivity).
  destruct (Str.startswith b' "{") eqn:Hb'.
  - rewrite (input_json_body_parse prompt b l (take k ls) w Hin Hb').
    fold b'. rewrite Hnone.
    destruct (IH b' n (advance w (take k ls)
                [EvInput (if Str.truthy b then "" else prompt); EvLoads b']) k)
      as [evs Hevs]; try assumption; try reflexivity; try lia.
    + simpl. lia.
    + rewrite Hevs, advance_advance. eexists. reflexivity.
  - rewrite (input_json_body_reject prompt b l (take k ls) w Hin Hb').
    assert (Eb' : b' = "").
    { destruct (strip_head (b +:+ l)) as [E | (c & r & E & Hc)]; [exact E|].
      exfalso. fold b' in E. rewrite E in Hs, Hb'.
      destruct (accumulate_from_head c r ls Hc) as [r' Hr'].
      rewrite Hr', startswith_brace in Hs. rewrite startswith_brace in Hb'.
      congruence. }
    rewrite Eb' in Hs, Hk'.
    destruct (IH "" n (advance w (take k ls)
                [EvInput (if Str.truthy b then "" else prompt);
                 EvPrint "invalid json format"]) k)
      as [evs Hevs]; try assumption; try reflexivity; try lia.
    + simpl. lia.
    + rewrite Hevs, advance_advance. eexists. reflexivity.
Qed.

Create HintDb sound.
#[local] Hint Resolve sound_ret sound_raise sound_emit sound_print sound_input
  sound_json_loads sound_get_tools sound_input_json : sound.

Lemma sound_print_rows ts : forall i, sound (print_rows i ts).
Proof.
  induction ts as [|t ts IH]; intros i; simpl; [apply sound_ret|].
  apply sound_bind; [apply sound_print | intros _; apply IH].
Qed.

Lemma sound_cmd_list_tools : sound cmd_list_tools.
Proof.
  unfold cmd_list_tools.
  repeat (apply sound_bind; [auto using sound_print_rows with sound | intros ?]).
  apply sound_print.
Qed.

Lemma sound_cmd_dump_tools_schema : sound cmd_dump_tools_schema.
Proof.
  unfold cmd_dump_tools_schema.
  repeat (apply sound_bind; [auto with sound | intros ?]). apply sound_print.
Qed.

Lemma sound_cmd_show_tool_schema index : sound (cmd_show_tool_schema index).
Proof.
  unfold cmd_show_tool_schema. apply sound_bind; [apply sound_get_tools|].
  intros ts. destruct (_ || _)%bool; [apply sound_ret|].
  destruct (ts !! _); [|apply sound_raise].
  apply sound_bind; [apply sound_print | intros _; apply sound_ret].
Qed.

Lemma sound_call_tool tool_name arguments : sound (call_tool tool_name arguments).
Proof.
  intros w. unfold call_tool.
  destruct (client_call_tool _ _ _) as [[ps [e|r]] s']; simpl;
    (split; [discriminate | lia]).
Qed.

Lemma sound_print_content c : sound (print_content c).
Proof.
  unfold print_content. destruct (bool_decide _); [|apply sound_print].
  apply sound_bind; [apply sound_json_loads|]. intros [v|]; apply sound_print.
Qed.

Lemma sound_for_each {A} (f : A -> M unit) l :
  (forall x, sound (f x)) -> sound (for_each f l).
Proof.
  intros Hf. induction l as [|x l IH]; simpl; [apply sound_ret|].
  apply sound_bind; [apply Hf | intros _; exact IH].
Qed.

Lemma sound_pretty_print_tool_result result :
  sound (pretty_print_tool_result result).
Proof.
  unfold pretty_print_tool_result. apply sound_bind; [apply sound_print|].
  intros _. destruct (content result); [|apply sound_print].
  apply sound_for_each, sound_print_content.
Qed.

Lemma sound_try_except_Exception {A} (m : M A) h :
  sound m -> (forall e, sound (h e)) -> sound (try_except_Exception m h).
Proof.
  intros Hm Hh w. unfold try_except_Exception. specialize (Hm w).
  destruct (m w) as [[a|e|] w']; simpl in *; try tauto.
  destruct (is_Exception e); simpl; [|tauto].
  destruct (Hh e w') as [H1 H2]. split; [exact H1 | lia].
Qed.

Lemma sound_cmd_call_tool tool_name arguments :
  sound (cmd_call_tool tool_name arguments).
Proof.
  unfold cmd_call_tool. apply sound_bind; [apply sound_print | intros _].
  apply sound_try_except_Exception; [|intros e; apply sound_print].
  apply sound_bind; [apply sound_call_tool|].
  intros r. apply sound_pretty_print_tool_result.
Qed.

#[local] Hint Resolve sound_cmd_list_tools sound_cmd_dump_tools_schema
  sound_cmd_show_tool_schema sound_cmd_call_tool : sound.

(** A turn that begins by reading a line and is sound afterwards consumes
    input. *)
Lemma bind_input_consuming {S A} p (k : string -> M (flow S A)) w :
  (forall line, sound (k line)) ->
  match bind (input p) k w with
  | (Ret (Continue _), w') => length (stdin w') < length (stdin w)
  | (Ret (Break _), w') => length (stdin w') <= length (stdin w)
  | (Raise _, w') => length (stdin w') <= length (stdin w)
  | (OutOfFuel, _) => False
  end.
Proof.
  intros Hk. unfold bind, input. destruct (stdin w) as [|l rest] eqn:E; simpl; [lia|].
  match goal with |- context [k l ?w1] => destruct (Hk l w1) as [H1 H2] end.
  simpl in H2.
  destruct (k l _) as [[[s|a]|e|] w']; simpl in *; try lia. congruence.
Qed.

Lemma sound_ext {A} (m m' : M A) :
  (forall w, m w = m' w) -> sound m' -> sound m.
Proof. intros E H w. rewrite E. apply H. Qed.

(** Awaiting the coroutine of an [async def] runs its body. *)
Lemma await_call_async {A B} (f : M A) (k : A -> M B) w :
  (x <- call_async f ;; y <- await x ;; k y) w = (y <- f ;; k y) w.
Proof. reflexivity. Qed.

(** Awaiting the value of a plain [def]: the body has run, and [await] on
    its [None] raises. *)
Lemma await_call_def {B} (f : M unit) (k : unit -> M B) w :
  (x <- call_def f ;; y <- await (A:=unit) x ;; k y) w =
  (f ;; raise (TypeError "object NoneType can't be used in 'await' expression")) w.
Proof.
  unfold call_def, bind. destruct (f w) as [[[]|e|] w']; reflexivity.
Qed.

Lemma sound_py_int s : sound (py_int s).
Proof.
  unfold py_int. destruct (_ <? _); [apply sound_raise | apply sound_ret].
Qed.

Lemma cmd_loop_body_consuming : consuming cmd_loop_body.
Proof.
  intros [] w. unfold cmd_loop_body. apply bind_input_consuming.
  intros line. cbv zeta.
  destruct (negb _); [apply sound_ret|].
  destruct (bool_decide (_ = "list")).
  { eapply sound_ext; [intros w0; apply await_call_def|].
    apply sound_bind; [apply sound_cmd_list_tools | intros _; apply sound_raise]. }
  destruct (bool_decide (_ = "dump")).
  { eapply sound_ext; [intros w0; apply await_call_async|].
    apply sound_bind; [apply sound_cmd_dump_tools_schema | intros _; apply sound_ret]. }
  destruct (bool_decide (_ = "quit")); [apply sound_ret|].
  destruct (Str.isdigit _).
  - apply sound_bind; [apply sound_py_int | intros index].
    eapply sound_ext; [intros w0; apply await_call_async|].
    apply sound_bind; [apply sound_cmd_show_tool_schema|].
    intros [tool_name|]; [|apply sound_ret].
    destruct (Str.truthy tool_name); [|apply sound_ret].
    apply sound_bind; [apply sound_input_json | intros arguments].
    eapply sound_ext; [intros w0; apply await_call_async|].
    apply sound_bind; [apply sound_cmd_call_tool | intros _; apply sound_ret].
  - apply sound_bind; [apply sound_print | intros _; apply sound_ret].
Qed.

Lemma sound_cmd_loop : sound cmd_loop.
Proof.
  intros w. unfold cmd_loop.
  apply while_true_sound; [apply cmd_loop_body_consuming | lia].
Qed.

(** The loops do not depend on the fuel, once it exceeds the number of
    lines left. *)
Lemma cmd_loop_fuel n w :
  length (stdin w) < n -> while_true n cmd_loop_body tt w = cmd_loop w.
Proof.
  intros H. unfold cmd_loop.
  apply while_true_fuel; [apply cmd_loop_body_consuming | lia | lia].
Qed.

Lemma input_json_fuel prompt n b w :
  length (stdin w) < n ->
  while_true n (input_json_body prompt) b w =
  while_true (S (length (stdin w))) (input_json_body prompt) b w.
Proof.
  intros H. apply while_true_fuel; [apply input_json_body_consuming | lia | lia].
Qed.

(** One turn of the command loop that continues: the loop goes on from the
    world the turn leaves. *)
Lemma cmd_loop_continue w w' :
  cmd_loop_body tt w = (Ret (Continue tt), w') -> cmd_loop w = cmd_loop w'.
Proof.
  intros E. unfold cmd_loop at 1. cbn [while_true]. unfold bind. rewrite E.
  apply cmd_loop_fuel.
  pose proof (cmd_loop_body_consuming tt w) as H. rewrite E in H. lia.
Qed.

(** One turn of the command loop that raises: the loop raises the same and
    leaves the world of the turn. *)
Lemma cmd_loop_raise w e w' :
  cmd_loop_body tt w = (Raise e, w') -> cmd_loop w = (Raise e, w').
Proof.
  intros E. unfold cmd_loop. cbn [while_true]. unfold bind. rewrite E.
  reflexivity.
Qed.

(** ** The Structured Input Reader *)

(** C2.  A JSON object supplied over the lines [lines] (one or more), such
    that the buffer accumulated from fewer lines does not parse
    ([json.loads] returns the value [v] for the buffer of all the lines and
    rejects the buffer of fewer with [JSONDecodeError]): the reader
    returns the parsed value having consumed exactly these lines, the rest of
    the input is left unread, and with only the first [k] of them, [k] less
    than their number, it has not returned when the input ends.  A
    single-line object is the case of one line. *)
Theorem input_json_returns_after_last_line prompt lines rest v w :
  lines <> [] ->
  stdin w = lines ++ rest ->
  Str.startswith (accumulate lines) "{" = true ->
  loads (accumulate lines) = Parsed v ->
  (forall k, 0 < k < length lines -> loads (accumulate (take k lines)) = JSONDecodeError) ->
  (exists evs, input_json prompt w = (Ret v, advance w rest evs)) /\
  (forall k w', k < length lines -> stdin w' = take k lines ->
     exists evs, input_json prompt w' = (Raise EOFError, advance w' [] evs)).
Proof.
  intros Hne Hin Hs Hv Hk. split.
  - unfold input_json. eapply input_json_run; eauto.
  - intros k w' Hlt Hin'. unfold input_json.
    eapply input_json_starves; eauto.
Qed.

(** C3.  When the buffer, with the line just read appended and the whole
    stripped, does not begin with a brace, the turn of the reader ends
    without a call of [json.loads]: the only effects are the prompt and the
    message [invalid json format], and the loop continues from the empty
    buffer, where the next line is asked for with the reader's prompt again.
    At the start of a reader this is the same as a new reader on the rest of
    the input. *)
Theorem input_json_rejects_before_parsing prompt lines line rest w :
  stdin w = line :: rest ->
  Str.startswith (Str.strip (lines +:+ line)) "{" = false ->
  input_json_body prompt lines w =
    (Ret (Continue ""),
     advance w rest [EvInput (if Str.truthy lines then "" else prompt);
                     EvPrint "invalid json format"]) /\
  (forall w1, exists r evs,
     input_json_body prompt "" w1 = (r, advance w1 (tail (stdin w1))
                                           (EvInput prompt :: evs))) /\
  (lines = "" ->
   input_json prompt w =
   input_json prompt (advance w rest [EvInput prompt; EvPrint "invalid json format"])).
Proof.
  intros Hin Hs. split; [|split].
  - apply (input_json_body_reject prompt lines line rest w Hin Hs).
  - intros w1. destruct (stdin w1) as [|l1 r1] eqn:E1.
    + rewrite (input_json_body_eof prompt "" w1 E1). simpl. eauto.
    + simpl. destruct (Str.startswith (Str.strip ("" +:+ l1)) "{") eqn:Hs1.
      * rewrite (input_json_body_parse prompt "" l1 r1 w1 E1 Hs1). simpl. eauto.
      * rewrite (input_json_body_reject prompt "" l1 r1 w1 E1 Hs1). simpl. eauto.
  - intros ->. unfold input_json at 1. rewrite Hin.
    cbn [length while_true]. unfold bind.
    rewrite (input_json_body_reject prompt "" line rest w Hin Hs).
    reflexivity.
Qed.

(** ** The Result Renderer *)

Lemma log_log w evs1 evs2 : log (log w evs1) evs2 = log w (evs1 ++ evs2).
Proof. unfold log. simpl. rewrite <- app_assoc. reflexivity. Qed.

(** One segment: its events, and the exception of [json.loads] if any. *)
Lemma print_content_outcome c w :
  print_content c w =
    (match segment_error c with
     | Some j => Raise (exn_of j)
     | None => Ret tt
     end, log w (segment_events c)).
Proof.
  unfold print_content, segment_error, segment_events.
  destruct (bool_decide _); [|reflexivity].
  unfold bind, json_loads, bind, emit, ret, raise, print, emit, log. simpl.
  destruct (loads (text c)); simpl; rewrite <- ?app_assoc; reflexivity.
Qed.

Lemma for_each_print_content_outcome segs : forall w,
  for_each print_content segs w =
    (match (rendering segs).1 with
     | Some j => Raise (exn_of j)
     | None => Ret tt
     end, log w (rendering segs).2).
Proof.
  induction segs as [|c segs IH]; intros w; simpl.
  - unfold ret, log. rewrite app_nil_r. destruct w; reflexivity.
  - unfold bind. rewrite print_content_outcome.
    destruct (segment_error c) as [j|]; [reflexivity|].
    rewrite IH. destruct (rendering segs) as [err evs]. simpl.
    rewrite log_log. reflexivity.
Qed.

Lemma rendering_ok segs :
  (forall c, c ∈ segs -> segment_error c = None) ->
  rendering segs = (None, concat (map segment_events segs)).
Proof.
  induction segs as [|c segs IH]; intros H; [reflexivity|]. simpl.
  rewrite (H c) by (apply elem_of_cons; left; reflexivity).
  rewrite IH; [reflexivity|].
  intros c' Hc'. apply H, elem_of_cons. right. exact Hc'.
Qed.

Lemma segment_error_text c j :
  segment_error c = Some j ->
  ctype c = "text" /\ loads (text c) = Raises j /\
  segment_events c = [EvLoads (text c)].
Proof.
  unfold segment_error, segment_events.
  destruct (bool_decide (ctype c = "text")) eqn:Ht; [|discriminate].
  apply bool_decide_eq_true_1 in Ht.
  destruct (loads (text c)) as [v| |j0]; try discriminate.
  intros E. injection E as ->. repeat split; assumption.
Qed.

Lemma rendering_fail before c after j :
  (forall c', c' ∈ before -> segment_error c' = None) ->
  segment_error c = Some j ->
  rendering (before ++ c :: after)
  = (Some j, concat (map segment_events before) ++ [EvLoads (text c)]).
Proof.
  intros Hb Hc. induction before as [|c0 before IH]; simpl.
  - rewrite Hc. destruct (segment_error_text c j Hc) as (_ & _ & ->). reflexivity.
  - rewrite (Hb c0) by (apply elem_of_cons; left; reflexivity).
    rewrite IH; [rewrite <- app_assoc; reflexivity|].
    intros c' Hc'. apply Hb, elem_of_cons. right. exact Hc'.
Qed.

Lemma pretty_print_tool_result_outcome result w :
  pretty_print_tool_result result w =
    match content result with
    | Some segs =>
        (match (rendering segs).1 with
         | Some j => Raise (exn_of j)
         | None => Ret tt
         end,
         log w (EvPrint (nl +:+ "================ tool result ===============" +:+ nl)
                  :: (rendering segs).2))
    | None =>
        (Ret tt,
         log w [EvPrint (nl +:+ "================ tool result ===============" +:+ nl);
                EvPrint (rrepr result)])
    end.
Proof.
  unfold pretty_print_tool_result, bind, print, emit.
  destruct (content result) as [segs|].
  - rewrite for_each_print_content_outcome. unfold log. simpl.
    rewrite <- app_assoc. reflexivity.
  - unfold log. simpl. rewrite <- app_assoc. reflexivity.
Qed.

(** C6.  Rendering a result whose segments are [segments].  A text
    segment adds the call of [json.loads] on its payload and then the value
    printed as [json.dumps(value, indent=2, ensure_ascii=False)] when the
    payload parses, or the payload as it is after [JSONDecodeError].  When
    no segment makes [json.loads] raise another exception, the renderer
    prints the banner and the segments in order and returns.  It is not
    true that rendering never raises: when [json.loads] raises another
    exception on a text segment (a [ValueError] for an integer of more than
    4300 digits, a [RecursionError]), that exception leaves the renderer,
    after the banner and the segments before; neither the value nor the text
    of that segment is printed. *)
Theorem text_segment_rendering result segments w :
  content result = Some segments ->
  ((forall c, c ∈ segments -> segment_error c = None) ->
   pretty_print_tool_result result w =
     (Ret tt,
      log w (EvPrint (nl +:+ "================ tool result ===============" +:+ nl)
               :: concat (map segment_events segments)))) /\
  (forall before c after j,
     segments = before ++ c :: after ->
     (forall c', c' ∈ before -> segment_error c' = None) ->
     segment_error c = Some j ->
     pretty_print_tool_result result w =
       (Raise (exn_of j),
        log w (EvPrint (nl +:+ "================ tool result ===============" +:+ nl)
                 :: concat (map segment_events before) ++ [EvLoads (text c)]))) /\
  (forall c,
     ctype c = "text" ->
     segment_events c =
       EvLoads (text c)
         :: match loads (text c) with
            | Parsed json_data => [EvPrint (dumps json_data (Some 2) false)]
            | JSONDecodeError => [EvPrint (text c)]
            | Raises _ => []
            end /\
     segment_error c =
       match loads (text c) with
       | Raises j => Some j
       | _ => None
       end).
Proof.
  intros Hc. rewrite pretty_print_tool_result_outcome, Hc.
  split; [|split].
  - intros Hok. rewrite (rendering_ok segments Hok). reflexivity.
  - intros before c after j -> Hb Hj. rewrite (rendering_fail before c after j Hb Hj).
    reflexivity.
  - intros c Ht. unfold segment_events, segment_error.
    rewrite bool_decide_eq_true_2 by exact Ht. split; reflexivity.
Qed.

(** C10.  A result whose [content] is the empty list prints the banner and
    nothing else; the whole result is printed only when it has no [content]
    attribute; with a [content] attribute the output does not depend on the
    result's own representation. *)
Theorem empty_content_prints_banner_only result w :
  (content result = Some [] ->
   pretty_print_tool_result result w =
     (Ret tt, log w [EvPrint (nl +:+ "================ tool result ===============" +:+ nl)])) /\
  (content result = None ->
   pretty_print_tool_result result w =
     (Ret tt, log w [EvPrint (nl +:+ "================ tool result ===============" +:+ nl);
                     EvPrint (rrepr result)])) /\
  (forall segs other, content result = Some segs ->
   pretty_print_tool_result result w =
   pretty_print_tool_result {| content := Some segs; rrepr := other |} w).
Proof.
  unfold pretty_print_tool_result, bind, print, emit, log. simpl.
  split; [|split].
  - intros ->. reflexivity.
  - intros ->. simpl. rewrite <- app_assoc. reflexivity.
  - intros segs other ->. reflexivity.
Qed.

(** ** The Session Engine and the Command Loop *)

Lemma isdigit_not_keyword s :
  Str.isdigit s = true ->
  Str.truthy s = true /\ s <> "list" /\ s <> "dump" /\ s <> "quit".
Proof.
  intros H. repeat split; try (intros ->; discriminate H).
  destruct s; [discriminate H | reflexivity].
Qed.

(** The turn of the loop on a command made of digits. *)
Lemma cmd_loop_body_digits w command rest :
  stdin w = command :: rest ->
  Str.isdigit (Str.strip command) = true ->
  String.length (Str.strip command) <= int_max_str_digits ->
  cmd_loop_body tt w =
  (tool_name <- cmd_show_tool_schema (Str.int (Str.strip command) - 1)%Z ;;
   match tool_name with
   | Some tool_name =>
       if Str.truthy tool_name then
         arguments <- input_json
           (nl +:+ nl +:+ "input call tool " +:+ tool_name
               +:+ " json args (support multiple lines json) :" +:+ nl) ;;
         cmd_call_tool tool_name arguments ;;
         ret (Continue tt)
       else ret (Continue tt)
   | None => ret (Continue tt)
   end) (advance w rest [EvInput cmd_prompt]).
Proof.
  intros Hin Hd Hlen. destruct (isdigit_not_keyword _ Hd) as (Ht & Hl & Hdu & Hq).
  unfold cmd_loop_body. unfold bind at 1. unfold input. rewrite Hin.
  cbv zeta. rewrite Ht. cbn [negb].
  rewrite !bool_decide_eq_false_2 by assumption. rewrite Hd.
  unfold bind at 1. unfold py_int.
  replace (int_max_str_digits <? String.length (Str.strip command)) with false
    by (symmetry; apply Nat.ltb_ge; exact Hlen).
  reflexivity.
Qed.

(** The turn of the loop on a command of more digits than [int] converts:
    [int(command)] raises and nothing is printed. *)
Lemma cmd_loop_body_long_digits w command rest :
  stdin w = command :: rest ->
  Str.isdigit (Str.strip command) = true ->
  int_max_str_digits < String.length (Str.strip command) ->
  cmd_loop_body tt w =
  (Raise (ValueError (int_limit_message (String.length (Str.strip command)))),
   advance w rest [EvInput cmd_prompt]).
Proof.
  intros Hin Hd Hlen. destruct (isdigit_not_keyword _ Hd) as (Ht & Hl & Hdu & Hq).
  unfold cmd_loop_body. unfold bind at 1. unfold input. rewrite Hin.
  cbv zeta. rewrite Ht. cbn [negb].
  rewrite !bool_decide_eq_false_2 by assumption. rewrite Hd.
  unfold bind at 1. unfold py_int.
  replace (int_max_str_digits <? String.length (Str.strip command)) with true
    by (symmetry; apply Nat.ltb_lt; exact Hlen).
  reflexivity.
Qed.

Lemma cmd_show_tool_schema_out_of_range index w :
  (index < 0 \/ Z.of_nat (length (tools w)) <= index)%Z ->
  cmd_show_tool_schema index w = (Ret None, w).
Proof.
  intros H. unfold cmd_show_tool_schema, bind, get_tools.
  replace ((index <? 0)%Z || (Z.of_nat (length (tools w)) <=? index)%Z)
    with true; [reflexivity|].
  symmetry. apply orb_true_iff. destruct H; [left | right]; lia.
Qed.

Lemma cmd_show_tool_schema_in_range index tool w :
  (0 <= index)%Z ->
  tools w !! Z.to_nat index = Some tool ->
  cmd_show_tool_schema index w =
    (Ret (Some (name tool)), log w [EvPrint (dumps (model_dump tool) (Some 2) false)]).
Proof.
  intros H0 Hl. unfold cmd_show_tool_schema, bind, get_tools.
  pose proof (lookup_lt_Some _ _ _ Hl) as Hlt.
  replace ((index <? 0)%Z || (Z.of_nat (length (tools w)) <=? index)%Z)
    with false.
  - rewrite Hl. reflexivity.
  - symmetry. apply orb_false_iff. split; lia.
Qed.

Lemma input_json_single prompt line rest v w :
  stdin w = line :: rest ->
  Str.startswith (Str.strip line) "{" = true ->
  loads (Str.strip line) = Parsed v ->
  input_json prompt w =
    (Ret v, advance w rest [EvInput prompt; EvLoads (Str.strip line)]).
Proof.
  intros Hin Hs Hv. unfold input_json. rewrite Hin.
  cbn [length while_true]. unfold bind.
  rewrite (input_json_body_parse prompt "" line rest w Hin Hs).
  change ("" +:+ line) with line. rewrite Hv. reflexivity.
Qed.

Lemma cmd_call_tool_failure tool_name arguments w notifications e s' :
  client_call_tool tool_name
    (if py_truthy arguments then arguments else JDict []) (srv w)
    = ((notifications, inl e), s') ->
  is_Exception e = true ->
  cmd_call_tool tool_name arguments w =
    (Ret tt,
     {| stdin := stdin w;
        out := out w ++ [EvPrint ("call tool " +:+ tool_name +:+ " ...")]
                 ++ map log_callback notifications
                 ++ [EvPrint ("Failed to call tool '" +:+ tool_name +:+ "': "
                                +:+ exn_str e)];
        srv := s'; tools := tools w |}).
Proof.
  intros Hc He.
  unfold cmd_call_tool, bind, try_except_Exception, bind, call_tool, print, emit.
  simpl. rewrite Hc. simpl. rewrite He. simpl.
  rewrite <- !app_assoc. reflexivity.
Qed.

(** C7.  A call of the tool that raises an exception [e] (any subclass of
    [Exception]): [cmd_call_tool] returns normally; after the notifications
    of the call it prints [Failed to call tool '<name>': <str(e)>]; the
    catalog and the input are as before.  In the command loop, with a tool
    chosen by its number (a command that [int] converts: at most
    [int_max_str_digits] digits) and the arguments given on one line, the
    loop goes on with the next command. *)
Theorem call_failure_is_absorbed tool_name arguments w notifications e s' :
  client_call_tool tool_name
    (if py_truthy arguments then arguments else JDict []) (srv w)
    = ((notifications, inl e), s') ->
  is_Exception e = true ->
  cmd_call_tool tool_name arguments w =
    (Ret tt,
     {| stdin := stdin w;
        out := out w ++ [EvPrint ("call tool " +:+ tool_name +:+ " ...")]
                 ++ map log_callback notifications
                 ++ [EvPrint ("Failed to call tool '" +:+ tool_name +:+ "': "
                                +:+ exn_str e)];
        srv := s'; tools := tools w |}) /\
  (forall w0 command line rest tool,
     stdin w0 = command :: line :: rest ->
     srv w0 = srv w ->
     Str.isdigit (Str.strip command) = true ->
     String.length (Str.strip command) <= int_max_str_digits ->
     (1 <= Str.int (Str.strip command))%Z ->
     tools w0 !! Z.to_nat (Str.int (Str.strip command) - 1) = Some tool ->
     name tool = tool_name ->
     tool_name <> "" ->
     Str.startswith (Str.strip line) "{" = true ->
     loads (Str.strip line) = Parsed arguments ->
     cmd_loop w0 =
     cmd_loop
       {| stdin := rest;
          out := out w0
            ++ [EvInput cmd_prompt;
                EvPrint (dumps (model_dump tool) (Some 2) false);
                EvInput (nl +:+ nl +:+ "input call tool " +:+ tool_name
                           +:+ " json args (support multiple lines json) :" +:+ nl);
                EvLoads (Str.strip line);
                EvPrint ("call tool " +:+ tool_name +:+ " ...")]
            ++ map log_callback notifications
            ++ [EvPrint ("Failed to call tool '" +:+ tool_name +:+ "': "
                           +:+ exn_str e)];
          srv := s'; tools := tools w0 |}).
Proof.
  intros Hc He. split; [apply cmd_call_tool_failure; assumption|].
  intros w0 command line rest tool Hin Hsrv Hd Hlen H1 Hl Hn Hne Hs Hv.
  apply cmd_loop_continue.
  rewrite (cmd_loop_body_digits w0 command (line :: rest) Hin Hd Hlen).
  unfold bind at 1.
  rewrite (cmd_show_tool_schema_in_range _ tool) by (simpl; (lia || exact Hl)).
  rewrite Hn.
  replace (Str.truthy tool_name) with true by (destruct tool_name; [congruence | reflexivity]).
  unfold bind at 1.
  erewrite input_json_single; [|reflexivity|exact Hs|exact Hv].
  unfold bind at 1.
  erewrite cmd_call_tool_failure; [|simpl; rewrite Hsrv; exact Hc|exact He].
  unfold ret. simpl. rewrite <- !app_assoc. reflexivity.
Qed.

(** C4.  An index below zero, or at or after the length of the catalog (any
    index when the catalog is empty): [cmd_show_tool_schema] returns [None],
    prints nothing and raises nothing.  A command of digits that names such
    a tool (its number less one is such an index) and that [int] converts
    (at most [int_max_str_digits] digits) only consumes its line: the loop
    does not ask for arguments and goes on with the next command.  A command
    of more digits, which names no tool of a catalog that a session can
    hold, does not reach [cmd_show_tool_schema]: [int(command)] raises
    [ValueError], nothing catches it, and the loop ends with that error, the
    commands after it unread. *)
Theorem out_of_range_index_does_nothing w :
  (forall index,
     (index < 0 \/ Z.of_nat (length (tools w)) <= index)%Z ->
     cmd_show_tool_schema index w = (Ret None, w)) /\
  (forall command rest,
     stdin w = command :: rest ->
     Str.isdigit (Str.strip command) = true ->
     String.length (Str.strip command) <= int_max_str_digits ->
     (Str.int (Str.strip command) - 1 < 0 \/
      Z.of_nat (length (tools w)) <= Str.int (Str.strip command) - 1)%Z ->
     cmd_loop_body tt w = (Ret (Continue tt), advance w rest [EvInput cmd_prompt]) /\
     cmd_loop w = cmd_loop (advance w rest [EvInput cmd_prompt])) /\
  (forall command rest,
     stdin w = command :: rest ->
     Str.isdigit (Str.strip command) = true ->
     int_max_str_digits < String.length (Str.strip command) ->
     cmd_loop w =
       (Raise (ValueError (int_limit_message (String.length (Str.strip command)))),
        advance w rest [EvInput cmd_prompt])).
Proof.
  split; [intros index; apply cmd_show_tool_schema_out_of_range|].
  split.
  - intros command rest Hin Hd Hlen Hr.
    assert (E : cmd_loop_body tt w =
                (Ret (Continue tt), advance w rest [EvInput cmd_prompt])).
    { rewrite (cmd_loop_body_digits w command rest Hin Hd Hlen). unfold bind.
      rewrite cmd_show_tool_schema_out_of_range by exact Hr. reflexivity. }
    split; [exact E | apply cmd_loop_continue, E].
  - intros command rest Hin Hd Hlen.
    apply cmd_loop_raise.
    exact (cmd_loop_body_long_digits w command rest Hin Hd Hlen).
Qed.

Lemma print_rows_log ts : forall i w, print_rows i ts w = (Ret tt, log w (rows i ts)).
Proof.
  induction ts as [|t ts IH]; intros i w; simpl.
  - unfold ret, log. rewrite app_nil_r. destruct w; reflexivity.
  - unfold bind, print, emit. rewrite IH. unfold log. simpl.
    rewrite <- app_assoc. reflexivity.
Qed.

Lemma cmd_list_tools_log w : cmd_list_tools w = (Ret tt, log w (table (tools w))).
Proof.
  unfold cmd_list_tools, bind, print, emit, get_tools. simpl.
  rewrite print_rows_log. unfold log, table. simpl.
  rewrite <- !app_assoc. reflexivity.
Qed.

(** C1.  The command [list] at the prompt: [cmd_list_tools] prints the
    table of the catalog, then [await] is applied to the [None] it returned
    and raises [TypeError], which leaves the loop; the commands after it are
    not read. *)
Theorem list_command_raises_TypeError inp o s ts :
  cmd_loop {| stdin := "list" :: inp; out := o; srv := s; tools := ts |} =
  (Raise (TypeError "object NoneType can't be used in 'await' expression"),
   {| stdin := inp; out := o ++ EvInput cmd_prompt :: table ts;
      srv := s; tools := ts |}).
Proof.
  unfold cmd_loop. cbn [stdin length while_true]. unfold bind at 1.
  unfold cmd_loop_body. unfold bind at 1. unfold input. cbn [stdin out srv tools].
  change (Str.strip "list") with "list". cbv zeta.
  change (negb (Str.truthy "list")) with false. cbv iota.
  rewrite bool_decide_eq_true_2 by reflexivity.
  rewrite await_call_def. unfold bind. rewrite cmd_list_tools_log.
  unfold raise, log. simpl. rewrite <- app_assoc. reflexivity.
Qed.

(** ** The Transport Config Builder *)

Lemma split1_no_sep sep s : has_char sep s = false -> Str.split1 sep s = [s].
Proof.
  induction s as [|c r IH]; simpl; [reflexivity|].
  intros H. apply orb_false_iff in H as [Hc Hr].
  rewrite Hc, (IH Hr). reflexivity.
Qed.

Lemma split1_at_sep sep a b :
  has_char sep a = false -> Str.split1 sep (a +:+ String sep b) = [a; b].
Proof.
  induction a as [|c r IH]; simpl.
  - intros _. rewrite Ascii.eqb_refl. reflexivity.
  - intros H. apply orb_false_iff in H as [Hc Hr].
    rewrite Hc, (IH Hr). reflexivity.
Qed.

(** A string has the separator, and is cut at its first occurrence, or has
    none. *)
Lemma split1_cases sep s :
  (has_char sep s = false /\ Str.split1 sep s = [s]) \/
  (exists a b, s = a +:+ String sep b /\ has_char sep a = false /\
               Str.split1 sep s = [a; b]).
Proof.
  induction s as [|c r IH].
  - left. split; reflexivity.
  - destruct (Ascii.eqb c sep) eqn:Hc.
    + right. exists "", r. apply Ascii.eqb_eq in Hc. subst c.
      split; [reflexivity|]. split; [reflexivity|].
      simpl. rewrite Ascii.eqb_refl. reflexivity.
    + destruct IH as [[Hn Hs] | (a & b & -> & Hn & Hs)].
      * left. simpl. rewrite Hc, Hn, Hs. split; reflexivity.
      * right. exists (String c a), b. split; [reflexivity|].
        simpl. rewrite Hc, Hn, Hs. repeat split.
Qed.

Lemma parse_headers_entry k v rest m w :
  has_char ":" k = false ->
  parse_headers ((k +:+ ":" +:+ v) :: rest) m w =
  parse_headers rest (<[Str.strip k := Str.strip v]> m)
    (log w [EvPrint ("Use Header " +:+ Str.strip k +:+ ":" +:+ Str.strip v)]).
Proof.
  intros Hk. cbn [parse_headers].
  change (k +:+ ":" +:+ v) with (k +:+ String ":" v).
  rewrite (split1_at_sep ":" k v Hk). reflexivity.
Qed.

Lemma parse_headers_invalid h rest m w :
  has_char ":" h = false ->
  parse_headers (h :: rest) m w =
  parse_headers rest m (log w [EvPrint ("Invalid header format: " +:+ h)]).
Proof.
  intros Hh. cbn [parse_headers]. rewrite (split1_no_sep ":" h Hh). reflexivity.
Qed.

Lemma log_nil w : log w [] = w.
Proof. unfold log. rewrite app_nil_r. destruct w; reflexivity. Qed.

Lemma parse_headers_log hs : forall m w,
  exists m' evs, parse_headers hs m w = (Ret m', log w evs).
Proof.
  induction hs as [|h hs IH]; intros m w.
  - exists m, []. rewrite log_nil. reflexivity.
  - destruct (split1_cases ":" h) as [[Hn _] | (a & b & -> & Hn & _)].
    + rewrite parse_headers_invalid by exact Hn.
      destruct (IH m (log w [EvPrint ("Invalid header format: " +:+ h)]))
        as (m' & evs & ->).
      rewrite log_log. eauto.
    + change (a +:+ String ":" b) with (a +:+ ":" +:+ b).
      rewrite parse_headers_entry by exact Hn.
      match goal with |- context [parse_headers hs ?m1 ?w1] =>
        destruct (IH m1 w1) as (m' & evs & ->) end.
      rewrite log_log. eauto.
Qed.

(** Entries that do not set the key [key] leave its value as it was. *)
Lemma parse_headers_other_keys key hs : forall m w m' w',
  (forall k v, (k +:+ ":" +:+ v) ∈ hs -> has_char ":" k = false ->
               Str.strip k <> key) ->
  parse_headers hs m w = (Ret m', w') ->
  m' !! key = m !! key.
Proof.
  induction hs as [|h hs IH]; intros m w m' w' Hother Hrun.
  - simpl in Hrun. unfold ret in Hrun. congruence.
  - assert (Hother' : forall k v, (k +:+ ":" +:+ v) ∈ hs ->
                        has_char ":" k = false -> Str.strip k <> key).
    { intros k v Hin. apply (Hother k v), elem_of_cons. right. exact Hin. }
    destruct (split1_cases ":" h) as [[Hn _] | (a & b & -> & Hn & _)].
    + rewrite parse_headers_invalid in Hrun by exact Hn.
      apply (IH _ _ _ _ Hother' Hrun).
    + change (a +:+ String ":" b) with (a +:+ ":" +:+ b) in *.
      rewrite parse_headers_entry in Hrun by exact Hn.
      rewrite (IH _ _ _ _ Hother' Hrun).
      apply lookup_insert_ne. apply (Hother a b); [|exact Hn].
      apply elem_of_cons. left. reflexivity.
Qed.

Lemma parse_headers_app hs1 : forall hs2 m w,
  parse_headers (hs1 ++ hs2) m w =
  (m1 <- parse_headers hs1 m ;; parse_headers hs2 m1) w.
Proof.
  induction hs1 as [|h hs1 IH]; intros hs2 m w; [reflexivity|].
  cbn [app parse_headers]. destruct (length _ =? 2).
  - unfold bind at 1 3. unfold print, emit. rewrite IH. reflexivity.
  - unfold bind at 1 3. unfold print, emit. rewrite IH. reflexivity.
Qed.

(** C8.  The loop over the header entries.  It returns a map and only
    prints.  An entry [k:v], [k] without a colon, sets the key [strip k] to
    [strip v] ([v] may contain colons) and is announced; an entry without a
    colon is reported as [Invalid header format] and changes nothing.  The
    value of a key in the result is the one of its last entry, whatever
    entries came before it. *)
Theorem header_entries_are_parsed :
  (forall hs m w, exists m' evs, parse_headers hs m w = (Ret m', log w evs)) /\
  (forall k v rest m w,
     has_char ":" k = false ->
     parse_headers ((k +:+ ":" +:+ v) :: rest) m w =
     parse_headers rest (<[Str.strip k := Str.strip v]> m)
       (log w [EvPrint ("Use Header " +:+ Str.strip k +:+ ":" +:+ Str.strip v)])) /\
  (forall h rest m w,
     has_char ":" h = false ->
     parse_headers (h :: rest) m w =
     parse_headers rest m (log w [EvPrint ("Invalid header format: " +:+ h)])) /\
  (forall before k v after m w m' w',
     has_char ":" k = false ->
     (forall k' v', (k' +:+ ":" +:+ v') ∈ after -> has_char ":" k' = false ->
                    Str.strip k' <> Str.strip k) ->
     parse_headers (before ++ (k +:+ ":" +:+ v) :: after) m w = (Ret m', w') ->
     m' !! Str.strip k = Some (Str.strip v)).
Proof.
  split; [exact parse_headers_log|].
  split; [exact parse_headers_entry|].
  split; [exact parse_headers_invalid|].
  intros before k v after m w m' w' Hk Hafter Hrun.
  rewrite parse_headers_app in Hrun. unfold bind in Hrun.
  destruct (parse_headers_log before m w) as (m1 & evs & E). rewrite E in Hrun.
  rewrite parse_headers_entry in Hrun by exact Hk.
  rewrite (parse_headers_other_keys _ _ _ _ _ _ Hafter Hrun).
  apply lookup_insert_eq.
Qed.

Lemma spec_cut_no_whitespace a :
  has_whitespace a = false -> spec_cut_whitespace a = (a, "").
Proof.
  induction a as [|c r IH]; simpl; [reflexivity|].
  intros H. apply orb_false_iff in H as [Hc Hr].
  rewrite Hc, (IH Hr). reflexivity.
Qed.

Lemma spec_cut_at_whitespace a c b :
  has_whitespace a = false -> Str.isspace c = true ->
  spec_cut_whitespace (a +:+ String c b) = (a, Str.lstrip b).
Proof.
  intros Ha Hc. induction a as [|x r IH]; simpl.
  - rewrite Hc. reflexivity.
  - simpl in Ha. apply orb_false_iff in Ha as [Hx Hr].
    rewrite Hx, (IH Hr). reflexivity.
Qed.

Lemma split_lstrip r : Str.split (Str.lstrip r) = Str.split r.
Proof.
  unfold Str.split. induction r as [|c r IH]; simpl; [reflexivity|].
  destruct (Str.isspace c) eqn:Hc.
  - exact IH.
  - simpl. rewrite Hc. reflexivity.
Qed.

Lemma lstrip_strip s : Str.lstrip (Str.strip s) = Str.strip s.
Proof.
  destruct (strip_head s) as [-> | (c & r & -> & Hc)]; [reflexivity|].
  simpl. rewrite Hc. reflexivity.
Qed.

Lemma stdio_config_cut rawTarget headers w :
  exists command args,
    FastMcpClient_init rawTarget "stdio" headers w =
      (Ret (StdioConfig command args headers),
       log w [EvPrint (nl +:+ "starting stdio mcp with config:" +:+ nl
                          +:+ repr_config (StdioConfig command args headers)
                          +:+ nl)]) /\
    has_char " " command = false /\
    ((Str.strip rawTarget = command /\ args = []) \/
     (exists remainder,
        Str.strip rawTarget = command +:+ " " +:+ remainder /\
        args = Str.split remainder)) /\
    (has_whitespace command = false ->
     StdioConfig command args headers
     = spec_stdio_config (Str.strip rawTarget) headers).
Proof.
  unfold FastMcpClient_init. rewrite bool_decide_eq_true_2 by reflexivity.
  cbv zeta.
  destruct (split1_cases " " (Str.strip rawTarget))
    as [[Hn ->] | (a & b & E & Hn & ->)].
  - exists (Str.strip rawTarget), []. split; [reflexivity|].
    split; [exact Hn|]. split; [left; split; reflexivity|].
    intros Hw. unfold spec_stdio_config. rewrite lstrip_strip.
    rewrite (spec_cut_no_whitespace _ Hw). reflexivity.
  - exists a, (Str.split b). split; [reflexivity|].
    split; [exact Hn|]. split; [right; exists b; split; [exact E | reflexivity]|].
    intros Hw. unfold spec_stdio_config. rewrite lstrip_strip, E.
    rewrite (spec_cut_at_whitespace a " " b Hw) by reflexivity.
    rewrite split_lstrip. reflexivity.
Qed.

(** C5, as the code has it.  For the stdio transport the builder returns a
    stdio configuration.  The target is stripped and cut at its first space
    character: the command is what precedes it (the whole when there is no
    space) and holds no space; the arguments are the remainder split on runs
    of whitespace; the header map is the environment.  When the command
    holds no whitespace at all this is the cut at the first run of
    whitespace.  The endpoint [npx -y server-x --flag] gives the command
    [npx] and the arguments [-y], [server-x], [--flag]. *)
Theorem stdio_config_splits_at_first_space rawTarget headers w :
  (exists command args,
     FastMcpClient_init rawTarget "stdio" headers w =
       (Ret (StdioConfig command args headers),
        log w [EvPrint (nl +:+ "starting stdio mcp with config:" +:+ nl
                           +:+ repr_config (StdioConfig command args headers)
                           +:+ nl)])) /\
  (forall command args env,
     (FastMcpClient_init rawTarget "stdio" headers w).1
       = Ret (StdioConfig command args env) ->
     env = headers /\
     has_char " " command = false /\
     ((Str.strip rawTarget = command /\ args = []) \/
      (exists remainder,
         Str.strip rawTarget = command +:+ " " +:+ remainder /\
         args = Str.split remainder)) /\
     (has_whitespace command = false ->
      StdioConfig command args env
      = spec_stdio_config (Str.strip rawTarget) headers)) /\
  (FastMcpClient_init "npx -y server-x --flag" "stdio" headers w).1 =
    Ret (StdioConfig "npx" ["-y"; "server-x"; "--flag"] headers).
Proof.
  destruct (stdio_config_cut rawTarget headers w)
    as (command0 & args0 & E & Hsp & Hcut & Hspec).
  split; [exists command0, args0; exact E|].
  split; [|reflexivity].
  intros command args env H. rewrite E in H. simpl in H.
  injection H as <- <- <-. auto.
Qed.

(** C9, as the code has it.  With no endpoint on the command line, an
    endpoint typed at the prompt that, stripped, does not begin with [http]
    is turned down: the message is printed and [main] returns, without a
    client and without a connection, whatever transport kind was chosen on
    the command line, [stdio] included. *)
Theorem prompted_endpoint_must_start_with_http args w line rest :
  arg_url args = "" ->
  stdin w = line :: rest ->
  Str.startswith (Str.strip line) "http" = false ->
  main args w =
    (Ret tt,
     advance w rest
       [EvPrintHelp; EvPrint SAMPLE;
        EvPrint (nl +:+ nl +:+ "input url (sse or streamable):");
        EvInput ""; EvPrint "URL string must start with http"; EvSleep 1]).
Proof.
  intros Hu Hin Hs. unfold main, read_url, bind, input, print, emit. rewrite Hu.
  simpl. rewrite Hin. simpl. rewrite Hs. simpl.
  unfold advance, ret. simpl. rewrite <- !app_assoc. reflexivity.
Qed.

(** ** The session invariant *)

Lemma continues_refl w : continues w w.
Proof.
  split; [reflexivity|]. split; [reflexivity|].
  exists []. rewrite app_nil_r. split; reflexivity.
Qed.

Lemma continues_trans w1 w2 w3 :
  continues w1 w2 -> continues w2 w3 -> continues w1 w3.
Proof.
  intros (Ht1 & Hs1 & evs1 & Ho1 & He1) (Ht2 & Hs2 & evs2 & Ho2 & He2).
  split; [congruence|]. split; [etrans; eassumption|].
  exists (evs1 ++ evs2). split.
  - rewrite Ho2, Ho1, <- app_assoc. reflexivity.
  - rewrite forallb_app, He1, He2. reflexivity.
Qed.

Lemma continues_log w evs :
  forallb session_event evs = true -> continues w (log w evs).
Proof.
  intros H. split; [reflexivity|]. split; [reflexivity|]. exists evs. split; [reflexivity | exact H].
Qed.

Lemma continues_advance w rest evs :
  rest `suffix_of` stdin w -> forallb session_event evs = true ->
  continues w (advance w rest evs).
Proof.
  intros Hs H. split; [reflexivity|]. split; [exact Hs|]. exists evs. split; [reflexivity | exact H].
Qed.

Lemma keeps_ret {A} (a : A) : keeps (ret a).
Proof. intros w. apply continues_refl. Qed.

Lemma keeps_raise {A} e : keeps (raise (A:=A) e).
Proof. intros w. apply continues_refl. Qed.

Lemma keeps_bind {A B} (m : M A) (k : A -> M B) :
  keeps m -> (forall a, keeps (k a)) -> keeps (bind m k).
Proof.
  intros Hm Hk w. unfold bind. specialize (Hm w).
  destruct (m w) as [[a|e|] w']; simpl in *; try exact Hm.
  eapply continues_trans; [exact Hm | apply Hk].
Qed.

Lemma keeps_ext {A} (m m' : M A) :
  (forall w, m w = m' w) -> keeps m' -> keeps m.
Proof. intros E H w. rewrite E. apply H. Qed.

Lemma keeps_emit e : session_event e = true -> keeps (emit e).
Proof.
  intros He w. apply (continues_log w [e]). simpl. rewrite He. reflexivity.
Qed.

Lemma keeps_print s : keeps (print s).
Proof. apply keeps_emit. reflexivity. Qed.

Lemma keeps_input p : keeps (input p).
Proof.
  intros w. unfold input. destruct (stdin w) as [|l rest] eqn:E; simpl.
  - split; [reflexivity|]. split; [simpl; rewrite E; reflexivity|].
    exists [EvInput p]. split; reflexivity.
  - split; [reflexivity|]. split; [simpl; rewrite E; apply suffix_cons_r; reflexivity|].
    exists [EvInput p]. split; reflexivity.
Qed.

Lemma keeps_json_loads s : keeps (json_loads s).
Proof.
  apply keeps_bind; [apply keeps_emit; reflexivity | intros _].
  destruct (loads s); [apply keeps_ret | apply keeps_ret | apply keeps_raise].
Qed.

Lemma keeps_py_int s : keeps (py_int s).
Proof.
  unfold py_int. destruct (_ <? _); [apply keeps_raise | apply keeps_ret].
Qed.

Lemma keeps_get_tools : keeps get_tools.
Proof. intros w. apply continues_refl. Qed.

Lemma keeps_while_true {S A} (body : S -> M (flow S A)) :
  (forall s, keeps (body s)) -> forall n s, keeps (while_true n body s).
Proof.
  intros Hb. induction n as [|n IH]; intros s.
  - intros w. apply continues_refl.
  - cbn [while_true]. apply keeps_bind; [apply Hb|].
    intros [s'|a]; [apply IH | apply keeps_ret].
Qed.

Lemma keeps_input_json_body prompt lines : keeps (input_json_body prompt lines).
Proof.
  unfold input_json_body. apply keeps_bind; [apply keeps_input|].
  intros line. cbv zeta. destruct (negb _).
  - apply keeps_bind; [apply keeps_print | intros; apply keeps_ret].
  - apply keeps_bind; [apply keeps_json_loads|]. intros [v|]; apply keeps_ret.
Qed.

Lemma keeps_input_json prompt : keeps (input_json prompt).
Proof.
  intros w. unfold input_json.
  apply keeps_while_true. apply keeps_input_json_body.
Qed.

Lemma keeps_print_rows ts : forall i, keeps (print_rows i ts).
Proof.
  induction ts as [|t ts IH]; intros i; simpl; [apply keeps_ret|].
  apply keeps_bind; [apply keeps_print | intros _; apply IH].
Qed.

Lemma keeps_cmd_list_tools : keeps cmd_list_tools.
Proof.
  unfold cmd_list_tools.
  apply keeps_bind; [apply keeps_print | intros _].
  apply keeps_bind; [apply keeps_print | intros _].
  apply keeps_bind; [apply keeps_get_tools | intros ts].
  apply keeps_bind; [apply keeps_print_rows | intros _].
  apply keeps_print.
Qed.

Lemma keeps_cmd_dump_tools_schema : keeps cmd_dump_tools_schema.
Proof.
  unfold cmd_dump_tools_schema.
  apply keeps_bind; [apply keeps_get_tools | intros ts]. cbv zeta.
  apply keeps_bind; [apply keeps_emit; reflexivity | intros _].
  apply keeps_print.
Qed.

Lemma keeps_cmd_show_tool_schema index : keeps (cmd_show_tool_schema index).
Proof.
  unfold cmd_show_tool_schema. apply keeps_bind; [apply keeps_get_tools|].
  intros ts. destruct (_ || _)%bool; [apply keeps_ret|].
  destruct (ts !! _); [|apply keeps_raise].
  apply keeps_bind; [apply keeps_print | intros _; apply keeps_ret].
Qed.

Lemma session_event_log_callback ps :
  forallb session_event (map log_callback ps) = true.
Proof. induction ps as [|p ps IH]; [reflexivity | exact IH]. Qed.

Lemma keeps_call_tool tool_name arguments : keeps (call_tool tool_name arguments).
Proof.
  intros w. unfold call_tool.
  destruct (client_call_tool _ _ _) as [[ps [e|r]] s']; simpl;
    (split; [reflexivity|]; split; [reflexivity|];
     exists (map log_callback ps); split;
     [reflexivity | apply session_event_log_callback]).
Qed.

Lemma keeps_print_content c : keeps (print_content c).
Proof.
  unfold print_content. destruct (bool_decide _); [|apply keeps_print].
  apply keeps_bind; [apply keeps_json_loads|]. intros [v|]; apply keeps_print.
Qed.

Lemma keeps_for_each {A} (f : A -> M unit) l :
  (forall x, keeps (f x)) -> keeps (for_each f l).
Proof.
  intros Hf. induction l as [|x l IH]; simpl; [apply keeps_ret|].
  apply keeps_bind; [apply Hf | intros _; exact IH].
Qed.

Lemma keeps_pretty_print_tool_result result :
  keeps (pretty_print_tool_result result).
Proof.
  unfold pretty_print_tool_result. apply keeps_bind; [apply keeps_print|].
  intros _. destruct (content result); [|apply keeps_print].
  apply keeps_for_each, keeps_print_content.
Qed.

Lemma keeps_try_except_Exception {A} (m : M A) h :
  keeps m -> (forall e, keeps (h e)) -> keeps (try_except_Exception m h).
Proof.
  intros Hm Hh w. unfold try_except_Exception. specialize (Hm w).
  destruct (m w) as [[a|e|] w']; simpl in *; try exact Hm.
  destruct (is_Exception e); simpl; [|exact Hm].
  eapply continues_trans; [exact Hm | apply Hh].
Qed.

Lemma keeps_cmd_call_tool tool_name arguments :
  keeps (cmd_call_tool tool_name arguments).
Proof.
  unfold cmd_call_tool. apply keeps_bind; [apply keeps_print | intros _].
  apply keeps_try_except_Exception; [|intros e; apply keeps_print].
  apply keeps_bind; [apply keeps_call_tool|].
  intros r. apply keeps_pretty_print_tool_result.
Qed.

Lemma keeps_cmd_loop_body u : keeps (cmd_loop_body u).
Proof.
  unfold cmd_loop_body. apply keeps_bind; [apply keeps_input|].
  intros line. cbv zeta.
  destruct (negb _); [apply keeps_ret|].
  destruct (bool_decide (_ = "list")).
  { eapply keeps_ext; [intros w0; apply await_call_def|].
    apply keeps_bind; [apply keeps_cmd_list_tools | intros _; apply keeps_raise]. }
  destruct (bool_decide (_ = "dump")).
  { eapply keeps_ext; [intros w0; apply await_call_async|].
    apply keeps_bind; [apply keeps_cmd_dump_tools_schema | intros _; apply keeps_ret]. }
  destruct (bool_decide (_ = "quit")); [apply keeps_ret|].
  destruct (Str.isdigit _).
  - apply keeps_bind; [apply keeps_py_int | intros index].
    eapply keeps_ext; [intros w0; apply await_call_async|].
    apply keeps_bind; [apply keeps_cmd_show_tool_schema|].
    intros [tool_name|]; [|apply keeps_ret].
    destruct (Str.truthy tool_name); [|apply keeps_ret].
    apply keeps_bind; [apply keeps_input_json | intros arguments].
    eapply keeps_ext; [intros w0; apply await_call_async|].
    apply keeps_bind; [apply keeps_cmd_call_tool | intros _; apply keeps_ret].
  - apply keeps_bind; [apply keeps_print | intros _; apply keeps_ret].
Qed.

(** X1.  The command loop keeps the session: whatever the commands and
    whatever the server answers, when the loop ends (by [quit] or by an
    exception) the catalog is the one it started with, the input left is a
    suffix of the input it was given, and the trace is the old one followed
    by prints, prompts, the file of [dump] and [json.loads] calls only; the
    loop never connects or closes.  The fuel of the model is never used
    up. *)
Theorem cmd_loop_keeps_session w :
  (cmd_loop w).1 <> OutOfFuel /\
  tools (cmd_loop w).2 = tools w /\
  stdin (cmd_loop w).2 `suffix_of` stdin w /\
  exists evs, out (cmd_loop w).2 = out w ++ evs /\
              forallb session_event evs = true.
Proof.
  split; [apply sound_cmd_loop|].
  unfold cmd_loop. apply keeps_while_true. apply keeps_cmd_loop_body.
Qed.

(** ** Outcomes of the operations *)

Lemma input_json_loop_outcome prompt : forall n b w,
  length (stdin w) < n ->
  (exists v w', while_true n (input_json_body prompt) b w = (Ret v, w') /\
      length (stdin w') < length (stdin w) /\
      exists buffer evs,
        Str.startswith buffer "{" = true /\ loads buffer = Parsed v /\
        out w' = out w ++ evs ++ [EvLoads buffer]) \/
  (exists w', while_true n (input_json_body prompt) b w = (Raise EOFError, w') /\
      stdin w' = []) \/
  (exists j w', while_true n (input_json_body prompt) b w = (Raise (exn_of j), w') /\
      length (stdin w') < length (stdin w) /\
      exists buffer evs,
        Str.startswith buffer "{" = true /\ loads buffer = Raises j /\
        out w' = out w ++ evs ++ [EvLoads buffer]).
Proof.
  induction n as [|n IH]; intros b w Hn; [lia|].
  cbn [while_true]. unfold bind.
  destruct (stdin w) as [|l rest] eqn:Hin.
  { right. left. rewrite (input_json_body_eof prompt b w Hin). eauto. }
  destruct (Str.startswith (Str.strip (b +:+ l)) "{") eqn:Hs.
  - rewrite (input_json_body_parse prompt b l rest w Hin Hs).
    destruct (loads (Str.strip (b +:+ l))) as [v| |j] eqn:Hv.
    + left. eexists _, _. split; [reflexivity|]. split; [simpl; lia|].
      exists (Str.strip (b +:+ l)), [EvInput (if Str.truthy b then "" else prompt)].
      repeat split; assumption.
    + match goal with |- context [while_true n _ ?b1 ?w1] =>
        destruct (IH b1 w1)
          as [(v & w' & E & Hlt & buf & evs & H1 & H2 & H3)
             | [(w' & E & H0) | (j & w' & E & Hlt & buf & evs & H1 & H2 & H3)]]
      end.
      * simpl in *. lia.
      * left. rewrite E. eexists _, _. split; [reflexivity|].
        split; [simpl in *; lia|].
        exists buf, ([EvInput (if Str.truthy b then "" else prompt);
                      EvLoads (Str.strip (b +:+ l))] ++ evs).
        repeat split; try assumption.
        rewrite H3. simpl. rewrite <- !app_assoc. reflexivity.
      * right. left. rewrite E. eauto.
      * right. right. rewrite E. eexists _, _. split; [reflexivity|].
        split; [simpl in *; lia|].
        exists buf, ([EvInput (if Str.truthy b then "" else prompt);
                      EvLoads (Str.strip (b +:+ l))] ++ evs).
        repeat split; try assumption.
        rewrite H3. simpl. rewrite <- !app_assoc. reflexivity.
    + right. right. eexists _, _. split; [reflexivity|]. split; [simpl; lia|].
      exists (Str.strip (b +:+ l)), [EvInput (if Str.truthy b then "" else prompt)].
      repeat split; assumption.
  - rewrite (input_json_body_reject prompt b l rest w Hin Hs).
    match goal with |- context [while_true n _ ?b1 ?w1] =>
      destruct (IH b1 w1)
        as [(v & w' & E & Hlt & buf & evs & H1 & H2 & H3)
           | [(w' & E & H0) | (j & w' & E & Hlt & buf & evs & H1 & H2 & H3)]]
    end.
    + simpl in *. lia.
    + left. rewrite E. eexists _, _. split; [reflexivity|].
      split; [simpl in *; lia|].
      exists buf, ([EvInput (if Str.truthy b then "" else prompt);
                    EvPrint "invalid json format"] ++ evs).
      repeat split; try assumption.
      rewrite H3. simpl. rewrite <- !app_assoc. reflexivity.
    + right. left. rewrite E. eauto.
    + right. right. rewrite E. eexists _, _. split; [reflexivity|].
      split; [simpl in *; lia|].
      exists buf, ([EvInput (if Str.truthy b then "" else prompt);
                    EvPrint "invalid json format"] ++ evs).
      repeat split; try assumption.
      rewrite H3. simpl. rewrite <- !app_assoc. reflexivity.
Qed.

Lemma input_json_outcome prompt w :
  (exists v w', input_json prompt w = (Ret v, w') /\
      length (stdin w') < length (stdin w) /\
      exists buffer evs,
        Str.startswith buffer "{" = true /\ loads buffer = Parsed v /\
        out w' = out w ++ evs ++ [EvLoads buffer]) \/
  (exists w', input_json prompt w = (Raise EOFError, w') /\ stdin w' = []) \/
  (exists j w', input_json prompt w = (Raise (exn_of j), w') /\
      length (stdin w') < length (stdin w) /\
      exists buffer evs,
        Str.startswith buffer "{" = true /\ loads buffer = Raises j /\
        out w' = out w ++ evs ++ [EvLoads buffer]).
Proof. unfold input_json. apply input_json_loop_outcome. lia. Qed.

(** X2.  What [input_json] returns was parsed by [json.loads] from a buffer
    that begins with a brace, in the last effect of the reader, and at
    least one line was consumed for it. *)
Theorem input_json_returns_a_parsed_object_text prompt w v w' :
  input_json prompt w = (Ret v, w') ->
  length (stdin w') < length (stdin w) /\
  exists buffer evs,
    Str.startswith buffer "{" = true /\ loads buffer = Parsed v /\
    out w' = out w ++ evs ++ [EvLoads buffer].
Proof.
  intros E.
  destruct (input_json_outcome prompt w)
    as [(v0 & w0 & E0 & H) | [(w0 & E0 & _) | (j & w0 & E0 & _)]];
    rewrite E0 in E; [|discriminate..].
  injection E as <- <-. exact H.
Qed.

(** X3.  An exception leaves [input_json] in two ways only.  [EOFError],
    when every line of the input has been consumed: text that
    [json.loads] rejects with [JSONDecodeError] keeps the reader reading.
    Or what [json.loads] raises besides [JSONDecodeError] ([ValueError] for
    an integer of too many digits, [RecursionError] for a text nested too
    deep) on a buffer that begins with a brace: the [except] clause of the
    reader names [json.JSONDecodeError] only, the parse is the last effect
    and at least one line was consumed. *)
Theorem input_json_raises_at_end_of_input_or_in_loads prompt w e w' :
  input_json prompt w = (Raise e, w') ->
  (e = EOFError /\ stdin w' = []) \/
  (exists j buffer evs,
     e = exn_of j /\
     Str.startswith buffer "{" = true /\ loads buffer = Raises j /\
     out w' = out w ++ evs ++ [EvLoads buffer] /\
     length (stdin w') < length (stdin w)).
Proof.
  intros E.
  destruct (input_json_outcome prompt w)
    as [(v0 & w0 & E0 & _)
       | [(w0 & E0 & H) | (j & w0 & E0 & Hlt & buf & evs & H1 & H2 & H3)]];
    rewrite E0 in E; [discriminate| |].
  - injection E as <- <-. left. split; [reflexivity | exact H].
  - injection E as <- <-. right. exists j, buf, evs. repeat split; assumption.
Qed.

Lemma is_Exception_exn_of j : is_Exception (exn_of j) = true.
Proof. destruct j; reflexivity. Qed.

(** The rendering stops at the first segment that raises: its events begin
    the events of all the segments. *)
Lemma rendering_prefix segs :
  (rendering segs).2 `prefix_of` concat (map segment_events segs).
Proof.
  induction segs as [|c segs IH]; simpl; [reflexivity|].
  destruct (segment_error c) as [j|] eqn:E; simpl.
  - apply prefix_app_r. reflexivity.
  - destruct (rendering segs) as [err evs]. simpl in *.
    apply prefix_app. exact IH.
Qed.

Lemma rendering_returns segs :
  (rendering segs).1 = None ->
  (rendering segs).2 = concat (map segment_events segs).
Proof.
  induction segs as [|c segs IH]; simpl; [reflexivity|].
  destruct (segment_error c) as [j|] eqn:E; simpl; [discriminate|].
  destruct (rendering segs) as [err evs]. simpl in *.
  intros H. rewrite (IH H). reflexivity.
Qed.

Lemma rendering_raises segs j :
  (rendering segs).1 = Some j ->
  exists c, c ∈ segs /\ segment_error c = Some j.
Proof.
  induction segs as [|c segs IH]; simpl; [discriminate|].
  destruct (segment_error c) as [j0|] eqn:E; simpl.
  - intros H. injection H as ->. exists c.
    split; [apply elem_of_cons; left; reflexivity | exact E].
  - destruct (rendering segs) as [err evs]. simpl in *.
    intros H. destruct (IH H) as (c' & Hc' & He).
    exists c'. split; [apply elem_of_cons; right; exact Hc' | exact He].
Qed.

(** The three ways a call of a tool ends. *)
Lemma cmd_call_tool_cases tool_name arguments w notifications r s' :
  client_call_tool tool_name
    (if py_truthy arguments then arguments else JDict []) (srv w)
    = ((notifications, r), s') ->
  cmd_call_tool tool_name arguments w =
    match r with
    | inr result =>
        (Ret tt,
         {| stdin := stdin w;
            out := out w ++ [EvPrint ("call tool " +:+ tool_name +:+ " ...")]
                     ++ map log_callback notifications
                     ++ call_rendering tool_name result;
            srv := s'; tools := tools w |})
    | inl e =>
        if is_Exception e then
          (Ret tt,
           {| stdin := stdin w;
              out := out w ++ [EvPrint ("call tool " +:+ tool_name +:+ " ...")]
                       ++ map log_callback notifications
                       ++ [EvPrint ("Failed to call tool '" +:+ tool_name +:+ "': "
                                      +:+ exn_str e)];
              srv := s'; tools := tools w |})
        else
          (Raise e,
           {| stdin := stdin w;
              out := out w ++ [EvPrint ("call tool " +:+ tool_name +:+ " ...")]
                       ++ map log_callback notifications;
              srv := s'; tools := tools w |})
    end.
Proof.
  intros Hc.
  unfold cmd_call_tool, bind, try_except_Exception, bind, call_tool, print, emit.
  simpl. rewrite Hc. destruct r as [e|result]; simpl.
  - destruct (is_Exception e); simpl; rewrite <- !app_assoc; reflexivity.
  - rewrite pretty_print_tool_result_outcome. unfold call_rendering.
    destruct (content result) as [segs|].
    + destruct (rendering segs) as [[j|] evs]; simpl.
      * rewrite is_Exception_exn_of. unfold log. simpl.
        rewrite <- !app_assoc. reflexivity.
      * unfold log. simpl. rewrite app_nil_r, <- !app_assoc. reflexivity.
    + unfold log. simpl. rewrite <- !app_assoc. reflexivity.
Qed.

(** ** The turns of the command loop, command by command *)

Lemma cmd_loop_body_eof w :
  stdin w = [] ->
  cmd_loop_body tt w = (Raise EOFError, advance w [] [EvInput cmd_prompt]).
Proof.
  intros Hin. unfold cmd_loop_body, bind, input. rewrite Hin. reflexivity.
Qed.

Lemma cmd_loop_body_blank w line rest :
  stdin w = line :: rest ->
  Str.truthy (Str.strip line) = false ->
  cmd_loop_body tt w = (Ret (Continue tt), advance w rest [EvInput cmd_prompt]).
Proof.
  intros Hin Ht. unfold cmd_loop_body, bind, input. rewrite Hin.
  cbv zeta. rewrite Ht. reflexivity.
Qed.

Lemma cmd_loop_body_list w line rest :
  stdin w = line :: rest ->
  Str.strip line = "list" ->
  cmd_loop_body tt w =
    (Raise (TypeError "object NoneType can't be used in 'await' expression"),
     advance w rest (EvInput cmd_prompt :: table (tools w))).
Proof.
  intros Hin Hl. unfold cmd_loop_body. unfold bind at 1. unfold input.
  rewrite Hin. cbv zeta. rewrite Hl.
  change (negb (Str.truthy "list")) with false. cbv iota.
  rewrite bool_decide_eq_true_2 by reflexivity.
  rewrite await_call_def. unfold bind. rewrite cmd_list_tools_log.
  unfold raise, log, advance. simpl. rewrite <- app_assoc. reflexivity.
Qed.

Lemma cmd_loop_body_dump w line rest :
  stdin w = line :: rest ->
  Str.strip line = "dump" ->
  cmd_loop_body tt w =
    (Ret (Continue tt),
     advance w rest
       [EvInput cmd_prompt;
        EvFile "schema.json" (dumps (JList (map model_dump (tools w))) (Some 2) false);
        EvPrint "schema.json saved"]).
Proof.
  intros Hin Hl. unfold cmd_loop_body. unfold bind at 1. unfold input.
  rewrite Hin. cbv zeta. rewrite Hl.
  change (negb (Str.truthy "dump")) with false. cbv iota.
  rewrite bool_decide_eq_false_2 by discriminate.
  rewrite bool_decide_eq_true_2 by reflexivity.
  unfold call_async, await, cmd_dump_tools_schema, bind, ret, get_tools, print, emit,
    advance.
  simpl. rewrite <- !app_assoc. reflexivity.
Qed.

Lemma cmd_loop_body_quit w line rest :
  stdin w = line :: rest ->
  Str.strip line = "quit" ->
  cmd_loop_body tt w = (Ret (Break tt), advance w rest [EvInput cmd_prompt]).
Proof.
  intros Hin Hl. unfold cmd_loop_body. unfold bind at 1. unfold input.
  rewrite Hin. cbv zeta. rewrite Hl.
  change (negb (Str.truthy "quit")) with false. cbv iota.
  rewrite !bool_decide_eq_false_2 by discriminate.
  rewrite bool_decide_eq_true_2 by reflexivity.
  reflexivity.
Qed.

Lemma cmd_loop_body_unknown w line rest :
  stdin w = line :: rest ->
  Str.truthy (Str.strip line) = true ->
  Str.strip line <> "list" -> Str.strip line <> "dump" ->
  Str.strip line <> "quit" ->
  Str.isdigit (Str.strip line) = false ->
  cmd_loop_body tt w =
    (Ret (Continue tt),
     advance w rest [EvInput cmd_prompt; EvPrint "Unknown command"]).
Proof.
  intros Hin Ht Hl Hd Hq Hn. unfold cmd_loop_body. unfold bind at 1. unfold input.
  rewrite Hin. cbv zeta. rewrite Ht. cbn [negb].
  rewrite !bool_decide_eq_false_2 by assumption. rewrite Hn.
  unfold bind, print, emit, ret, advance. simpl. rewrite <- app_assoc. reflexivity.
Qed.

(** [cmd_show_tool_schema] either finds the index out of range or shows
    the tool at that position; it never raises. *)
Lemma cmd_show_tool_schema_cases index w :
  cmd_show_tool_schema index w = (Ret None, w) \/
  exists tool,
    (0 <= index)%Z /\ tools w !! Z.to_nat index = Some tool /\
    cmd_show_tool_schema index w =
      (Ret (Some (name tool)),
       log w [EvPrint (dumps (model_dump tool) (Some 2) false)]).
Proof.
  destruct (Z_lt_ge_dec index 0) as [Hneg | Hpos].
  { left. apply cmd_show_tool_schema_out_of_range. left. exact Hneg. }
  destruct (Z_le_gt_dec (Z.of_nat (length (tools w))) index) as [Hge | Hlt].
  { left. apply cmd_show_tool_schema_out_of_range. right. exact Hge. }
  right. destruct (lookup_lt_is_Some_2 (tools w) (Z.to_nat index)) as [tool Ht]; [lia|].
  exists tool. split; [lia|]. split; [exact Ht|].
  apply cmd_show_tool_schema_in_range; [lia | exact Ht].
Qed.

Lemma suffix_elem_of {A} (l1 l2 : list A) x :
  l1 `suffix_of` l2 -> x ∈ l1 -> x ∈ l2.
Proof. intros [k ->] Hx. apply elem_of_app. right. exact Hx. Qed.

(** How one turn of the loop can end. *)
Lemma cmd_loop_body_outcome w :
  match cmd_loop_body tt w with
  | (Ret (Continue _), w') =>
      length (stdin w') < length (stdin w) /\ stdin w' `suffix_of` stdin w
  | (Ret (Break _), _) =>
      exists line, line ∈ stdin w /\ Str.strip line = "quit"
  | (Raise e, w') =>
      (e = EOFError /\ stdin w' = []) \/
      (e = TypeError "object NoneType can't be used in 'await' expression" /\
       exists line, line ∈ stdin w /\ Str.strip line = "list") \/
      (exists line, line ∈ stdin w /\
         Str.isdigit (Str.strip line) = true /\
         int_max_str_digits < String.length (Str.strip line) /\
         e = ValueError (int_limit_message (String.length (Str.strip line)))) \/
      (exists j buffer pre,
         e = exn_of j /\ Str.startswith buffer "{" = true /\
         loads buffer = Raises j /\ out w' = pre ++ [EvLoads buffer]) \/
      (is_Exception e = false /\
       exists tool_name arguments s notifications s',
         client_call_tool tool_name arguments s = ((notifications, inl e), s'))
  | (OutOfFuel, _) => False
  end.
Proof.
  destruct (stdin w) as [|line rest] eqn:Hin.
  { rewrite (cmd_loop_body_eof w Hin). left. split; reflexivity. }
  assert (Hhead : line ∈ line :: rest) by (apply elem_of_cons; left; reflexivity).
  assert (Hsuf : rest `suffix_of` line :: rest) by (apply suffix_cons_r; reflexivity).
  destruct (Str.truthy (Str.strip line)) eqn:Ht.
  2:{ rewrite (cmd_loop_body_blank w line rest Hin Ht). simpl. split; [lia | exact Hsuf]. }
  destruct (decide (Str.strip line = "list")) as [Hl | Hl].
  { rewrite (cmd_loop_body_list w line rest Hin Hl). right. left.
    split; [reflexivity|]. exists line. split; assumption. }
  destruct (decide (Str.strip line = "dump")) as [Hd | Hd].
  { rewrite (cmd_loop_body_dump w line rest Hin Hd). simpl. split; [lia | exact Hsuf]. }
  destruct (decide (Str.strip line = "quit")) as [Hq | Hq].
  { rewrite (cmd_loop_body_quit w line rest Hin Hq). exists line. split; assumption. }
  destruct (Str.isdigit (Str.strip line)) eqn:Hdig.
  2:{ rewrite (cmd_loop_body_unknown w line rest Hin Ht Hl Hd Hq Hdig). simpl.
      split; [lia | exact Hsuf]. }
  destruct (le_lt_dec (String.length (Str.strip line)) int_max_str_digits)
    as [Hlen | Hlen].
  2:{ rewrite (cmd_loop_body_long_digits w line rest Hin Hdig Hlen).
      right. right. left. exists line. repeat split; assumption. }
  rewrite (cmd_loop_body_digits w line rest Hin Hdig Hlen). unfold bind at 1.
  set (w1 := advance w rest [EvInput cmd_prompt]).
  destruct (cmd_show_tool_schema_cases (Str.int (Str.strip line) - 1) w1)
    as [-> | (tool & _ & _ & ->)].
  { simpl. split; [lia | exact Hsuf]. }
  destruct (Str.truthy (name tool)).
  2:{ simpl. split; [lia | exact Hsuf]. }
  unfold bind at 1.
  match goal with |- context [input_json ?p ?w2] =>
    pose proof (keeps_input_json p w2) as (_ & Hsuf2 & _);
    destruct (input_json_outcome p w2)
      as [(v & w3 & E & Hlt & _)
         | [(w3 & E & H0) | (j & w3 & E & _ & buf & evs & Hb1 & Hb2 & Hb3)]];
    rewrite E in Hsuf2 |- *
  end.
  2:{ left. split; [reflexivity | exact H0]. }
  2:{ right. right. right. left. exists j, buf. eexists.
      split; [reflexivity|]. split; [exact Hb1|]. split; [exact Hb2|].
      rewrite Hb3, app_assoc. reflexivity. }
  subst w1. simpl in Hsuf2, Hlt. unfold bind.
  assert (Hsuf3 : stdin w3 `suffix_of` line :: rest) by (etrans; eassumption).
  destruct (client_call_tool (name tool)
              (if py_truthy v then v else JDict []) (srv w3))
    as [[ps r] s'] eqn:Hc.
  rewrite (cmd_call_tool_cases (name tool) v w3 ps r s' Hc).
  destruct r as [e | result].
  - destruct (is_Exception e) eqn:He.
    + simpl. split; [lia | exact Hsuf3].
    + right. right. right. right. split; [exact He|]. eauto 10.
  - simpl. split; [lia | exact Hsuf3].
Qed.

(** How the loop can end. *)
Lemma cmd_loop_outcome : forall n w,
  length (stdin w) < n ->
  match (while_true n cmd_loop_body tt w).1 with
  | Ret _ => exists line, line ∈ stdin w /\ Str.strip line = "quit"
  | Raise e =>
      (e = EOFError /\ stdin (while_true n cmd_loop_body tt w).2 = []) \/
      (e = TypeError "object NoneType can't be used in 'await' expression" /\
       exists line, line ∈ stdin w /\ Str.strip line = "list") \/
      (exists line, line ∈ stdin w /\
         Str.isdigit (Str.strip line) = true /\
         int_max_str_digits < String.length (Str.strip line) /\
         e = ValueError (int_limit_message (String.length (Str.strip line)))) \/
      (exists j buffer pre,
         e = exn_of j /\ Str.startswith buffer "{" = true /\
         loads buffer = Raises j /\
         out (while_true n cmd_loop_body tt w).2 = pre ++ [EvLoads buffer]) \/
      (is_Exception e = false /\
       exists tool_name arguments s notifications s',
         client_call_tool tool_name arguments s = ((notifications, inl e), s'))
  | OutOfFuel => False
  end.
Proof.
  induction n as [|n IH]; intros w Hn; [lia|].
  cbn [while_true]. unfold bind.
  pose proof (cmd_loop_body_outcome w) as Hb.
  destruct (cmd_loop_body tt w) as [[[[]|[]]|e|] w'].
  - destruct Hb as [Hlt Hsuf]. specialize (IH w' ltac:(lia)).
    destruct (while_true n cmd_loop_body tt w') as [[[]|e|] w'']; simpl in *.
    + destruct IH as (line & Hin & Hq). exists line.
      split; [eapply suffix_elem_of; eassumption | exact Hq].
    + destruct IH as [H | [(He & line & Hin & Hl)
                          | [(line & Hin & Hl) | [H | H]]]].
      * left. exact H.
      * right. left. split; [exact He|]. exists line.
        split; [eapply suffix_elem_of; eassumption | exact Hl].
      * right. right. left. exists line.
        split; [eapply suffix_elem_of; eassumption | exact Hl].
      * right. right. right. left. exact H.
      * right. right. right. right. exact H.
    + exact IH.
  - exact Hb.
  - exact Hb.
  - exact Hb.
Qed.

(** ** More on the Result Renderer and the calls *)

(** X4.  Rendering a result changes the trace only, and what it adds
    begins the banner followed, for each segment in the order of [content],
    by what that segment alone adds (a [json.loads] call and one print for
    a text segment, one print of the segment itself for any other; the
    result itself when it has no [content]).  When the renderer returns it
    has added all of it.  When it raises, the exception is one that
    [json.loads] raised on the payload of a text segment, other than
    [JSONDecodeError]; a result with no text segment is always rendered
    whole. *)
Theorem result_is_rendered_segment_by_segment result w :
  (exists r evs,
     pretty_print_tool_result result w = (r, log w evs) /\
     evs `prefix_of` result_events result /\
     (r = Ret tt -> evs = result_events result) /\
     (forall e, r = Raise e ->
        exists segments c j,
          content result = Some segments /\ c ∈ segments /\
          ctype c = "text" /\ loads (text c) = Raises j /\ e = exn_of j) /\
     r <> OutOfFuel) /\
  (forall before after c,
     content result = Some (before ++ c :: after) ->
     result_events result =
       result_events {| content := Some before; rrepr := rrepr result |}
       ++ segment_events c ++ concat (map segment_events after)) /\
  (forall c, ctype c <> "text" ->
     segment_events c = [EvPrint (crepr c)] /\ segment_error c = None).
Proof.
  split; [|split].
  - rewrite pretty_print_tool_result_outcome. unfold result_events.
    destruct (content result) as [segs|].
    + pose proof (rendering_prefix segs) as Hp.
      pose proof (rendering_returns segs) as Hr.
      pose proof (rendering_raises segs) as He.
      destruct (rendering segs) as [[j|] evs]; simpl in *.
      * eexists _, _. split; [reflexivity|].
        split; [apply (prefix_cons _ _ _ Hp)|].
        split; [discriminate|]. split; [|discriminate].
        intros e E. injection E as <-.
        destruct (He j eq_refl) as (c & Hc & Hj).
        destruct (segment_error_text c j Hj) as (Ht & Hl & _).
        exists segs, c, j. repeat split; assumption.
      * eexists _, _. split; [reflexivity|].
        rewrite (Hr eq_refl).
        split; [reflexivity|]. split; [reflexivity|]. split; discriminate.
    + eexists _, _. split; [reflexivity|].
      split; [reflexivity|]. split; [reflexivity|]. split; discriminate.
  - intros before after c Hc. unfold result_events. rewrite Hc. simpl.
    rewrite map_app, concat_app. simpl. reflexivity.
  - intros c Hc. unfold segment_events, segment_error.
    rewrite bool_decide_eq_false_2 by exact Hc. split; reflexivity.
Qed.

(** X5.  A call that the server answers with a result: [cmd_call_tool]
    prints the call line, then one progress line for each notification in
    the order they arrived, then renders the result, and returns normally
    in every case.  The server is called with the arguments as given, or
    with an empty dictionary when they are false in Python's sense; the
    catalog and the input are untouched.  When no segment makes
    [json.loads] raise, the result is rendered whole.  When [json.loads]
    raises on a text segment (anything but [JSONDecodeError]), the handler
    of [cmd_call_tool] catches it: after the banner and the segments before,
    the call that succeeded is reported as
    [Failed to call tool '<name>': <str(e)>]. *)
Theorem successful_call_is_reported tool_name arguments w notifications result s' :
  client_call_tool tool_name
    (if py_truthy arguments then arguments else JDict []) (srv w)
    = ((notifications, inr result), s') ->
  ((forall segments c,
      content result = Some segments -> c ∈ segments -> segment_error c = None) ->
   cmd_call_tool tool_name arguments w =
     (Ret tt,
      {| stdin := stdin w;
         out := out w ++ [EvPrint ("call tool " +:+ tool_name +:+ " ...")]
                  ++ map log_callback notifications ++ result_events result;
         srv := s'; tools := tools w |})) /\
  (forall before c after j,
     content result = Some (before ++ c :: after) ->
     (forall c', c' ∈ before -> segment_error c' = None) ->
     segment_error c = Some j ->
     cmd_call_tool tool_name arguments w =
       (Ret tt,
        {| stdin := stdin w;
           out := out w ++ [EvPrint ("call tool " +:+ tool_name +:+ " ...")]
                    ++ map log_callback notifications
                    ++ [EvPrint (nl +:+ "================ tool result ===============" +:+ nl)]
                    ++ concat (map segment_events before)
                    ++ [EvLoads (text c);
                        EvPrint ("Failed to call tool '" +:+ tool_name +:+ "': "
                                   +:+ exn_str (exn_of j))];
           srv := s'; tools := tools w |})).
Proof.
  intros Hc.
  rewrite (cmd_call_tool_cases tool_name arguments w notifications
             (inr result) s' Hc).
  unfold call_rendering, result_events. split.
  - intros Hok. destruct (content result) as [segs|]; [|reflexivity].
    rewrite (rendering_ok segs) by (intros c; apply Hok; reflexivity).
    simpl. rewrite app_nil_r. reflexivity.
  - intros before c after j -> Hb Hj.
    rewrite (rendering_fail before c after j Hb Hj). simpl.
    rewrite <- !app_assoc. reflexivity.
Qed.

(** X6.  An exception leaves [cmd_call_tool] only if the call of the tool
    raised it and it is not derived from [Exception] (a
    [KeyboardInterrupt], a [CancelledError]); then no failure message is
    printed: the trace ends with the progress lines of the call. *)
Theorem only_base_exceptions_leave_cmd_call_tool tool_name arguments w e w' :
  cmd_call_tool tool_name arguments w = (Raise e, w') ->
  is_Exception e = false /\
  exists notifications,
    client_call_tool tool_name
      (if py_truthy arguments then arguments else JDict []) (srv w)
      = ((notifications, inl e), srv w') /\
    out w' = out w ++ [EvPrint ("call tool " +:+ tool_name +:+ " ...")]
               ++ map log_callback notifications.
Proof.
  intros E.
  destruct (client_call_tool tool_name
              (if py_truthy arguments then arguments else JDict []) (srv w))
    as [[ps r] s'] eqn:Hc.
  rewrite (cmd_call_tool_cases tool_name arguments w ps r s' Hc) in E.
  destruct r as [e0 | result]; [|discriminate].
  destruct (is_Exception e0) eqn:He; [discriminate|].
  injection E as <- <-. split; [exact He|]. exists ps. split; reflexivity.
Qed.

(** ** How the command loop ends and what its commands do *)

(** X7.  On input lines of ASCII characters, with a terminal and a file
    system that do not fail, the command loop ends in one of six ways only.
    It returns, and then some line of the input was the command [quit].  It
    raises [EOFError], and then the input is used up.  It raises the
    [TypeError] of the command [list], and then some line was that command.
    It raises the [ValueError] of [int(command)], and then some line was a
    command of more than [int_max_str_digits] digits.  It raises what
    [json.loads] raised, other than [JSONDecodeError], on a buffer of call
    arguments that begins with a brace, that parse being the last effect.
    Or it raises an exception not derived from [Exception] that a call of a
    tool raised. *)
Theorem cmd_loop_ends_in_six_ways w :
  Forall (fun line => ascii_only line = true) (stdin w) ->
  match (cmd_loop w).1 with
  | Ret _ => exists line, line ∈ stdin w /\ Str.strip line = "quit"
  | Raise e =>
      (e = EOFError /\ stdin (cmd_loop w).2 = []) \/
      (e = TypeError "object NoneType can't be used in 'await' expression" /\
       exists line, line ∈ stdin w /\ Str.strip line = "list") \/
      (exists line, line ∈ stdin w /\
         Str.isdigit (Str.strip line) = true /\
         int_max_str_digits < String.length (Str.strip line) /\
         e = ValueError (int_limit_message (String.length (Str.strip line)))) \/
      (exists j buffer pre,
         e = exn_of j /\ Str.startswith buffer "{" = true /\
         loads buffer = Raises j /\
         out (cmd_loop w).2 = pre ++ [EvLoads buffer]) \/
      (is_Exception e = false /\
       exists tool_name arguments s notifications s',
         client_call_tool tool_name arguments s = ((notifications, inl e), s'))
  | OutOfFuel => False
  end.
Proof. intros _. unfold cmd_loop. apply cmd_loop_outcome. lia. Qed.

(** X8.  The command [dump] (surrounded by any whitespace): the file
    [schema.json] is written once, with the dictionaries of the tools in
    the order of the catalog, serialized with indent 2 and non-ASCII kept;
    [schema.json saved] is printed and the loop goes on with the next
    line. *)
Theorem dump_command_writes_the_catalog w line rest :
  stdin w = line :: rest ->
  Str.strip line = "dump" ->
  cmd_loop w =
  cmd_loop
    (advance w rest
       [EvInput cmd_prompt;
        EvFile "schema.json"
          (dumps (JList (map model_dump (tools w))) (Some 2) false);
        EvPrint "schema.json saved"]).
Proof.
  intros Hin Hd. apply cmd_loop_continue, (cmd_loop_body_dump w line rest Hin Hd).
Qed.

(** X9.  Commands without effect on the session.  A line that is empty
    once stripped only shows the prompt again; a line that is not [list],
    [dump], [quit] or a string of digits prints [Unknown command]; in both
    cases the loop goes on with the next line.  The command [quit] makes the
    loop return at once: the lines after it are left unread. *)
Theorem commands_without_effect w line rest :
  stdin w = line :: rest ->
  (Str.truthy (Str.strip line) = false ->
   cmd_loop w = cmd_loop (advance w rest [EvInput cmd_prompt])) /\
  (Str.truthy (Str.strip line) = true ->
   Str.strip line <> "list" -> Str.strip line <> "dump" ->
   Str.strip line <> "quit" -> Str.isdigit (Str.strip line) = false ->
   cmd_loop w =
   cmd_loop (advance w rest [EvInput cmd_prompt; EvPrint "Unknown command"])) /\
  (Str.strip line = "quit" ->
   cmd_loop w = (Ret tt, advance w rest [EvInput cmd_prompt])).
Proof.
  intros Hin. split; [|split].
  - intros Ht. apply cmd_loop_continue, (cmd_loop_body_blank w line rest Hin Ht).
  - intros Ht Hl Hd Hq Hn.
    apply cmd_loop_continue, (cmd_loop_body_unknown w line rest Hin Ht Hl Hd Hq Hn).
  - intros Hq. unfold cmd_loop. rewrite Hin. cbn [length while_true]. unfold bind.
    rewrite (cmd_loop_body_quit w line rest Hin Hq). reflexivity.
Qed.

(** X10.  A tool whose name is the empty string can be shown but not
    called: its number (a command that [int] converts: at most
    [int_max_str_digits] digits) prints its schema, and the loop goes on
    without asking for arguments and without calling the server. *)
Theorem unnamed_tool_is_never_called w command rest tool :
  stdin w = command :: rest ->
  Str.isdigit (Str.strip command) = true ->
  String.length (Str.strip command) <= int_max_str_digits ->
  (1 <= Str.int (Str.strip command))%Z ->
  tools w !! Z.to_nat (Str.int (Str.strip command) - 1) = Some tool ->
  name tool = "" ->
  cmd_loop_body tt w =
    (Ret (Continue tt),
     advance w rest [EvInput cmd_prompt;
                     EvPrint (dumps (model_dump tool) (Some 2) false)]).
Proof.
  intros Hin Hd Hlen H1 Hl Hn.
  rewrite (cmd_loop_body_digits w command rest Hin Hd Hlen). unfold bind at 1.
  rewrite (cmd_show_tool_schema_in_range _ tool) by (simpl; (lia || exact Hl)).
  rewrite Hn. unfold ret, log, advance. simpl. rewrite <- app_assoc. reflexivity.
Qed.

(** ** Connecting, and the entry point *)

Lemma no_connect_nil : no_connect [].
Proof. intros c H. inversion H. Qed.

Lemma no_connect_app evs1 evs2 :
  no_connect evs1 -> no_connect evs2 -> no_connect (evs1 ++ evs2).
Proof.
  intros H1 H2 c H. apply elem_of_app in H as [H | H]; [exact (H1 c H) | exact (H2 c H)].
Qed.

Lemma no_connect_cons e evs :
  (forall c, e <> EvConnect c) -> no_connect evs -> no_connect (e :: evs).
Proof.
  intros He H c Hc. apply elem_of_cons in Hc as [Hc | Hc]; [|exact (H c Hc)].
  exact (He c (eq_sym Hc)).
Qed.

Lemma no_connect_session evs :
  forallb session_event evs = true -> no_connect evs.
Proof.
  induction evs as [|e evs IH]; intros H; [apply no_connect_nil|].
  simpl in H. apply andb_true_iff in H as [He H].
  apply no_connect_cons; [|exact (IH H)].
  intros c ->. discriminate He.
Qed.

Lemma session_event_rows ts : forall i, forallb session_event (rows i ts) = true.
Proof. induction ts as [|t ts IH]; intros i; [reflexivity | exact (IH (S i))]. Qed.

Lemma session_event_table ts : forallb session_event (table ts) = true.
Proof.
  unfold table. rewrite !forallb_app, session_event_rows. reflexivity.
Qed.

Lemma connect_and_loop_refused config w e :
  (client_enter config (srv w)).1 = Some e ->
  connect_and_loop config w =
    (Raise e,
     {| stdin := stdin w; out := out w ++ [EvConnect config];
        srv := (client_enter config (srv w)).2; tools := tools w |}).
Proof. intros H. unfold connect_and_loop. rewrite H. reflexivity. Qed.

Lemma connect_and_loop_list_fails config w e s2 :
  (client_enter config (srv w)).1 = None ->
  client_list_tools (client_enter config (srv w)).2 = (inl e, s2) ->
  connect_and_loop config w =
    (Raise e,
     {| stdin := stdin w; out := out w ++ [EvConnect config; EvClose];
        srv := client_exit s2; tools := tools w |}).
Proof.
  intros H Hl. unfold connect_and_loop. rewrite H. unfold bind at 1. simpl.
  rewrite Hl. simpl. rewrite <- app_assoc. reflexivity.
Qed.

Lemma connect_and_loop_connected config w ts s2 :
  (client_enter config (srv w)).1 = None ->
  client_list_tools (client_enter config (srv w)).2 = (inr ts, s2) ->
  connect_and_loop config w =
    (let r := cmd_loop {| stdin := stdin w;
                          out := out w ++ EvConnect config :: table ts;
                          srv := s2; tools := ts |} in
     (r.1, {| stdin := stdin r.2; out := out r.2 ++ [EvClose];
              srv := client_exit (srv r.2); tools := tools r.2 |})).
Proof.
  intros H Hl. unfold connect_and_loop. rewrite H.
  unfold bind at 1. simpl. rewrite Hl. simpl.
  unfold bind at 1. unfold set_tools at 1. simpl.
  unfold bind at 1. rewrite cmd_list_tools_log.
  unfold call_async, await, bind, ret, log. simpl.
  rewrite <- app_assoc. simpl.
  destruct (cmd_loop _) as [[[]|e|] w3]; reflexivity.
Qed.

(** X11.  A session that connects and lists its tools: the catalog of the
    whole session is the list the server gave at that moment, also when the
    loop has ended; the trace is one [connect], the table of that catalog,
    then session events only, then one [close]; the connection is closed
    however the loop ends, and the result of the loop is the result of the
    session. *)
Theorem connected_session_is_bracketed config w ts s2 :
  (client_enter config (srv w)).1 = None ->
  client_list_tools (client_enter config (srv w)).2 = (inr ts, s2) ->
  tools (connect_and_loop config w).2 = ts /\
  (exists evs,
     out (connect_and_loop config w).2 =
       out w ++ EvConnect config :: table ts ++ evs ++ [EvClose] /\
     forallb session_event evs = true) /\
  (connect_and_loop config w).1 =
    (cmd_loop {| stdin := stdin w; out := out w ++ EvConnect config :: table ts;
                 srv := s2; tools := ts |}).1.
Proof.
  intros H Hl. rewrite (connect_and_loop_connected config w ts s2 H Hl).
  cbv zeta.
  match goal with |- context [cmd_loop ?w1] =>
    pose proof (keeps_while_true cmd_loop_body keeps_cmd_loop_body
                  (S (length (stdin w1))) tt w1) as (Ht & _ & evs & Ho & He);
    fold (cmd_loop w1) in Ht, Ho
  end.
  simpl in *. split; [exact Ht|]. split; [|reflexivity].
  exists evs. split; [|exact He].
  rewrite Ho, <- !app_assoc. simpl. rewrite <- app_assoc. reflexivity.
Qed.

(** X12.  Failures before the loop.  When the client cannot connect, the
    exception is raised with nothing read from the input, no tool listed
    and nothing to close.  When the tools cannot be listed, the connection
    just opened is closed and the exception is raised; no table is printed
    and no command is asked for. *)
Theorem failures_before_the_loop config w e :
  ((client_enter config (srv w)).1 = Some e ->
   connect_and_loop config w =
     (Raise e,
      {| stdin := stdin w; out := out w ++ [EvConnect config];
         srv := (client_enter config (srv w)).2; tools := tools w |})) /\
  (forall s2,
     (client_enter config (srv w)).1 = None ->
     client_list_tools (client_enter config (srv w)).2 = (inl e, s2) ->
     connect_and_loop config w =
       (Raise e,
        {| stdin := stdin w; out := out w ++ [EvConnect config; EvClose];
           srv := client_exit s2; tools := tools w |})).
Proof.
  split; [apply connect_and_loop_refused|].
  intros s2. apply connect_and_loop_list_fails.
Qed.

Lemma truthy_false s : Str.truthy s = false <-> s = "".
Proof. destruct s; simpl; split; congruence. Qed.

Lemma parse_headers_prints hs : forall m w,
  exists m' evs, parse_headers hs m w = (Ret m', log w evs) /\
                 forallb session_event evs = true.
Proof.
  induction hs as [|h hs IH]; intros m w.
  - exists m, []. rewrite log_nil. split; reflexivity.
  - destruct (split1_cases ":" h) as [[Hn _] | (a & b & -> & Hn & _)].
    + rewrite parse_headers_invalid by exact Hn.
      destruct (IH m (log w [EvPrint ("Invalid header format: " +:+ h)]))
        as (m' & evs & -> & He).
      rewrite log_log. eexists _, _. split; [reflexivity | exact He].
    + change (a +:+ String ":" b) with (a +:+ ":" +:+ b).
      rewrite parse_headers_entry by exact Hn.
      match goal with |- context [parse_headers hs ?m1 ?w1] =>
        destruct (IH m1 w1) as (m' & evs & -> & He) end.
      rewrite log_log. eexists _, _. split; [reflexivity | exact He].
Qed.

(** The four ways the endpoint is obtained. *)
Lemma read_url_cases args w :
  (arg_url args <> "" /\ read_url args w = (Ret (Some (arg_url args)), w)) \/
  (arg_url args = "" /\ stdin w = [] /\
   read_url args w =
     (Raise EOFError,
      advance w [] [EvPrintHelp; EvPrint SAMPLE;
                    EvPrint (nl +:+ nl +:+ "input url (sse or streamable):");
                    EvInput ""])) \/
  (arg_url args = "" /\ exists line rest,
     stdin w = line :: rest /\ Str.startswith (Str.strip line) "http" = false /\
     read_url args w =
       (Ret None,
        advance w rest [EvPrintHelp; EvPrint SAMPLE;
                        EvPrint (nl +:+ nl +:+ "input url (sse or streamable):");
                        EvInput ""; EvPrint "URL string must start with http";
                        EvSleep 1])) \/
  (arg_url args = "" /\ exists line rest,
     stdin w = line :: rest /\ Str.startswith (Str.strip line) "http" = true /\
     read_url args w =
       (Ret (Some (Str.strip line)),
        advance w rest [EvPrintHelp; EvPrint SAMPLE;
                        EvPrint (nl +:+ nl +:+ "input url (sse or streamable):");
                        EvInput ""])).
Proof.
  unfold read_url. destruct (Str.truthy (arg_url args)) eqn:Ht.
  { left. split; [|reflexivity]. intros E. rewrite E in Ht. discriminate. }
  apply truthy_false in Ht. right. cbn [negb].
  unfold bind, emit, print, emit, input. simpl.
  destruct (stdin w) as [|line rest] eqn:Hin.
  - left. split; [exact Ht|]. split; [reflexivity|].
    unfold advance. simpl. rewrite <- !app_assoc. reflexivity.
  - right. destruct (Str.startswith (Str.strip line) "http") eqn:Hs.
    + right. split; [exact Ht|]. exists line, rest.
      split; [reflexivity|]. split; [exact Hs|].
      simpl. unfold advance, ret. simpl. rewrite <- !app_assoc. reflexivity.
    + left. split; [exact Ht|]. exists line, rest.
      split; [reflexivity|]. split; [exact Hs|].
      simpl. unfold advance, ret. simpl. rewrite <- !app_assoc. reflexivity.
Qed.

Lemma transport_kind_stdio args url :
  transport_kind args url = "stdio" <-> arg_type args = "stdio".
Proof.
  unfold transport_kind. destruct (Str.truthy (arg_type args)) eqn:Ht; simpl.
  - reflexivity.
  - apply truthy_false in Ht. rewrite Ht.
    destruct (Str.contains url "sse"); split; discriminate.
Qed.

(** With an endpoint, [main] builds the configuration and, when the client
    accepts it, hands it to [connect_and_loop]; before that it only logs
    and prints. *)
Lemma main_from_url args w url w1 :
  read_url args w = (Ret (Some url), w1) ->
  exists headers pre config,
    main args w =
      match client_new config with
      | Some e => (Raise e, log w1 pre)
      | None => connect_and_loop config (log w1 pre)
      end /\
    no_connect pre /\
    ((arg_type args = "stdio" /\
      exists command a, config = StdioConfig command a headers) \/
     (arg_type args <> "stdio" /\
      config = RemoteConfig url headers (transport_kind args url) 3600)).
Proof.
  intros Hr. unfold main. unfold bind at 1. rewrite Hr. cbv zeta.
  fold (transport_kind args url).
  set (w2 := if arg_debug args then log w1 [EvLogging] else w1).
  assert (E1 : (if arg_debug args then emit EvLogging else ret tt) w1 = (Ret tt, w2)).
  { subst w2. destruct (arg_debug args); reflexivity. }
  unfold bind at 1. rewrite E1.
  destruct (parse_headers_prints (arg_header args) ∅ w2) as (headers & evs & E2 & He).
  unfold bind at 1. rewrite E2.
  assert (Hpre : no_connect ((if arg_debug args then [EvLogging] else []) ++ evs)).
  { apply no_connect_app; [|apply no_connect_session, He].
    destruct (arg_debug args); [|apply no_connect_nil].
    apply no_connect_cons; [discriminate | apply no_connect_nil]. }
  assert (Ew : log w2 evs = log w1 ((if arg_debug args then [EvLogging] else []) ++ evs)).
  { subst w2. destruct (arg_debug args); [rewrite log_log | ]; reflexivity. }
  rewrite Ew. clear Ew E1 E2.
  set (pre0 := (if arg_debug args then [EvLogging] else []) ++ evs) in *.
  unfold bind at 1. unfold FastMcpClient_new, FastMcpClient_init.
  destruct (decide (arg_type args = "stdio")) as [Hst | Hst].
  - rewrite bool_decide_eq_true_2 by (apply transport_kind_stdio; exact Hst).
    cbv zeta.
    match goal with |- context [StdioConfig ?c ?a headers] =>
      set (config := StdioConfig c a headers) end.
    exists headers,
      (pre0 ++ [EvPrint (nl +:+ "starting stdio mcp with config:" +:+ nl
                           +:+ repr_config config +:+ nl)]), config.
    split; [|split].
    + unfold bind, print, emit, ret, raise, log. simpl.
      destruct (client_new config); simpl; rewrite <- app_assoc; reflexivity.
    + apply no_connect_app; [exact Hpre|].
      apply no_connect_cons; [discriminate | apply no_connect_nil].
    + left. split; [exact Hst|]. subst config. eauto.
  - rewrite bool_decide_eq_false_2
      by (intros E; apply Hst, (transport_kind_stdio args url), E).
    exists headers, pre0, (RemoteConfig url headers (transport_kind args url) 3600).
    split; [|split].
    + unfold bind, ret, raise. destruct (client_new _); reflexivity.
    + exact Hpre.
    + right. split; [exact Hst | reflexivity].
Qed.

Lemma connect_and_loop_trace config w :
  exists post,
    out (connect_and_loop config w).2 = out w ++ EvConnect config :: post /\
    no_connect post /\
    stdin (connect_and_loop config w).2 `suffix_of` stdin w.
Proof.
  destruct (client_enter config (srv w)).1 as [e|] eqn:H.
  { rewrite (connect_and_loop_refused config w e H). exists []. simpl.
    split; [reflexivity|]. split; [apply no_connect_nil | reflexivity]. }
  destruct (client_list_tools (client_enter config (srv w)).2) as [[e|ts] s2] eqn:Hl.
  { rewrite (connect_and_loop_list_fails config w e s2 H Hl). exists [EvClose]. simpl.
    split; [reflexivity|]. split; [|reflexivity].
    apply no_connect_cons; [discriminate | apply no_connect_nil]. }
  rewrite (connect_and_loop_connected config w ts s2 H Hl). cbv zeta.
  match goal with |- context [cmd_loop ?w1] =>
    pose proof (keeps_while_true cmd_loop_body keeps_cmd_loop_body
                  (S (length (stdin w1))) tt w1) as (_ & Hs & evs & Ho & He);
    fold (cmd_loop w1) in Hs, Ho
  end.
  simpl in *. exists (table ts ++ evs ++ [EvClose]).
  split; [rewrite Ho, <- !app_assoc; simpl; rewrite <- app_assoc; reflexivity|].
  split; [|exact Hs].
  apply no_connect_app; [apply no_connect_session, session_event_table|].
  apply no_connect_app; [apply no_connect_session, He|].
  apply no_connect_cons; [discriminate | apply no_connect_nil].
Qed.

Lemma main_connection args w evs config :
  out (main args w).2 = out w ++ evs ->
  EvConnect config ∈ evs ->
  match config with
  | StdioConfig _ _ _ => arg_type args = "stdio"
  | RemoteConfig url _ transport timeout =>
      arg_type args <> "stdio" /\
      transport = transport_kind args url /\ timeout = 3600 /\
      (arg_url args <> "" -> url = arg_url args) /\
      (arg_url args = "" -> Str.startswith url "http" = true)
  end.
Proof.
  intros Ho Hin.
  assert (Hno : forall pre, out (main args w).2 = out w ++ pre -> no_connect pre -> False).
  { intros pre E Hpre. rewrite Ho in E. apply app_inv_head in E. subst pre.
    exact (Hpre config Hin). }
  assert (Hyes : forall url w1 pre0,
            read_url args w = (Ret (Some url), w1) ->
            out w1 = out w ++ pre0 -> no_connect pre0 ->
            (arg_url args <> "" -> url = arg_url args) ->
            (arg_url args = "" -> Str.startswith url "http" = true) ->
            match config with
            | StdioConfig _ _ _ => arg_type args = "stdio"
            | RemoteConfig url _ transport timeout =>
                arg_type args <> "stdio" /\
                transport = transport_kind args url /\ timeout = 3600 /\
                (arg_url args <> "" -> url = arg_url args) /\
                (arg_url args = "" -> Str.startswith url "http" = true)
            end).
  { intros url w1 pre0 Hr Ho1 Hpre0 Hu1 Hu2.
    destruct (main_from_url args w url w1 Hr) as (headers & pre & config0 & Em & Hpre & Hc).
    destruct (client_new config0) as [e0|].
    { exfalso. apply (Hno (pre0 ++ pre)).
      - rewrite Em. simpl. rewrite Ho1, <- app_assoc. reflexivity.
      - apply no_connect_app; assumption. }
    destruct (connect_and_loop_trace config0 (log w1 pre)) as (post & Ep & Hpost & _).
    rewrite <- Em in Ep. simpl in Ep. rewrite Ho1, Ho in Ep.
    rewrite <- !app_assoc in Ep. apply app_inv_head in Ep. subst evs.
    apply elem_of_app in Hin as [Hin | Hin]; [exfalso; exact (Hpre0 config Hin)|].
    apply elem_of_app in Hin as [Hin | Hin]; [exfalso; exact (Hpre config Hin)|].
    apply elem_of_cons in Hin as [Hin | Hin]; [|exfalso; exact (Hpost config Hin)].
    injection Hin as ->.
    destruct Hc as [(Hst & command & a & ->) | (Hst & ->)]; [exact Hst|].
    repeat split; assumption. }
  destruct (read_url_cases args w)
    as [(Hu & Hr) | [(Hu & Hs & Hr) | [(Hu & line & rest & Hs & Hh & Hr)
       | (Hu & line & rest & Hs & Hh & Hr)]]].
  - apply (Hyes _ w [] Hr); [rewrite app_nil_r; reflexivity | apply no_connect_nil | | ].
    + reflexivity.
    + intros E. contradiction.
  - exfalso. eapply Hno.
    + unfold main. unfold bind. rewrite Hr. reflexivity.
    + repeat (apply no_connect_cons; [discriminate|]). apply no_connect_nil.
  - exfalso. eapply Hno.
    + unfold main. unfold bind. rewrite Hr. reflexivity.
    + repeat (apply no_connect_cons; [discriminate|]). apply no_connect_nil.
  - eapply (Hyes _ _ _ Hr); [reflexivity | | | ].
    + repeat (apply no_connect_cons; [discriminate|]). apply no_connect_nil.
    + intros E. contradiction.
    + intros _. exact Hh.
Qed.

(** X13.  The connection [main] opens.  A stdio configuration is built only
    when [-type stdio] is given: the kind is never inferred to be stdio.
    Otherwise the configuration is remote, with the one-hour read timeout,
    with the transport of the command line or, when none is given, [sse]
    when the endpoint contains [sse] and [http] when it does not; an
    endpoint of the command line is used as it is, unchecked, and an
    endpoint typed at the prompt begins with [http]. *)
Theorem main_opens_the_configured_connection args w evs config :
  out (main args w).2 = out w ++ evs ->
  EvConnect config ∈ evs ->
  match config with
  | StdioConfig _ _ _ => arg_type args = "stdio"
  | RemoteConfig url _ transport timeout =>
      arg_type args <> "stdio" /\
      transport = transport_kind args url /\ timeout = 3600 /\
      (arg_url args <> "" -> url = arg_url args) /\
      (arg_url args = "" -> Str.startswith url "http" = true)
  end.
Proof. apply main_connection. Qed.

Lemma main_outcome args w :
  calls_fail_with_Exception ->
  (forall config s, (client_enter config s).1 = None) ->
  (forall s, exists ts, (client_list_tools s).1 = inr ts) ->
  (main args w).1 = Ret tt \/
  (main args w).1 = Raise EOFError \/
  (exists config e, client_new config = Some e /\ (main args w).1 = Raise e) \/
  (exists line, line ∈ stdin w /\ Str.strip line = "list" /\
     (main args w).1 =
       Raise (TypeError "object NoneType can't be used in 'await' expression")) \/
  (exists line, line ∈ stdin w /\
     Str.isdigit (Str.strip line) = true /\
     int_max_str_digits < String.length (Str.strip line) /\
     (main args w).1 =
       Raise (ValueError (int_limit_message (String.length (Str.strip line))))) \/
  (exists j buffer,
     Str.startswith buffer "{" = true /\ loads buffer = Raises j /\
     EvLoads buffer ∈ out (main args w).2 /\
     (main args w).1 = Raise (exn_of j)).
Proof.
  intros Hcalls Henter Hlist.
  assert (Hloop : forall url w1,
            read_url args w = (Ret (Some url), w1) ->
            stdin w1 `suffix_of` stdin w ->
            (main args w).1 = Ret tt \/
            (main args w).1 = Raise EOFError \/
            (exists config e, client_new config = Some e /\ (main args w).1 = Raise e) \/
            (exists line, line ∈ stdin w /\ Str.strip line = "list" /\
               (main args w).1 =
                 Raise (TypeError "object NoneType can't be used in 'await' expression")) \/
            (exists line, line ∈ stdin w /\
               Str.isdigit (Str.strip line) = true /\
               int_max_str_digits < String.length (Str.strip line) /\
               (main args w).1 =
                 Raise (ValueError (int_limit_message (String.length (Str.strip line))))) \/
            (exists j buffer,
               Str.startswith buffer "{" = true /\ loads buffer = Raises j /\
               EvLoads buffer ∈ out (main args w).2 /\
               (main args w).1 = Raise (exn_of j))).
  { intros url w1 Hr Hsuf.
    destruct (main_from_url args w url w1 Hr) as (headers & pre & config & -> & _ & _).
    destruct (client_new config) as [e0|] eqn:Hnew.
    { right. right. left. exists config, e0. split; [exact Hnew | reflexivity]. }
    set (w2 := log w1 pre).
    destruct (Hlist (client_enter config (srv w2)).2) as [ts Hts].
    destruct (client_list_tools (client_enter config (srv w2)).2) as [r s2] eqn:Hl.
    simpl in Hts. subst r.
    rewrite (connect_and_loop_connected config w2 ts s2 (Henter _ _) Hl).
    cbv zeta. cbn [fst snd out].
    match goal with |- context [cmd_loop ?w3] =>
      pose proof (cmd_loop_outcome (S (length (stdin w3))) w3 ltac:(lia)) as Ho;
      fold (cmd_loop w3) in Ho;
      destruct (cmd_loop w3) as [[[]|e|] w4]
    end; simpl in Ho |- *.
    - left. reflexivity.
    - destruct Ho as [[-> _] | [(-> & line & Hin & Hl')
                     | [(line & Hin & Hd & Hlen & ->)
                     | [(j & buf & pre' & -> & Hb1 & Hb2 & Hb3)
                     | (He & n & a & s & ps & s' & Hc)]]]].
      + right. left. reflexivity.
      + right. right. right. left. exists line.
        split; [eapply suffix_elem_of; eassumption|].
        split; [exact Hl' | reflexivity].
      + right. right. right. right. left. exists line.
        split; [eapply suffix_elem_of; eassumption|].
        repeat split; assumption.
      + right. right. right. right. right. exists j, buf.
        split; [exact Hb1|]. split; [exact Hb2|]. split; [|reflexivity].
        rewrite Hb3. apply elem_of_app. left. apply elem_of_app. right.
        apply elem_of_cons. left. reflexivity.
      + exfalso. rewrite (Hcalls _ _ _ _ _ _ Hc) in He. discriminate.
    - contradiction. }
  destruct (read_url_cases args w)
    as [(Hu & Hr) | [(Hu & Hs & Hr) | [(Hu & line & rest & Hs & Hh & Hr)
       | (Hu & line & rest & Hs & Hh & Hr)]]].
  - apply (Hloop _ _ Hr). reflexivity.
  - right. left. unfold main, bind. rewrite Hr. reflexivity.
  - left. unfold main, bind. rewrite Hr. reflexivity.
  - apply (Hloop _ _ Hr). simpl. rewrite Hs. apply suffix_cons_r. reflexivity.
Qed.

(** X14.  How a run of the program ends, on input lines of ASCII
    characters, with a server that accepts the connection, lists its tools
    and whose failing calls raise exceptions derived from [Exception].  It
    ends normally: by [quit], by the refusal of the endpoint typed at the
    prompt, or, through the [__main__] block, by the end of the input.  Or
    it ends with an exception that nothing catches, in one of four ways:
    the client refused the configuration when it was constructed (a remote
    transport with an endpoint that is no URL); the command [list] was
    typed; a command of more than [int_max_str_digits] digits was typed; or
    [json.loads] raised, on a buffer of call arguments that begins with a
    brace, something else than [JSONDecodeError]. *)
Theorem sessions_end_normally_or_in_four_errors args w :
  calls_fail_with_Exception ->
  (forall config s, (client_enter config s).1 = None) ->
  (forall s, exists ts, (client_list_tools s).1 = inr ts) ->
  Forall (fun line => ascii_only line = true) (stdin w) ->
  (script args w).1 = Ret tt \/
  (exists config e, client_new config = Some e /\ (script args w).1 = Raise e) \/
  (exists line, line ∈ stdin w /\ Str.strip line = "list" /\
     (script args w).1 =
       Raise (TypeError "object NoneType can't be used in 'await' expression")) \/
  (exists line, line ∈ stdin w /\
     Str.isdigit (Str.strip line) = true /\
     int_max_str_digits < String.length (Str.strip line) /\
     (script args w).1 =
       Raise (ValueError (int_limit_message (String.length (Str.strip line))))) \/
  (exists j buffer,
     Str.startswith buffer "{" = true /\ loads buffer = Raises j /\
     EvLoads buffer ∈ out (script args w).2 /\
     (script args w).1 = Raise (exn_of j)).
Proof.
  intros Hcalls Henter Hlist _.
  pose proof (main_outcome args w Hcalls Henter Hlist) as Hm.
  unfold script. destruct (main args w) as [r w'].
  cbn [fst snd] in Hm.
  destruct Hm as [-> | [-> | [(config & e & Hnew & ->)
                 | [(line & Hin & Hl & ->)
                 | [(line & Hin & Hd & Hlen & ->)
                 | (j & buf & Hb1 & Hb2 & Hb3 & ->)]]]]].
  - left. reflexivity.
  - left. reflexivity.
  - destruct e; try (left; reflexivity);
      right; left; exists config; eexists; (split; [exact Hnew | reflexivity]).
  - right. right. left. exists line. repeat split; assumption.
  - right. right. right. left. exists line. repeat split; assumption.
  - right. right. right. right. exists j, buf.
    destruct j; repeat split; assumption.
Qed.

(** ** The index of the table and the digits of a command *)

Lemma int_go_of_uint d : forall acc,
  Str.int_go (Z.of_nat acc) (NilEmpty.string_of_uint d)
  = Z.of_nat (Nat.of_uint_acc d acc).
Proof.
  induction d; intros acc; simpl Nat.of_uint_acc; cbn [NilEmpty.string_of_uint];
    [reflexivity | ..];
    cbn [Str.int_go]; rewrite <- IHd; f_equal; rewrite Nat.tail_mul_spec;
    change (Z.of_nat (nat_of_ascii _)) with 48%Z ||
    change (Z.of_nat (nat_of_ascii _)) with 49%Z ||
    change (Z.of_nat (nat_of_ascii _)) with 50%Z ||
    change (Z.of_nat (nat_of_ascii _)) with 51%Z ||
    change (Z.of_nat (nat_of_ascii _)) with 52%Z ||
    change (Z.of_nat (nat_of_ascii _)) with 53%Z ||
    change (Z.of_nat (nat_of_ascii _)) with 54%Z ||
    change (Z.of_nat (nat_of_ascii _)) with 55%Z ||
    change (Z.of_nat (nat_of_ascii _)) with 56%Z ||
    change (Z.of_nat (nat_of_ascii _)) with 57%Z; lia.
Qed.

(** [int(str(n)) = n] *)
Lemma int_of_nat n : Str.int (Str.of_nat n) = Z.of_nat n.
Proof.
  unfold Str.int, Str.of_nat.
  change 0%Z with (Z.of_nat 0). rewrite int_go_of_uint.
  change (Nat.of_uint_acc (Nat.to_uint n) 0) with (Nat.of_uint (Nat.to_uint n)).
  rewrite DecimalNat.Unsigned.of_to. reflexivity.
Qed.

Lemma all_digits_of_uint d : Str.all_digits (NilEmpty.string_of_uint d) = true.
Proof. induction d; simpl; [reflexivity | ..]; exact IHd. Qed.

Lemma isdigit_of_nat n : Str.isdigit (Str.of_nat n) = true.
Proof.
  unfold Str.isdigit, Str.of_nat.
  destruct (NilEmpty.string_of_uint (Nat.to_uint n)) eqn:E.
  - exfalso. pose proof (int_of_nat n) as H. unfold Str.of_nat in H. rewrite E in H.
    assert (n = 0) by (change (Str.int "") with 0%Z in H; lia). subst n.
    discriminate E.
  - rewrite <- E. apply all_digits_of_uint.
Qed.

Lemma digit_not_space c : Str.is_digit_char c = true -> Str.isspace c = false.
Proof.
  unfold Str.is_digit_char, Str.isspace. intros H.
  apply andb_true_iff in H as [H1 H2].
  apply Nat.leb_le in H1. apply Nat.leb_le in H2.
  repeat match goal with
         | |- context [?a <=? ?b] => destruct (Nat.leb_spec a b); try lia
         | |- context [?a =? ?b] => destruct (Nat.eqb_spec a b); try lia
         end; reflexivity.
Qed.

Lemma rstrip_digits s : Str.all_digits s = true -> Str.rstrip s = s.
Proof.
  induction s as [|c r IH]; [reflexivity|]. simpl. intros H.
  apply andb_true_iff in H as [Hc Hr]. rewrite (IH Hr).
  destruct r; [rewrite (digit_not_space c Hc)|]; reflexivity.
Qed.

(** Stripping leaves a string of digits as it is. *)
Lemma strip_digits s : Str.all_digits s = true -> Str.strip s = s.
Proof.
  intros H. unfold Str.strip. destruct s as [|c r]; [reflexivity|].
  simpl in H. pose proof H as H'. apply andb_true_iff in H' as [Hc Hr].
  simpl. rewrite (digit_not_space c Hc). apply rstrip_digits. simpl.
  rewrite Hc, Hr. reflexivity.
Qed.

Lemma rows_lookup ts : forall start i tool,
  ts !! i = Some tool ->
  rows start ts !! i
  = Some (EvPrint (" " +:+ Str.ljust 4 (Str.of_nat (start + i)) +:+ " | "
                       +:+ name tool)).
Proof.
  induction ts as [|t ts IH]; intros start i tool Hl; [discriminate|].
  destruct i as [|i]; simpl in *.
  - injection Hl as ->. rewrite Nat.add_0_r. reflexivity.
  - rewrite (IH (S start) i tool Hl). rewrite Nat.add_succ_r. reflexivity.
Qed.

(** X15.  The number the table shows for a tool selects that tool: for the
    tool at position [i] of the catalog (from zero), [cmd_list_tools]
    returns having printed, after the two lines of the heading, at line [i]
    of the rows, the number [i + 1] beside the name of the tool; and this
    number typed as a command (a number that [int] converts: at most
    [int_max_str_digits] digits) prints the schema of that same tool right
    after the prompt. *)
Theorem table_number_selects_its_tool w i tool rest :
  tools w !! i = Some tool ->
  stdin w = Str.of_nat (S i) :: rest ->
  String.length (Str.of_nat (S i)) <= int_max_str_digits ->
  ((cmd_list_tools w).1 = Ret tt /\
   out (cmd_list_tools w).2 !! (length (out w) + (2 + i))
     = Some (EvPrint (" " +:+ Str.ljust 4 (Str.of_nat (S i)) +:+ " | "
                          +:+ name tool))) /\
  exists evs,
    out (cmd_loop_body tt w).2 =
      out w ++ [EvInput cmd_prompt;
                EvPrint (dumps (model_dump tool) (Some 2) false)] ++ evs.
Proof.
  intros Hl Hin Hlen. split.
  { rewrite cmd_list_tools_log. split; [reflexivity|].
    cbn [snd]. unfold log, table. cbn [out].
    rewrite lookup_app_r by lia.
    replace (length (out w) + (2 + i) - length (out w)) with (S (S i)) by lia.
    pose proof (rows_lookup (tools w) 1 i tool Hl) as Hrow.
    change ((rows 1 (tools w) ++ [EvPrint "=================================="]) !! i
            = Some (EvPrint (" " +:+ Str.ljust 4 (Str.of_nat (S i)) +:+ " | "
                                 +:+ name tool))).
    exact (lookup_app_l_Some _ _ _ _ Hrow). }
  assert (Hd : Str.isdigit (Str.of_nat (S i)) = true) by apply isdigit_of_nat.
  assert (Hs : Str.strip (Str.of_nat (S i)) = Str.of_nat (S i)).
  { apply strip_digits. unfold Str.of_nat. apply all_digits_of_uint. }
  rewrite (cmd_loop_body_digits w _ rest Hin)
    by (rewrite Hs; first [exact Hd | exact Hlen]).
  rewrite Hs, int_of_nat. unfold bind at 1.
  rewrite (cmd_show_tool_schema_in_range _ tool)
    by (simpl; try lia; replace (Z.to_nat (Z.of_nat (S i) - 1)) with i by lia; exact Hl).
  match goal with |- context [?k (log ?w1 ?l)] =>
    set (w2 := log w1 l)
  end.
  assert (Ho2 : out w2 = out w ++ [EvInput cmd_prompt;
                  EvPrint (dumps (model_dump tool) (Some 2) false)]).
  { subst w2. simpl. rewrite <- app_assoc. reflexivity. }
  destruct (Str.truthy (name tool)).
  - match goal with |- context [bind ?m ?k w2] =>
      assert (Hk : keeps (bind m k))
    end.
    { apply keeps_bind; [apply keeps_input_json | intros a].
      apply keeps_bind; [apply keeps_cmd_call_tool | intros _; apply keeps_ret]. }
    destruct (Hk w2) as (_ & _ & evs & Ho & _).
    exists evs. rewrite Ho, Ho2, <- app_assoc. reflexivity.
  - exists []. unfold ret. cbn [snd]. rewrite Ho2, app_nil_r. reflexivity.
Qed.

(** ** The words of the stdio command line *)

Lemma has_whitespace_app a b :
  has_whitespace (a +:+ b) = has_whitespace a || has_whitespace b.
Proof.
  induction a as [|c a IH]; simpl; [reflexivity|].
  rewrite IH, orb_assoc. reflexivity.
Qed.

Lemma split_go_words s : forall cur,
  has_whitespace cur = false -> Forall is_word (Str.split_go cur s).
Proof.
  induction s as [|c r IH]; intros cur Hcur; simpl.
  - destruct (decide (cur = "")); [constructor|].
    constructor; [split; assumption | constructor].
  - destruct (Str.isspace c) eqn:Hc.
    + destruct (decide (cur = "")); [apply IH; reflexivity|].
      constructor; [split; assumption | apply IH; reflexivity].
    + apply IH. rewrite has_whitespace_app, Hcur. simpl. rewrite Hc. reflexivity.
Qed.

Lemma split_words s : Forall is_word (Str.split s).
Proof. apply split_go_words. reflexivity. Qed.

(** X16.  The stdio command line has no quoting: every argument is a word,
    not empty and without whitespace, so text in quotes with a space in it
    is cut like any other; the command is empty only when the target is
    empty or all whitespace, and then there are no arguments. *)
Theorem stdio_arguments_are_words rawTarget headers w command args env :
  (FastMcpClient_init rawTarget "stdio" headers w).1
    = Ret (StdioConfig command args env) ->
  Forall is_word args /\
  (command = "" <-> Str.strip rawTarget = "") /\
  (command = "" -> args = []).
Proof.
  intros H.
  destruct (stdio_config_cut rawTarget headers w)
    as (command0 & args0 & E & _ & Hcut & _).
  rewrite E in H. simpl in H. injection H as <- <- <-.
  destruct Hcut as [[Hs ->] | (remainder & Hs & ->)].
  - split; [constructor|]. split; [rewrite Hs; reflexivity | reflexivity].
  - split; [apply split_words|].
    assert (Hne : command0 <> "").
    { intros ->. destruct (strip_head rawTarget) as [E0 | (c & r & E0 & Hc)];
        rewrite E0 in Hs; [discriminate|].
      injection Hs as -> _. discriminate Hc. }
    split; [|intros; contradiction].
    split; [intros; contradiction|].
    intros E0. rewrite E0 in Hs. destruct command0; discriminate.
Qed.

End Client.

Arguments Build_World {W}.
Arguments stdin {W}.
Arguments out {W}.
Arguments srv {W}.
Arguments tools {W}.
Arguments log {W}.
Arguments advance {W}.

(** ** The string methods on examples *)

Example strip_ex : Str.strip ("  ab c" +:+ Sample.tab +:+ " ") = "ab c".
Proof. reflexivity. Qed.

Example split1_ex : Str.split1 ":" "a: b:c" = ["a"; " b:c"].
Proof. reflexivity. Qed.

Example split1_none_ex : Str.split1 ":" "abc" = ["abc"].
Proof. reflexivity. Qed.

Example split_ex :
  Str.split (" -y  server-x" +:+ Sample.tab +:+ "--flag ") = ["-y"; "server-x"; "--flag"].
Proof. reflexivity. Qed.

Example isdigit_ex : Str.isdigit "12" = true /\ Str.isdigit "" = false /\ Str.isdigit "1a" = false.
Proof. repeat split. Qed.

Example int_ex : Str.int "007" = 7%Z.
Proof. reflexivity. Qed.

Example ljust_ex : Str.ljust 4 (Str.of_nat 12) = "12  ".
Proof. reflexivity. Qed.

Example loads_ex :
  RefJson.loads (RefJson.text_of " { 'a' : [1, -20, true, null, {'b': 'x'}] } ")
  = Parsed (JDict [("a", JList [JInt 1; JInt (-20); JBool true; JNull;
                                JDict [("b", JStr "x")]])]).
Proof. vm_compute. reflexivity. Qed.

Example loads_incomplete_ex : RefJson.loads (RefJson.text_of "{'a':1") = JSONDecodeError.
Proof. vm_compute. reflexivity. Qed.

(** [json.loads] on an integer of 4300 digits, and of one more. *)
Example loads_limit_ex :
  RefJson.loads (Cases.nines 4300) = Parsed (JInt (Str.int (Cases.nines 4300))) /\
  RefJson.loads Cases.long_number
  = Raises (JSONValueError (int_limit_message 4301)).
Proof. split; vm_compute; reflexivity. Qed.

Example int_limit_message_ex :
  int_limit_message 4301
  = "Exceeds the limit (4300 digits) for integer string conversion: value has 4301 digits; use sys.set_int_max_str_digits() to increase the limit".
Proof. reflexivity. Qed.

Example dumps_ex :
  RefJson.dumps (JDict [("a", JInt 1)]) (Some 2) false
  = RefJson.text_of ("{" +:+ nl +:+ "  'a': 1" +:+ nl +:+ "}").
Proof. vm_compute. reflexivity. Qed.

(** ** The properties at concrete inputs *)

(** The object of [Sample.object_lines] is returned after its fourth line;
    the command after it is left for the loop. *)
Lemma input_json_returns_after_last_line_witness :
  RefJson.loads (accumulate Sample.object_lines) = Parsed Sample.object_value /\
  (exists evs,
     input_json unit RefJson.loads "args:"
       {| stdin := Sample.object_lines ++ ["quit"]; out := []; srv := tt;
          tools := RefServer.catalog |}
     = (Ret Sample.object_value,
        advance {| stdin := Sample.object_lines ++ ["quit"]; out := []; srv := tt;
                   tools := RefServer.catalog |} ["quit"] evs)) /\
  (forall k w', k < length Sample.object_lines ->
     stdin w' = take k Sample.object_lines ->
     exists evs, input_json unit RefJson.loads "args:" w'
                 = (Raise EOFError, advance w' [] evs)).
Proof.
  assert (Hv : RefJson.loads (accumulate Sample.object_lines)
               = Parsed Sample.object_value) by (vm_compute; reflexivity).
  split; [exact Hv|].
  apply (input_json_returns_after_last_line unit RefJson.loads "args:"
           Sample.object_lines ["quit"] Sample.object_value).
  - discriminate.
  - reflexivity.
  - vm_compute. reflexivity.
  - exact Hv.
  - intros k Hk. destruct k as [|[|[|[|k]]]];
      try (simpl in Hk; lia); vm_compute; reflexivity.
Defined.

(** The line [hello] at the start of a reader. *)
Lemma input_json_rejects_before_parsing_witness :
  input_json_body unit RefJson.loads "args:" ""
    {| stdin := ["hello"; "{}"]; out := []; srv := tt; tools := [] |}
  = (Ret (Continue ""),
     {| stdin := ["{}"]; out := [EvInput "args:"; EvPrint "invalid json format"];
        srv := tt; tools := [] |}).
Proof.
  apply (proj1 (input_json_rejects_before_parsing unit RefJson.loads "args:" ""
                  "hello" ["{}"]
                  {| stdin := ["hello"; "{}"]; out := []; srv := tt; tools := [] |}
                  eq_refl eq_refl)).
Defined.

(** The text segment [{"a":1}] is printed indented, the segment [plain] as
    it is, an image by its [repr].  A text segment of 4301 digits makes
    [json.loads] raise [ValueError]: it leaves the renderer, and the segment
    after it is not rendered. *)
Lemma text_segment_rendering_witness :
  pretty_print_tool_result unit RefJson.loads RefJson.dumps Cases.mixed_result
    {| stdin := []; out := []; srv := tt; tools := [] |}
  = (Ret tt,
     {| stdin := [];
        out := [EvPrint (nl +:+ "================ tool result ===============" +:+ nl);
                EvLoads (RefJson.text_of "{'a':1}");
                EvPrint (RefJson.text_of ("{" +:+ nl +:+ "  'a': 1" +:+ nl +:+ "}"));
                EvPrint "ImageContent(type='image')";
                EvLoads "plain"; EvPrint "plain"];
        srv := tt; tools := [] |}) /\
  pretty_print_tool_result unit RefJson.loads RefJson.dumps Cases.long_number_result
    {| stdin := []; out := []; srv := tt; tools := [] |}
  = (Raise (ValueError (int_limit_message 4301)),
     {| stdin := [];
        out := [EvPrint (nl +:+ "================ tool result ===============" +:+ nl);
                EvLoads (RefJson.text_of "{'a':1}");
                EvPrint (RefJson.text_of ("{" +:+ nl +:+ "  'a': 1" +:+ nl +:+ "}"));
                EvLoads Cases.long_number];
        srv := tt; tools := [] |}).
Proof.
  split.
  - apply (proj1 (text_segment_rendering unit RefJson.loads RefJson.dumps
                    Cases.mixed_result
                    [Sample.json_segment; Cases.image_segment; Sample.plain_segment]
                    {| stdin := []; out := []; srv := tt; tools := [] |} eq_refl)).
    intros c Hc.
    repeat (apply elem_of_cons in Hc as [-> | Hc]; [vm_compute; reflexivity|]).
    inversion Hc.
  - apply (proj1 (proj2 (text_segment_rendering unit RefJson.loads RefJson.dumps
                           Cases.long_number_result
                           [Sample.json_segment; Cases.long_number_segment;
                            Sample.plain_segment]
                           {| stdin := []; out := []; srv := tt; tools := [] |}
                           eq_refl))
             [Sample.json_segment] Cases.long_number_segment [Sample.plain_segment]
             (JSONValueError (int_limit_message 4301))).
    + reflexivity.
    + intros c Hc.
      apply elem_of_cons in Hc as [-> | Hc]; [vm_compute; reflexivity | inversion Hc].
    + vm_compute. reflexivity.
Defined.

(** A result with an empty list of segments. *)
Lemma empty_content_prints_banner_only_witness :
  pretty_print_tool_result unit RefJson.loads RefJson.dumps Sample.empty_result
    {| stdin := []; out := []; srv := tt; tools := [] |}
  = (Ret tt,
     {| stdin := [];
        out := [EvPrint (nl +:+ "================ tool result ===============" +:+ nl)];
        srv := tt; tools := [] |}).
Proof.
  apply (proj1 (empty_content_prints_banner_only unit RefJson.loads RefJson.dumps
                  Sample.empty_result
                  {| stdin := []; out := []; srv := tt; tools := [] |}) eq_refl).
Defined.

(** The tool [fail] of the reference server, called directly and from the
    loop by the lines [2] and [{}]. *)
Lemma call_failure_is_absorbed_witness :
  cmd_call_tool unit RefServer.call_tool RefJson.loads RefJson.dumps "fail" (JDict [])
    {| stdin := ["quit"]; out := []; srv := tt; tools := RefServer.catalog |}
  = (Ret tt,
     {| stdin := ["quit"];
        out := [EvPrint "call tool fail ..."; EvPrint "Failed to call tool 'fail': boom"];
        srv := tt; tools := RefServer.catalog |}) /\
  cmd_loop unit RefServer.call_tool RefJson.loads RefJson.dumps
    {| stdin := ["2"; "{}"; "quit"]; out := []; srv := tt; tools := RefServer.catalog |}
  = cmd_loop unit RefServer.call_tool RefJson.loads RefJson.dumps
      {| stdin := ["quit"];
         out := [EvInput cmd_prompt;
                 EvPrint (RefJson.text_of ("{" +:+ nl +:+ "  'name': 'fail'" +:+ nl +:+ "}"));
                 EvInput (nl +:+ nl +:+ "input call tool fail json args (support multiple lines json) :" +:+ nl);
                 EvLoads "{}";
                 EvPrint "call tool fail ...";
                 EvPrint "Failed to call tool 'fail': boom"];
         srv := tt; tools := RefServer.catalog |}.
Proof.
  pose proof (call_failure_is_absorbed unit RefServer.call_tool RefJson.loads
                RefJson.dumps "fail" (JDict [])
                {| stdin := ["quit"]; out := []; srv := tt; tools := RefServer.catalog |}
                [] (Exception "boom") tt eq_refl eq_refl) as [H1 H2].
  split; [exact H1|].
  apply (H2 {| stdin := ["2"; "{}"; "quit"]; out := []; srv := tt;
               tools := RefServer.catalog |} "2" "{}" ["quit"]
            {| name := "fail"; model_dump := JDict [("name", JStr "fail")] |});
    try reflexivity.
  - apply Nat.leb_le. reflexivity.
  - vm_compute. discriminate.
  - discriminate.
Defined.

(** The command [3] with the two tools of the reference server; the index
    [-1] with an empty catalog; and a command of 4301 digits, which ends the
    loop with the [ValueError] of [int]: [quit] is left unread. *)
Lemma out_of_range_index_does_nothing_witness :
  cmd_show_tool_schema unit RefJson.dumps 2
    {| stdin := []; out := []; srv := tt; tools := RefServer.catalog |}
  = (Ret None, {| stdin := []; out := []; srv := tt; tools := RefServer.catalog |}) /\
  cmd_show_tool_schema unit RefJson.dumps (-1)
    {| stdin := []; out := []; srv := tt; tools := [] |}
  = (Ret None, {| stdin := []; out := []; srv := tt; tools := [] |}) /\
  cmd_loop_body unit RefServer.call_tool RefJson.loads RefJson.dumps tt
    {| stdin := ["3"; "quit"]; out := []; srv := tt; tools := RefServer.catalog |}
  = (Ret (Continue tt),
     {| stdin := ["quit"]; out := [EvInput cmd_prompt]; srv := tt;
        tools := RefServer.catalog |}) /\
  cmd_loop unit RefServer.call_tool RefJson.loads RefJson.dumps
    {| stdin := [Cases.long_number; "quit"]; out := []; srv := tt;
       tools := RefServer.catalog |}
  = (Raise (ValueError (int_limit_message 4301)),
     {| stdin := ["quit"]; out := [EvInput cmd_prompt]; srv := tt;
        tools := RefServer.catalog |}).
Proof.
  split; [|split; [|split]].
  - apply (proj1 (out_of_range_index_does_nothing unit RefServer.call_tool
                    RefJson.loads RefJson.dumps
                    {| stdin := []; out := []; srv := tt; tools := RefServer.catalog |})).
    right. simpl. lia.
  - apply (proj1 (out_of_range_index_does_nothing unit RefServer.call_tool
                    RefJson.loads RefJson.dumps
                    {| stdin := []; out := []; srv := tt; tools := [] |})).
    left. lia.
  - apply (proj1 (proj2 (out_of_range_index_does_nothing unit RefServer.call_tool
                           RefJson.loads RefJson.dumps
                           {| stdin := ["3"; "quit"]; out := []; srv := tt;
                              tools := RefServer.catalog |})) "3" ["quit"]).
    + reflexivity.
    + reflexivity.
    + apply Nat.leb_le. reflexivity.
    + right. vm_compute. discriminate.
  - assert (Hd : Str.isdigit (Str.strip Cases.long_number) = true)
      by (vm_compute; reflexivity).
    assert (Hlen : int_max_str_digits < String.length (Str.strip Cases.long_number))
      by (apply Nat.ltb_lt; vm_compute; reflexivity).
    rewrite (proj2 (proj2 (out_of_range_index_does_nothing unit RefServer.call_tool
                             RefJson.loads RefJson.dumps
                             {| stdin := [Cases.long_number; "quit"]; out := [];
                                srv := tt; tools := RefServer.catalog |}))
               Cases.long_number ["quit"] eq_refl Hd Hlen).
    vm_compute. reflexivity.
Defined.

(** The entries [A: 1], [novalue], [A :2:3], [B:x]: the second is reported,
    and [A] ends with the value of its last entry. *)
Lemma header_entries_are_parsed_witness :
  (forall w : World unit,
     parse_headers unit ["novalue"; "B:x"] ∅ w =
     parse_headers unit ["B:x"] ∅ (log w [EvPrint "Invalid header format: novalue"])) /\
  (forall (w w' : World unit) m',
     parse_headers unit (["A: 1"] ++ "A :2:3" :: ["novalue"; "B:x"]) ∅ w = (Ret m', w') ->
     m' !! "A" = Some "2:3").
Proof.
  destruct (header_entries_are_parsed unit) as (_ & _ & Hinvalid & Hlast).
  split.
  - intros w. apply (Hinvalid "novalue" ["B:x"] ∅ w). reflexivity.
  - intros w w' m' Hrun.
    apply (Hlast ["A: 1"] "A " "2:3" ["novalue"; "B:x"] ∅ w m' w'); [reflexivity| |exact Hrun].
    intros k' v' Hin Hk' Heq.
    apply elem_of_cons in Hin as [Hin | Hin].
    + assert (Hc : has_char ":" (k' +:+ ":" +:+ v') = false)
        by (rewrite Hin; reflexivity).
      clear -Hc. induction k' as [|c k' IH]; simpl in Hc; [discriminate|].
      apply orb_false_iff in Hc as [_ Hc]. exact (IH Hc).
    + apply elem_of_cons in Hin as [Hin | Hin]; [|inversion Hin].
      assert (Hs : Str.split1 ":" (k' +:+ ":" +:+ v') = ["B"; "x"])
        by (rewrite Hin; reflexivity).
      change (k' +:+ ":" +:+ v') with (k' +:+ String ":" v') in Hs.
      rewrite (split1_at_sep ":" k' v' Hk') in Hs.
      injection Hs as -> ->. vm_compute in Heq. discriminate.
Defined.

(** The endpoint of the scenario, and its configuration. *)
Lemma stdio_config_splits_at_first_space_witness :
  StdioConfig "npx" ["-y"; "server-x"; "--flag"] ∅
  = spec_stdio_config (Str.strip "npx -y server-x --flag") ∅.
Proof.
  apply (proj1 (proj2 (stdio_config_splits_at_first_space unit RefServer.repr_config
                         "npx -y server-x --flag" ∅
                         {| stdin := []; out := []; srv := tt; tools := [] |}))
           "npx" ["-y"; "server-x"; "--flag"] ∅ eq_refl).
  reflexivity.
Defined.

(** C5, as the specification states it, fails for a target whose first
    whitespace is a tab: the code cuts [npx<TAB>-y server-x] into the command
    [npx<TAB>-y] and the argument [server-x], the specification into [npx]
    and [-y], [server-x]. *)
Lemma stdio_config_tab_counterexample :
  (FastMcpClient_init unit RefServer.repr_config
     ("npx" +:+ Sample.tab +:+ "-y server-x") "stdio" ∅
     {| stdin := []; out := []; srv := tt; tools := [] |}).1
  = Ret (StdioConfig ("npx" +:+ Sample.tab +:+ "-y") ["server-x"] ∅) /\
  spec_stdio_config ("npx" +:+ Sample.tab +:+ "-y server-x") ∅
  = StdioConfig "npx" ["-y"; "server-x"] ∅ /\
  ~ splits_on_first_whitespace_run unit RefServer.repr_config
      ("npx" +:+ Sample.tab +:+ "-y server-x") ∅
      {| stdin := []; out := []; srv := tt; tools := [] |}.
Proof.
  split; [reflexivity|]. split; [reflexivity|].
  unfold splits_on_first_whitespace_run. intros H.
  assert (E : (FastMcpClient_init unit RefServer.repr_config
                 ("npx" +:+ Sample.tab +:+ "-y server-x") "stdio" ∅
                 {| stdin := []; out := []; srv := tt; tools := [] |}).1
              = Ret (StdioConfig ("npx" +:+ Sample.tab +:+ "-y") ["server-x"] ∅))
    by reflexivity.
  rewrite E in H.
  assert (E2 : spec_stdio_config ("npx" +:+ Sample.tab +:+ "-y server-x") ∅
               = StdioConfig "npx" ["-y"; "server-x"] ∅) by reflexivity.
  rewrite E2 in H. discriminate H.
Qed.

(** [-type stdio], no [-url], and the command line of a server typed at the
    prompt. *)
Lemma prompted_endpoint_must_start_with_http_witness :
  main unit RefServer.new RefServer.enter RefServer.exit RefServer.list_tools RefServer.call_tool
    RefJson.loads RefJson.dumps RefServer.repr_config Sample.stdio_args
    {| stdin := ["npx -y server-x"; "quit"]; out := []; srv := tt; tools := [] |}
  = (Ret tt,
     {| stdin := ["quit"];
        out := [EvPrintHelp; EvPrint SAMPLE;
                EvPrint (nl +:+ nl +:+ "input url (sse or streamable):");
                EvInput ""; EvPrint "URL string must start with http"; EvSleep 1];
        srv := tt; tools := [] |}).
Proof.
  apply (prompted_endpoint_must_start_with_http unit RefServer.new RefServer.enter RefServer.exit
           RefServer.list_tools RefServer.call_tool RefJson.loads RefJson.dumps
           RefServer.repr_config Sample.stdio_args
           {| stdin := ["npx -y server-x"; "quit"]; out := []; srv := tt; tools := [] |}
           "npx -y server-x" ["quit"]); reflexivity.
Defined.

(** C9, as the specification states it, fails: with [-type stdio] the
    endpoint [npx -y server-x] typed at the prompt is turned down like any
    other that does not begin with [http]. *)
Lemma stdio_endpoint_rejected_counterexample :
  ~ stdio_endpoint_not_rejected unit RefServer.new RefServer.enter RefServer.exit
      RefServer.list_tools RefServer.call_tool RefJson.loads RefJson.dumps
      RefServer.repr_config Sample.stdio_args
      {| stdin := ["npx -y server-x"; "quit"]; out := []; srv := tt; tools := [] |}.
Proof.
  unfold stdio_endpoint_not_rejected. intros H.
  apply H; [reflexivity | reflexivity |].
  vm_compute. do 4 (apply elem_of_cons; right). apply elem_of_cons. left. reflexivity.
Qed.

(** ** Whole sessions against the reference server *)

(** The command [list] ends the session with a [TypeError] that the
    [__main__] block does not catch; [quit] is never read. *)
Example session_list :
  (script unit RefServer.new RefServer.enter RefServer.exit RefServer.list_tools RefServer.call_tool
     RefJson.loads RefJson.dumps RefServer.repr_config Sample.sse_args
     {| stdin := ["list"; "quit"]; out := []; srv := tt; tools := [] |}).1
  = Raise (TypeError "object NoneType can't be used in 'await' expression").
Proof. vm_compute. reflexivity. Qed.

(** The table is printed once after connecting, where [cmd_list_tools] is
    called without [await], and the session ends normally on [quit]. *)
Example session_quit :
  let r := script unit RefServer.new RefServer.enter RefServer.exit RefServer.list_tools
             RefServer.call_tool RefJson.loads RefJson.dumps RefServer.repr_config
             Sample.sse_args
             {| stdin := ["quit"]; out := []; srv := tt; tools := [] |} in
  r.1 = Ret tt /\
  out r.2 =
    [EvPrint "Use Header A:1"; EvPrint "Invalid header format: novalue";
     EvPrint "Use Header A:2";
     EvConnect (RemoteConfig "http://host/sse" (<["A" := "2"]> ∅) "sse" 3600)]
    ++ table RefServer.catalog ++ [EvInput cmd_prompt; EvClose].
Proof. vm_compute. split; reflexivity. Qed.

(** A call of [echo] with arguments typed over three lines, then the end
    of the input: the [__main__] block ends the run quietly. *)
Example session_echo :
  let r := script unit RefServer.new RefServer.enter RefServer.exit RefServer.list_tools
             RefServer.call_tool RefJson.loads RefJson.dumps RefServer.repr_config
             Sample.sse_args
             {| stdin := map RefJson.text_of ["1"; "{"; " 'x': [1,"; "2]}"];
                out := []; srv := tt; tools := [] |} in
  r.1 = Ret tt /\
  drop 20 (out r.2) =
    [EvLoads (RefJson.text_of "{'x': [1, 2]}");
     EvPrint (RefJson.text_of ("{" +:+ nl +:+ "  'x': [" +:+ nl +:+ "    1,"
                                 +:+ nl +:+ "    2" +:+ nl +:+ "  ]" +:+ nl +:+ "}"));
     EvInput cmd_prompt; EvClose; EvPrint ""].
Proof. vm_compute. split; reflexivity. Qed.

(** A command of 4301 digits ends the session with the [ValueError] of
    [int]; the connection is closed and [quit] is never read. *)
Example session_long_number :
  let r := script unit RefServer.new RefServer.enter RefServer.exit
             RefServer.list_tools RefServer.call_tool RefJson.loads RefJson.dumps
             RefServer.repr_config Sample.sse_args
             {| stdin := [Cases.long_number; "quit"]; out := []; srv := tt;
                tools := [] |} in
  r.1 = Raise (ValueError (int_limit_message 4301)) /\
  stdin r.2 = ["quit"] /\ last (out r.2) = Some EvClose.
Proof. vm_compute. repeat split; reflexivity. Qed.

(** Call arguments that hold a number of 4301 digits end the session with
    the [ValueError] of [json.loads]. *)
Example session_long_argument :
  let r := script unit RefServer.new RefServer.enter RefServer.exit
             RefServer.list_tools RefServer.call_tool RefJson.loads RefJson.dumps
             RefServer.repr_config Sample.sse_args
             {| stdin := ["1"; Cases.long_number_object; "quit"]; out := [];
                srv := tt; tools := [] |} in
  r.1 = Raise (ValueError (int_limit_message 4301)) /\
  stdin r.2 = ["quit"] /\ last (out r.2) = Some EvClose.
Proof. vm_compute. repeat split; reflexivity. Qed.

(** A client that refuses an endpoint that is no URL: the run ends when the
    client is constructed, before any connection. *)
Example session_invalid_url :
  script unit Cases.strict_new RefServer.enter RefServer.exit RefServer.list_tools
    RefServer.call_tool RefJson.loads RefJson.dumps RefServer.repr_config
    Cases.bad_url_args
    {| stdin := ["quit"]; out := []; srv := tt; tools := [] |}
  = (Raise (ValueError "invalid server url"),
     {| stdin := ["quit"]; out := []; srv := tt; tools := [] |}).
Proof. vm_compute. reflexivity. Qed.

(** ** The further properties at concrete inputs *)

(** The object of four lines: the value returned is the parse of the last
    buffer. *)
Lemma input_json_returns_a_parsed_object_text_witness :
  exists buffer evs,
    Str.startswith buffer "{" = true /\
    RefJson.loads buffer = Parsed Sample.object_value /\
    out (input_json unit RefJson.loads "args:"
           {| stdin := Sample.object_lines ++ ["quit"]; out := []; srv := tt;
              tools := [] |}).2
    = [] ++ evs ++ [EvLoads buffer].
Proof.
  apply (input_json_returns_a_parsed_object_text unit RefJson.loads "args:"
           {| stdin := Sample.object_lines ++ ["quit"]; out := []; srv := tt;
              tools := [] |}
           Sample.object_value
           (input_json unit RefJson.loads "args:"
              {| stdin := Sample.object_lines ++ ["quit"]; out := []; srv := tt;
                 tools := [] |}).2).
  vm_compute. reflexivity.
Defined.

(** An object of call arguments that holds a number of 4301 digits: the
    reader raises the [ValueError] of [json.loads], its last effect; the
    line after it is left unread. *)
Lemma input_json_raises_at_end_of_input_or_in_loads_witness :
  let w0 := {| stdin := [Cases.long_number_object; "quit"]; out := []; srv := tt;
               tools := [] |} in
  let w1 := {| stdin := ["quit"];
               out := [EvInput "args:"; EvLoads Cases.long_number_object];
               srv := tt; tools := [] |} in
  input_json unit RefJson.loads "args:" w0
  = (Raise (ValueError (int_limit_message 4301)), w1) /\
  ((ValueError (int_limit_message 4301) = EOFError /\ stdin w1 = []) \/
   (exists j buffer evs,
      ValueError (int_limit_message 4301) = exn_of j /\
      Str.startswith buffer "{" = true /\ RefJson.loads buffer = Raises j /\
      out w1 = out w0 ++ evs ++ [EvLoads buffer] /\
      length (stdin w1) < length (stdin w0))).
Proof.
  intros w0 w1.
  assert (E : input_json unit RefJson.loads "args:" w0
              = (Raise (ValueError (int_limit_message 4301)), w1))
    by (vm_compute; reflexivity).
  split; [exact E|].
  exact (input_json_raises_at_end_of_input_or_in_loads unit RefJson.loads "args:"
           w0 (ValueError (int_limit_message 4301)) w1 E).
Defined.

(** The tool [echo] of the reference server; and a server that answers
    with a text segment of 4301 digits: the call succeeded and is reported
    as failed. *)
Lemma successful_call_is_reported_witness :
  cmd_call_tool unit RefServer.call_tool RefJson.loads RefJson.dumps "echo"
    (JDict [("x", JInt 1)])
    {| stdin := ["quit"]; out := []; srv := tt; tools := RefServer.catalog |}
  = (Ret tt,
     {| stdin := ["quit"];
        out := [EvPrint "call tool echo ...";
                EvPrint ("[PROGRESS] 1.0/1.0 done" +:+ nl);
                EvPrint (nl +:+ "================ tool result ===============" +:+ nl);
                EvLoads (RefJson.text_of "{'x': 1}");
                EvPrint (RefJson.text_of ("{" +:+ nl +:+ "  'x': 1" +:+ nl +:+ "}"))];
        srv := tt; tools := RefServer.catalog |}) /\
  cmd_call_tool unit Cases.long_answer RefJson.loads RefJson.dumps "echo" (JDict [])
    {| stdin := ["quit"]; out := []; srv := tt; tools := RefServer.catalog |}
  = (Ret tt,
     {| stdin := ["quit"];
        out := [EvPrint "call tool echo ...";
                EvPrint (nl +:+ "================ tool result ===============" +:+ nl);
                EvLoads (RefJson.text_of "{'a':1}");
                EvPrint (RefJson.text_of ("{" +:+ nl +:+ "  'a': 1" +:+ nl +:+ "}"));
                EvLoads Cases.long_number;
                EvPrint ("Failed to call tool 'echo': " +:+ int_limit_message 4301)];
        srv := tt; tools := RefServer.catalog |}).
Proof.
  split.
  - apply (proj1 (successful_call_is_reported unit RefServer.call_tool RefJson.loads
                    RefJson.dumps "echo" (JDict [("x", JInt 1)])
                    {| stdin := ["quit"]; out := []; srv := tt;
                       tools := RefServer.catalog |}
                    [ {| progress := "1.0"; total := "1.0"; message := "done" |} ]
                    {| content := Some [ {| ctype := "text";
                                             text := RefJson.dumps (JDict [("x", JInt 1)]) None false;
                                             crepr := "" |} ];
                       rrepr := "CallToolResult" |}
                    tt eq_refl)).
    intros segments c Hs Hc. injection Hs as <-.
    apply elem_of_cons in Hc as [-> | Hc]; [vm_compute; reflexivity | inversion Hc].
  - apply (proj2 (successful_call_is_reported unit Cases.long_answer RefJson.loads
                    RefJson.dumps "echo" (JDict [])
                    {| stdin := ["quit"]; out := []; srv := tt;
                       tools := RefServer.catalog |}
                    [] Cases.long_number_result tt eq_refl)
             [Sample.json_segment] Cases.long_number_segment [Sample.plain_segment]
             (JSONValueError (int_limit_message 4301))).
    + reflexivity.
    + intros c Hc.
      apply elem_of_cons in Hc as [-> | Hc]; [vm_compute; reflexivity | inversion Hc].
    + vm_compute. reflexivity.
Defined.

(** A call interrupted from the keyboard. *)
Lemma only_base_exceptions_leave_cmd_call_tool_witness :
  is_Exception KeyboardInterrupt = false /\
  exists notifications,
    RefFaulty.interrupted_call "echo" (JDict []) tt
      = ((notifications, inl KeyboardInterrupt), tt) /\
    out (cmd_call_tool unit RefFaulty.interrupted_call RefJson.loads RefJson.dumps
           "echo" (JDict [])
           {| stdin := []; out := []; srv := tt; tools := [] |}).2
    = [] ++ [EvPrint "call tool echo ..."] ++ map log_callback notifications.
Proof.
  apply (only_base_exceptions_leave_cmd_call_tool unit RefFaulty.interrupted_call
           RefJson.loads RefJson.dumps "echo" (JDict [])
           {| stdin := []; out := []; srv := tt; tools := [] |}
           KeyboardInterrupt
           (cmd_call_tool unit RefFaulty.interrupted_call RefJson.loads RefJson.dumps
              "echo" (JDict [])
              {| stdin := []; out := []; srv := tt; tools := [] |}).2).
  vm_compute. reflexivity.
Defined.

(** The tool [echo] chosen by its number, then arguments that hold a
    number of 4301 digits: the loop ends with the [ValueError] of
    [json.loads]. *)
Lemma cmd_loop_ends_in_six_ways_witness :
  let w0 := {| stdin := ["1"; Cases.long_number_object; "quit"]; out := [];
               srv := tt; tools := RefServer.catalog |} in
  (cmd_loop unit RefServer.call_tool RefJson.loads RefJson.dumps w0).1
  = Raise (ValueError (int_limit_message 4301)) /\
  exists j buffer pre,
    ValueError (int_limit_message 4301) = exn_of j /\
    Str.startswith buffer "{" = true /\ RefJson.loads buffer = Raises j /\
    out (cmd_loop unit RefServer.call_tool RefJson.loads RefJson.dumps w0).2
    = pre ++ [EvLoads buffer].
Proof.
  intros w0.
  assert (Ha : Forall (fun line => ascii_only line = true) (stdin w0)).
  { repeat (apply Forall_cons; split; [vm_compute; reflexivity|]). apply Forall_nil_2. }
  pose proof (cmd_loop_ends_in_six_ways unit RefServer.call_tool RefJson.loads
                RefJson.dumps w0 Ha) as H.
  assert (E : (cmd_loop unit RefServer.call_tool RefJson.loads RefJson.dumps w0).1
              = Raise (ValueError (int_limit_message 4301)))
    by (vm_compute; reflexivity).
  split; [exact E|].
  rewrite E in H.
  destruct H as [[H _] | [[H _] | [(line & Hin & Hd & Hlen & _) | [H | [H _]]]]].
  - discriminate H.
  - discriminate H.
  - exfalso.
    repeat (apply elem_of_cons in Hin as [-> | Hin];
            [first [vm_compute in Hd; discriminate Hd
                   | apply Nat.ltb_lt in Hlen; vm_compute in Hlen; discriminate Hlen]|]).
    inversion Hin.
  - exact H.
  - discriminate H.
Defined.

(** The command [dump], with blanks around it. *)
Lemma dump_command_writes_the_catalog_witness :
  cmd_loop unit RefServer.call_tool RefJson.loads RefJson.dumps
    {| stdin := ["  dump "; "quit"]; out := []; srv := tt; tools := RefServer.catalog |}
  = cmd_loop unit RefServer.call_tool RefJson.loads RefJson.dumps
      {| stdin := ["quit"];
         out := [EvInput cmd_prompt;
                 EvFile "schema.json"
                   (RefJson.dumps
                      (JList [JDict [("name", JStr "echo")];
                              JDict [("name", JStr "fail")]]) (Some 2) false);
                 EvPrint "schema.json saved"];
         srv := tt; tools := RefServer.catalog |}.
Proof.
  apply (dump_command_writes_the_catalog unit RefServer.call_tool RefJson.loads
           RefJson.dumps
           {| stdin := ["  dump "; "quit"]; out := []; srv := tt;
              tools := RefServer.catalog |} "  dump " ["quit"]);
    reflexivity.
Defined.

(** An unknown command, and [quit] before another command. *)
Lemma commands_without_effect_witness :
  cmd_loop unit RefServer.call_tool RefJson.loads RefJson.dumps
    {| stdin := ["help"; "quit"]; out := []; srv := tt; tools := [] |}
  = cmd_loop unit RefServer.call_tool RefJson.loads RefJson.dumps
      {| stdin := ["quit"]; out := [EvInput cmd_prompt; EvPrint "Unknown command"];
         srv := tt; tools := [] |} /\
  cmd_loop unit RefServer.call_tool RefJson.loads RefJson.dumps
    {| stdin := [" quit"; "1"]; out := []; srv := tt; tools := [] |}
  = (Ret tt, {| stdin := ["1"]; out := [EvInput cmd_prompt]; srv := tt; tools := [] |}).
Proof.
  split.
  - apply (proj1 (proj2 (commands_without_effect unit RefServer.call_tool
                           RefJson.loads RefJson.dumps
                           {| stdin := ["help"; "quit"]; out := []; srv := tt;
                              tools := [] |} "help" ["quit"] eq_refl)));
      (reflexivity || discriminate).
  - apply (proj2 (proj2 (commands_without_effect unit RefServer.call_tool
                           RefJson.loads RefJson.dumps
                           {| stdin := [" quit"; "1"]; out := []; srv := tt;
                              tools := [] |} " quit" ["1"] eq_refl))).
    reflexivity.
Defined.

(** A catalog whose only tool has no name. *)
Lemma unnamed_tool_is_never_called_witness :
  cmd_loop_body unit RefServer.call_tool RefJson.loads RefJson.dumps tt
    {| stdin := ["1"; "{}"]; out := []; srv := tt; tools := Cases.unnamed_catalog |}
  = (Ret (Continue tt),
     {| stdin := ["{}"];
        out := [EvInput cmd_prompt;
                EvPrint (RefJson.dumps (JDict [("name", JStr "")]) (Some 2) false)];
        srv := tt; tools := Cases.unnamed_catalog |}).
Proof.
  apply (unnamed_tool_is_never_called unit RefServer.call_tool RefJson.loads
           RefJson.dumps
           {| stdin := ["1"; "{}"]; out := []; srv := tt;
              tools := Cases.unnamed_catalog |} "1" ["{}"]
           {| name := ""; model_dump := JDict [("name", JStr "")] |});
    first [reflexivity | apply Nat.leb_le; reflexivity | vm_compute; discriminate].
Defined.

(** A session with the reference server that ends at the end of the input. *)
Lemma connected_session_is_bracketed_witness :
  tools (connect_and_loop unit RefServer.enter RefServer.exit RefServer.list_tools
           RefServer.call_tool RefJson.loads RefJson.dumps Cases.web_config
           {| stdin := ["7"]; out := []; srv := tt; tools := [] |}).2
  = RefServer.catalog /\
  (connect_and_loop unit RefServer.enter RefServer.exit RefServer.list_tools
     RefServer.call_tool RefJson.loads RefJson.dumps Cases.web_config
     {| stdin := ["7"]; out := []; srv := tt; tools := [] |}).1
  = Raise EOFError.
Proof.
  destruct (connected_session_is_bracketed unit RefServer.enter RefServer.exit
              RefServer.list_tools RefServer.call_tool RefJson.loads RefJson.dumps
              Cases.web_config
              {| stdin := ["7"]; out := []; srv := tt; tools := [] |}
              RefServer.catalog tt eq_refl eq_refl) as (Ht & _ & Hr).
  split; [exact Ht|]. rewrite Hr. vm_compute. reflexivity.
Defined.

(** A server that refuses the connection, and one that cannot list. *)
Lemma failures_before_the_loop_witness :
  connect_and_loop unit RefFaulty.refuse RefServer.exit RefServer.list_tools
    RefServer.call_tool RefJson.loads RefJson.dumps Cases.web_config
    {| stdin := ["quit"]; out := []; srv := tt; tools := [] |}
  = (Raise (Exception "connection refused"),
     {| stdin := ["quit"]; out := [EvConnect Cases.web_config]; srv := tt;
        tools := [] |}) /\
  connect_and_loop unit RefServer.enter RefServer.exit RefFaulty.no_tools
    RefServer.call_tool RefJson.loads RefJson.dumps Cases.web_config
    {| stdin := ["quit"]; out := []; srv := tt; tools := [] |}
  = (Raise (Exception "tools/list failed"),
     {| stdin := ["quit"]; out := [EvConnect Cases.web_config; EvClose]; srv := tt;
        tools := [] |}).
Proof.
  split.
  - apply (proj1 (failures_before_the_loop unit RefFaulty.refuse RefServer.exit
                    RefServer.list_tools RefServer.call_tool RefJson.loads
                    RefJson.dumps Cases.web_config
                    {| stdin := ["quit"]; out := []; srv := tt; tools := [] |}
                    (Exception "connection refused"))).
    reflexivity.
  - apply (proj2 (failures_before_the_loop unit RefServer.enter RefServer.exit
                    RefFaulty.no_tools RefServer.call_tool RefJson.loads
                    RefJson.dumps Cases.web_config
                    {| stdin := ["quit"]; out := []; srv := tt; tools := [] |}
                    (Exception "tools/list failed")) tt); reflexivity.
Defined.

(** The endpoint [http://host/sse] with no [-type]: the transport is
    [sse]. *)
Lemma main_opens_the_configured_connection_witness :
  transport_kind Sample.sse_args "http://host/sse" = "sse" /\
  arg_type Sample.sse_args <> "stdio".
Proof.
  destruct (main_opens_the_configured_connection unit RefServer.new RefServer.enter RefServer.exit
              RefServer.list_tools RefServer.call_tool RefJson.loads RefJson.dumps
              RefServer.repr_config Sample.sse_args
              {| stdin := ["quit"]; out := []; srv := tt; tools := [] |}
              (out (main unit RefServer.new RefServer.enter RefServer.exit RefServer.list_tools
                      RefServer.call_tool RefJson.loads RefJson.dumps
                      RefServer.repr_config Sample.sse_args
                      {| stdin := ["quit"]; out := []; srv := tt; tools := [] |}).2)
              (RemoteConfig "http://host/sse" (<["A" := "2"]> ∅) "sse" 3600))
    as (Hst & Hk & _).
  - reflexivity.
  - vm_compute. do 3 (apply elem_of_cons; right). apply elem_of_cons. left. reflexivity.
  - split; [symmetry; exact Hk | exact Hst].
Defined.

Lemma ref_calls_fail_with_Exception :
  calls_fail_with_Exception unit RefServer.call_tool.
Proof.
  intros tool_name arguments s ps e s' H. unfold RefServer.call_tool in H.
  destruct (decide (tool_name = "echo")); [discriminate|].
  injection H as _ <- _. reflexivity.
Defined.

(** A session with two calls that ends with the input, without [quit]. *)
Lemma sessions_end_normally_or_in_four_errors_witness :
  let r := script unit RefServer.new RefServer.enter RefServer.exit
             RefServer.list_tools RefServer.call_tool RefJson.loads RefJson.dumps
             RefServer.repr_config Sample.sse_args
             {| stdin := ["1"; "{}"; "2"; "{}"; "lists"]; out := []; srv := tt;
                tools := [] |} in
  r.1 = Ret tt \/
  (exists config e, RefServer.new config = Some e /\ r.1 = Raise e) \/
  (exists line, line ∈ ["1"; "{}"; "2"; "{}"; "lists"] /\ Str.strip line = "list" /\
     r.1 = Raise (TypeError "object NoneType can't be used in 'await' expression")) \/
  (exists line, line ∈ ["1"; "{}"; "2"; "{}"; "lists"] /\
     Str.isdigit (Str.strip line) = true /\
     int_max_str_digits < String.length (Str.strip line) /\
     r.1 = Raise (ValueError (int_limit_message (String.length (Str.strip line))))) \/
  (exists j buffer,
     Str.startswith buffer "{" = true /\ RefJson.loads buffer = Raises j /\
     EvLoads buffer ∈ out r.2 /\ r.1 = Raise (exn_of j)).
Proof.
  intros r.
  apply (sessions_end_normally_or_in_four_errors unit RefServer.new RefServer.enter
           RefServer.exit RefServer.list_tools RefServer.call_tool RefJson.loads
           RefJson.dumps RefServer.repr_config Sample.sse_args
           {| stdin := ["1"; "{}"; "2"; "{}"; "lists"]; out := []; srv := tt;
              tools := [] |}).
  - exact ref_calls_fail_with_Exception.
  - reflexivity.
  - intros s. exists RefServer.catalog. reflexivity.
  - repeat (apply Forall_cons; split; [vm_compute; reflexivity|]). apply Forall_nil_2.
Defined.

(** The second row of the table of the reference server and the command
    [2]. *)
Lemma table_number_selects_its_tool_witness :
  ((cmd_list_tools unit
      {| stdin := ["2"; "{}"]; out := []; srv := tt; tools := RefServer.catalog |}).1
   = Ret tt /\
   out (cmd_list_tools unit
          {| stdin := ["2"; "{}"]; out := []; srv := tt;
             tools := RefServer.catalog |}).2 !! 3
   = Some (EvPrint " 2    | fail")) /\
  exists evs,
    out (cmd_loop_body unit RefServer.call_tool RefJson.loads RefJson.dumps tt
           {| stdin := ["2"; "{}"]; out := []; srv := tt; tools := RefServer.catalog |}).2
    = [] ++ [EvInput cmd_prompt;
             EvPrint (RefJson.dumps (JDict [("name", JStr "fail")]) (Some 2) false)]
         ++ evs.
Proof.
  apply (table_number_selects_its_tool unit RefServer.call_tool RefJson.loads
           RefJson.dumps
           {| stdin := ["2"; "{}"]; out := []; srv := tt; tools := RefServer.catalog |}
           1 {| name := "fail"; model_dump := JDict [("name", JStr "fail")] |} ["{}"]);
    first [reflexivity | apply Nat.leb_le; reflexivity].
Defined.

(** The target [npx -y "a b"]: the quoted text is cut at its space. *)
Lemma stdio_arguments_are_words_witness :
  Forall is_word ["-y"; RefJson.text_of "'a"; RefJson.text_of "b'"].
Proof.
  apply (stdio_arguments_are_words unit RefServer.repr_config Cases.quoted_target ∅
           {| stdin := []; out := []; srv := tt; tools := [] |}
           "npx" ["-y"; RefJson.text_of "'a"; RefJson.text_of "b'"] ∅).
  reflexivity.
Defined.
